(** * PyIntfLab: a shallow embedding of the batch drivers

    The repository glues an external InSAR tool chain together with five
    Python scripts: [download_S1_SLC_dem.py], [download_S1_SLC_orbit.py],
    [unzip_S1_SLC.py], [Stack.py] and [RunStack.py].  Each script is embedded
    below in a module of its own.  What the operating system, the network,
    the user and the external programs answer is an explicit argument of the
    embedded functions, so every function stays executable. *)

From Stdlib Require Import ZArith QArith String Ascii List Bool Lia Lqa Floats DecimalString.
From stdpp Require Import gmap strings list sorting.

Local Open Scope string_scope.
Local Open Scope Z_scope.

(** * Part I: the programs *)

(** ** Python values and built-ins used by the scripts *)

Module Py.

Inductive exn : Type :=
  | NameError | AttributeError | ValueError | IndexError | OverflowError
  | FileNotFoundError | NotADirectoryError | OSError | BadZipFile
  | CalledProcessError (returncode : Z)
  | HTTPError | EOFError.

Inductive result (A : Type) : Type :=
  | Return (a : A)
  | Raise (e : exn).
Arguments Return {A} a.
Arguments Raise {A} e.

Definition bind {A B} (r : result A) (k : A -> result B) : result B :=
  match r with
  | Return a => k a
  | Raise e => Raise e
  end.

#[global] Instance result_ret : MRet result := @Return.
#[global] Instance result_bind : MBind result := fun A B k r => bind r k.

(** *** Strings.  A [str] is kept as a sequence of characters below 256. *)

Definition len (s : string) : Z := Z.of_nat (String.length s).

(** How a slice bound is brought into [0 .. n]: negative bounds count from
    the end. *)
Definition clip (n i : Z) : Z :=
  if i <? 0 then Z.max (n + i) 0 else Z.min i n.

(** [s[lo:hi]]; [None] is an omitted bound. *)
Definition slice (s : string) (lo hi : option Z) : string :=
  let n := len s in
  let a := match lo with Some i => clip n i | None => 0 end in
  let b := match hi with Some i => clip n i | None => n end in
  substring (Z.to_nat a) (Z.to_nat (b - a)) s.

(** [l[i]] on a list, negative [i] counting from the end. *)
Definition item {A} (l : list A) (i : Z) : result A :=
  let n := Z.of_nat (length l) in
  let j := if i <? 0 then n + i else i in
  if (j <? 0) || (n <=? j) then Raise IndexError
  else match nth_error l (Z.to_nat j) with
       | Some a => Return a
       | None => Raise IndexError
       end.

(** [needle in s] on strings. *)
Fixpoint contains (needle s : string) : bool :=
  String.prefix needle s ||
  match s with
  | EmptyString => false
  | String _ s' => contains needle s'
  end.

(** [s.split(sep)] for a non-empty separator: [skip] characters of a
    separator found are still to be passed over, [cur] is the piece being
    read, last character first. *)
Fixpoint split_go (sep : string) (skip : nat) (cur : string) (s : string) : list string :=
  match s with
  | EmptyString => [String.rev cur]
  | String c s' =>
      match skip with
      | S k => split_go sep k cur s'
      | O =>
          if String.prefix sep s
          then String.rev cur :: split_go sep (String.length sep - 1) EmptyString s'
          else split_go sep 0 (String c cur) s'
      end
  end.

Definition split (s sep : string) : list string := split_go sep 0 EmptyString s.

(** [str(i)] and the format specifications [{i:02d}] and [{i:4d}]. *)
Definition str_of_int (i : Z) : string := NilZero.string_of_int (Z.to_int i).

Fixpoint repeat_char (c : ascii) (n : nat) : string :=
  match n with
  | O => EmptyString
  | S k => String c (repeat_char c k)
  end.

(** [{i:0wd}]: zeros go between the sign and the digits. *)
Definition format_0d (w : nat) (i : Z) : string :=
  let digits := str_of_int (Z.abs i) in
  let sign := if i <? 0 then "-" else "" in
  let used := (String.length sign + String.length digits)%nat in
  sign ++ repeat_char "0" (w - used) ++ digits.

(** [{i:wd}]: blanks go in front. *)
Definition format_d (w : nat) (i : Z) : string :=
  let body := str_of_int i in
  repeat_char " " (w - String.length body) ++ body.

(** The characters [str.strip()] drops: the ones [str.isspace()] holds for. *)
Definition is_space (c : ascii) : bool :=
  let n := nat_of_ascii c in
  ((9 <=? n) && (n <=? 13) || (28 <=? n) && (n <=? 32) || (n =? 133) || (n =? 160))%nat.

(** The blanks [int(s)] passes over on either side of the number: ASCII
    white space, and the two other blanks below 256; not the separators
    0x1C to 0x1F, which [str.strip()] does drop. *)
Definition is_int_space (c : ascii) : bool :=
  let n := nat_of_ascii c in
  ((9 <=? n) && (n <=? 13) || (n =? 32) || (n =? 133) || (n =? 160))%nat.

Definition is_digit (c : ascii) : bool :=
  let n := nat_of_ascii c in ((48 <=? n) && (n <=? 57))%nat.

Definition digit_value (c : ascii) : Z := Z.of_nat (nat_of_ascii c) - 48.

Fixpoint lstrip (s : string) : string :=
  match s with
  | String c s' => if is_space c then lstrip s' else s
  | EmptyString => EmptyString
  end.

Definition strip (s : string) : string :=
  String.rev (lstrip (String.rev (lstrip s))).

Fixpoint int_lstrip (s : string) : string :=
  match s with
  | String c s' => if is_int_space c then int_lstrip s' else s
  | EmptyString => EmptyString
  end.

(** Reads the digits left to right; [prev_digit] tells whether the
    character just read was a digit, which is what an underscore needs on
    its left and the end of the text needs as well. *)
Fixpoint read_digits (acc : Z) (prev_digit : bool) (s : string) : option Z :=
  match s with
  | EmptyString => if prev_digit then Some acc else None
  | String c s' =>
      if is_digit c then read_digits (10 * acc + digit_value c) true s'
      else if (Ascii.eqb c "_") && prev_digit then
        match s' with
        | String d _ => if is_digit d then read_digits acc false s' else None
        | EmptyString => None
        end
      else None
  end.

(** [int(s)] in base ten.  Blanks on either side are dropped, one sign is
    read, and single underscores may stand between digits. *)
Definition int_of_str (s : string) : result Z :=
  let body := String.rev (int_lstrip (String.rev (int_lstrip s))) in
  let '(neg, digits) :=
    match body with
    | String "-" r => (true, r)
    | String "+" r => (false, r)
    | _ => (false, body)
    end in
  match read_digits 0 false digits with
  | Some v => Return (if neg then - v else v)
  | None => Raise ValueError
  end.

(** *** Paths ([os.path] and [pathlib]), on paths written with [/]. *)

(** [os.path.basename(p)], which is [Path(p).name] on such a path. *)
Fixpoint basename_go (cur s : string) : string :=
  match s with
  | EmptyString => cur
  | String c s' => if Ascii.eqb c "/" then basename_go s' s' else basename_go cur s'
  end.

Definition basename (p : string) : string := basename_go p p.

(** Position of the last ["."] of [s], if any. *)
Fixpoint rfind_dot (pos : nat) (found : option nat) (s : string) : option nat :=
  match s with
  | EmptyString => found
  | String c s' => rfind_dot (S pos) (if Ascii.eqb c "." then Some pos else found) s'
  end.

(** [Path(p).stem]: the name up to its last dot, when that dot is neither
    the first nor the last character of the name. *)
Definition stem (p : string) : string :=
  let name := basename p in
  match rfind_dot 0 None name with
  | Some i =>
      if ((0 <? i) && (i <? String.length name - 1))%nat
      then substring 0 i name else name
  | None => name
  end.

(** [os.path.join(d, name)]; on a path in [pathlib]'s normal form other
    than [.] it is [Path(d) / name] as well. *)
Definition join (d name : string) : string :=
  if String.prefix "/" name then name
  else if String.eqb d "" || String.eqb (slice d (Some (-1)) None) "/" then d ++ name
  else d ++ "/" ++ name.

(** [str(Path(p))].  [pathlib] keeps a root and the components: one slash,
    or three and more, at the front are the root [/], exactly two are the
    root [//]; empty components and [.] components are dropped, and with
    them doubled and trailing slashes; a path with neither root nor
    component is written [.].  Components [..] stay. *)
Definition path_root (p : string) : string :=
  if String.prefix "///" p then "/"
  else if String.prefix "//" p then "//"
  else if String.prefix "/" p then "/"
  else "".

Definition path_parts (p : string) : list string :=
  List.filter (fun c => negb (String.eqb c "") && negb (String.eqb c ".")) (split p "/").

Definition path_str (p : string) : string :=
  match path_root p, path_parts p with
  | EmptyString, [] => "."
  | root, parts => root ++ String.concat "/" parts
  end.

(** [str(Path(d) / name)], which is also how [Path(d).glob(pattern)] writes
    the entry [name] it finds in [d]. *)
Definition path_div (d name : string) : string := path_str (join d name).
Arguments path_div : simpl never.

(** [glob.has_magic(s)]: one of the wildcard characters occurs in [s]. *)
Definition has_magic (s : string) : bool :=
  contains "*" s || contains "?" s || contains "[" s.

(** *** Dates: [datetime(y, m, d)] and a [timedelta] of one day. *)

Record date : Type := Date { year : Z; month : Z; day : Z }.

Definition is_leap (y : Z) : bool :=
  (y mod 4 =? 0) && (negb (y mod 100 =? 0) || (y mod 400 =? 0)).

Definition days_in_month (y m : Z) : Z :=
  if m =? 2 then (if is_leap y then 29 else 28)
  else if (m =? 4) || (m =? 6) || (m =? 9) || (m =? 11) then 30
  else 31.

Definition datetime (y m d : Z) : result date :=
  if (1 <=? y) && (y <=? 9999) && (1 <=? m) && (m <=? 12)
     && (1 <=? d) && (d <=? days_in_month y m)
  then Return (Date y m d)
  else Raise ValueError.

(** [dt - timedelta(days=1)] *)
Definition minus_one_day (dt : date) : result date :=
  if 1 <? day dt then Return (Date (year dt) (month dt) (day dt - 1))
  else if 1 <? month dt
  then Return (Date (year dt) (month dt - 1) (days_in_month (year dt) (month dt - 1)))
  else if 1 <? year dt then Return (Date (year dt - 1) 12 31)
  else Raise OverflowError.

(** [dt + timedelta(days=1)] *)
Definition plus_one_day (dt : date) : result date :=
  if day dt <? days_in_month (year dt) (month dt)
  then Return (Date (year dt) (month dt) (day dt + 1))
  else if month dt <? 12 then Return (Date (year dt) (month dt + 1) 1)
  else if year dt <? 9999 then Return (Date (year dt + 1) 1 1)
  else Raise OverflowError.


(** [range(lo, hi)] *)
Definition range (lo hi : Z) : list Z :=
  map (fun k => lo + Z.of_nat k) (seq 0 (Z.to_nat (hi - lo))).

(** [sorted(l)] on strings: insertion into an ordered list, by code point. *)
Fixpoint insert_sorted (s : string) (l : list string) : list string :=
  match l with
  | [] => [s]
  | t :: l' => if String.leb s t then s :: l else t :: insert_sorted s l'
  end.

Definition sorted (l : list string) : list string := fold_right insert_sorted [] l.

(** [s.lower()] *)
Definition lower_char (c : ascii) : ascii :=
  let n := nat_of_ascii c in
  if ((65 <=? n) && (n <=? 90) || (192 <=? n) && (n <=? 222) && negb (n =? 215))%nat
  then ascii_of_nat (n + 32) else c.

Fixpoint lower (s : string) : string :=
  match s with
  | EmptyString => EmptyString
  | String c s' => String (lower_char c) (lower s')
  end.

(** What the specification writes [clamp(x, lo, hi)]. *)
Definition clamp (x lo hi : Z) : Z :=
  if x <? lo then lo else if hi <? x then hi else x.

(** [int(q)] for a real number [q]: truncation towards zero. *)
Definition int_of_Q (q : Q) : Z := Z.quot (Qnum q) (Zpos (Qden q)).

(** [a / b] on Python ints is true division.  The scripts only ever divide a
    CPU count by four; binary64 holds that quotient exactly below 2^53, so
    the quotient is kept as the rational it is. *)
Definition truediv (a b : Z) : Q := Qdiv (inject_Z a) (inject_Z b).

(** [str(e)]: the text of an exception is the raising library's; the name
    of its class stands for it. *)
Definition str_of_exn (e : exn) : string :=
  match e with
  | NameError => "NameError" | AttributeError => "AttributeError"
  | ValueError => "ValueError" | IndexError => "IndexError"
  | OverflowError => "OverflowError" | FileNotFoundError => "FileNotFoundError"
  | NotADirectoryError => "NotADirectoryError" | OSError => "OSError"
  | BadZipFile => "BadZipFile"
  | CalledProcessError rc => "CalledProcessError " ++ str_of_int rc
  | HTTPError => "HTTPError" | EOFError => "EOFError"
  end.

(** *** Statements.  A computation acts on a world of type [W] and ends
    with a value or with an exception. *)
Definition M (W A : Type) : Type := W -> W * result A.

#[global] Instance M_ret {W} : MRet (M W) := fun A a w => (w, Return a).
#[global] Instance M_bind {W} : MBind (M W) := fun A B k m w =>
  match m w with
  | (w', Return a) => k a w'
  | (w', Raise e) => (w', Raise e)
  end.

Definition raise {W A} (e : exn) : M W A := fun w => (w, Raise e).

(** A call that does not touch the world. *)
Definition lift {W A} (r : result A) : M W A := fun w => (w, r).

(** [try: body except Exception as e: handler(e)] *)
Definition try_except {W A} (body : M W A) (handler : exn -> M W A) : M W A := fun w =>
  match body w with
  | (w', Return a) => (w', Return a)
  | (w', Raise e) => handler e w'
  end.

(** [Parallel(n_jobs=n_jobs)(tasks)] as joblib runs it with one job: the
    tasks one after the other in the order given, the results in that order;
    an exception leaving a task leaves the whole call, and the tasks behind
    it are not run.  Interleavings of several workers are not modelled.
    joblib refuses [n_jobs = 0]. *)
Fixpoint run_tasks {W A} (tasks : list (M W A)) : M W (list A) :=
  match tasks with
  | [] => mret []
  | t :: rest => a ← t; results ← run_tasks rest; mret (a :: results)
  end.

Definition Parallel {W A} (n_jobs : Z) (tasks : list (M W A)) : M W (list A) :=
  if n_jobs =? 0 then raise ValueError else run_tasks tasks.

(** [int(x)] for a float [x]: the integer part; [nan] and the infinities
    have none. *)
Definition int_of_float (x : float) : result Z :=
  match Prim2SF x with
  | S754_zero _ => Return 0
  | S754_infinity _ => Raise OverflowError
  | S754_nan => Raise ValueError
  | S754_finite s m e =>
      let magnitude := if 0 <=? e then Zpos m * 2 ^ e else Zpos m / 2 ^ (- e) in
      Return (if s then - magnitude else magnitude)
  end.

(** [parser.parse_args()], the first statement of the entry points.
    [argparse] reads the command line and returns the parsed arguments, or
    writes the help text and leaves the process with status 0 ([-h],
    [--help]), or writes a usage error and leaves it with status 2 (a
    required option missing, an unknown option, a value that is no number).
    Which command line meets which end is [argparse]'s business; the entry
    points below are given the outcome. *)
Inductive command_line (A : Type) : Type :=
  | Parsed (args : A)
  | Help
  | Usage_error.
Arguments Parsed {A} args.
Arguments Help {A}.
Arguments Usage_error {A}.

(** What a process reports to its parent: the argument of [sys.exit], 0 when
    the script runs off its end, 1 when an exception reaches the top. *)
Definition exit_code (r : result Z) : Z :=
  match r with
  | Return c => c
  | Raise _ => 1
  end.

(** The number a float stands for; [nan] and the infinities stand for
    none. *)
Definition float_value (x : float) : option Q :=
  match Prim2SF x with
  | S754_zero _ => Some 0%Q
  | S754_finite s m e =>
      let magnitude :=
        if 0 <=? e then inject_Z (Zpos m * 2 ^ e) else Qmake (Zpos m) (Z.to_pos (2 ^ (- e))) in
      Some (if s then Qopp magnitude else magnitude)
  | _ => None
  end.

End Py.

(** ** The machine the two ISCE front ends run on *)

Module Host.
Import Py.

Inductive event : Type :=
  | Print (text : string)
  | Mkdir (path : string)
  | Chdir (path : string)
  | OpenW (path : string)
  | Run (cmd : list string) (cwd : string).

Record world : Type := World { history : list event }.

(** [repr_float] is the text Python prints for a float, [listdir] names the
    entries of a directory, and [fault w ev] is the exception operation [ev]
    ends with in world [w], if any: [CalledProcessError] for a command
    that exits non-zero, [FileNotFoundError] for a program not on the
    path. *)
Record OS : Type := {
  path_exists : string -> bool;
  path_is_dir : string -> bool;
  listdir : string -> list string;
  repr_float : float -> string;
  fault : world -> event -> option exn
}.

Abbreviation M := (Py.M world).

Definition print (text : string) : M unit := fun w =>
  (World (history w ++ [Print text]), Return tt).

Definition attempt (os : OS) (ev : event) : M unit := fun w =>
  match fault os w ev with
  | Some e => (World (history w ++ [ev]), Raise e)
  | None => (World (history w ++ [ev]), Return tt)
  end.

(** What a history holds besides printed lines. *)
Definition work (h : list event) : list event :=
  List.filter (fun ev => match ev with Print _ => false | _ => true end) h.

(** [lo <= x <= hi] on floats. *)
Definition between (lo hi x : float) : bool := ((lo <=? x) && (x <=? hi))%float.

(** [x < lo or hi < x]: the number [x] lies outside [[lo, hi]]. *)
Definition outside (lo hi x : float) : bool := ((x <? lo) || (hi <? x))%float.

(** The bounding boxes the specification wants refused: a minimum not below
    its maximum, a latitude outside [[-90, 90]], a longitude outside
    [[-180, 180]]. *)
Definition malformed (lat_min lat_max lon_min lon_max : float) : Prop :=
  (lat_max <=? lat_min)%float = true \/ (lon_max <=? lon_min)%float = true \/
  outside (-90) 90 lat_min = true \/ outside (-90) 90 lat_max = true \/
  outside (-180) 180 lon_min = true \/ outside (-180) 180 lon_max = true.

(** A run that printed one line, did nothing else and ended with [a]. *)
Definition only_printed {A} (w : world) (r : world * result A) (a : A) : Prop :=
  r.2 = Return a /\ work (history r.1) = work (history w) /\
  exists text, history r.1 = (history w ++ [Print text])%list.

(** The commands started in a history, each with its working directory. *)
Definition commands (h : list event) : list (list string * string) :=
  flat_map (fun ev => match ev with Run cmd cwd => [(cmd, cwd)] | _ => [] end) h.

End Host.

(** ** download_S1_SLC_dem.py *)

Module DownloadDem.
Import Py Host.

(** The parsed command line. *)
Record args : Type := {
  lat_min : float; lat_max : float; lon_min : float; lon_max : float;
  dem_dir : string
}.

(** Lines 96-114.  [a >= b] on floats is [b <= a]. *)
Definition validate_coordinates (a : args) : M bool :=
  if (lat_max a <=? lat_min a)%float then
    _ ← print "ERROR: lat_min must be less than lat_max"; mret false
  else if (lon_max a <=? lon_min a)%float then
    _ ← print "ERROR: lon_min must be less than lon_max"; mret false
  else if negb (between (-90) 90 (lat_min a) && between (-90) 90 (lat_max a)) then
    _ ← print "ERROR: Latitude values must be between -90 and 90"; mret false
  else if negb (between (-180) 180 (lon_min a) && between (-180) 180 (lon_max a)) then
    _ ← print "ERROR: Longitude values must be between -180 and 180"; mret false
  else mret true.

(** Lines 16-73. *)
Definition download_S1_SLC_dem (os : OS) (lat_min lat_max lon_min lon_max : float)
    (dem_dir : string) : M bool :=
  _ ← attempt os (Mkdir dem_dir);
  _ ← attempt os (Chdir dem_dir);
  lat_min_dem ← lift (i ← int_of_float lat_min; Return (i - 1));
  lat_max_dem ← lift (i ← int_of_float lat_max; Return (i + 1));
  lon_min_dem ← lift (i ← int_of_float lon_min; Return (i - 1));
  lon_max_dem ← lift (i ← int_of_float lon_max; Return (i + 1));
  let cmd :=
    ["dem.py"; "-a"; "stitch"; "-b";
     str_of_int lat_min_dem; str_of_int lat_max_dem;
     str_of_int lon_min_dem; str_of_int lon_max_dem;
     "-r"; "-s"; "1"; "-c"] in
  let log_file := join dem_dir "dem.log" in
  try_except
    (_ ← attempt os (OpenW log_file);
     _ ← attempt os (Run cmd dem_dir);
     _ ← print "DEM download completed successfully!";
     mret true)
    (fun e =>
       match e with
       | CalledProcessError returncode =>
           _ ← print ("ERROR: DEM download failed with return code "
                      ++ str_of_int returncode);
           _ ← print ("Check log file for details: " ++ log_file);
           mret false
       | FileNotFoundError =>
           _ ← print "ERROR: dem.py not found. Please ensure it's installed and in PATH.";
           mret false
       | _ =>
           _ ← print ("ERROR: Unexpected error during DEM download: " ++ str_of_exn e);
           mret false
       end).

(** Lines 121-134, from the parsed arguments on. *)
Definition main (os : OS) (a : args) : M Z :=
  valid ← validate_coordinates a;
  if negb valid then mret 1
  else
    success ← download_S1_SLC_dem os (lat_min a) (lat_max a) (lon_min a) (lon_max a)
                (dem_dir a);
    mret (if success : bool then 0 else 1).

(** Lines 117-134: the script as started from the shell.  What [argparse]
    writes is not kept in the history. *)
Definition entry_point (os : OS) (argv : command_line args) : M Z :=
  match argv with
  | Parsed a => main os a
  | Help => mret 0
  | Usage_error => mret 2
  end.

End DownloadDem.

(** ** Stack.py *)

Module Stack.
Import Py Host.

Record args : Type := {
  lat_min : float; lat_max : float; lon_min : float; lon_max : float;
  dem_dir : string; aux_dir : string; slc_dir : string; orbits_dir : string;
  nalks : Z; nrlks : Z; process_dir : string
}.

(** Lines 16-43; [Path.glob('*wgs84')] keeps the names ending in [wgs84]. *)
Definition find_dem_file (os : OS) (dem_dir : string) : M string :=
  if negb (path_exists os dem_dir) then raise FileNotFoundError
  else if negb (path_is_dir os dem_dir) then raise NotADirectoryError
  else
    let dem_files :=
      map (path_div dem_dir)
          (List.filter (fun n => String.eqb (slice n (Some (-5)) None) "wgs84")
                       (listdir os dem_dir)) in
    match dem_files with
    | [] => raise FileNotFoundError
    | first :: others =>
        _ ← match others with
            | [] => mret tt
            | _ => print ("Warning: Multiple DEM files found, using: " ++ basename first)
            end;
        mret first
    end.

(** Lines 46-125.  Of the lines printed, the ones that only repeat the
    arguments or the captured output of the command are left out. *)
Definition stack_sentinel (os : OS) (lat_min lat_max lon_min lon_max : float)
    (dem_dir aux_dir slc_dir orbits_dir : string) (nalks nrlks : Z)
    (process_dir : string) : M bool :=
  _ ← attempt os (Mkdir process_dir);
  dem_file ← find_dem_file os dem_dir;
  let bbox :=
    repr_float os lat_min ++ " " ++ repr_float os lat_max ++ " "
      ++ repr_float os lon_min ++ " " ++ repr_float os lon_max in
  let cmd :=
    ["stackSentinel.py"; "-b"; bbox; "-d"; dem_file; "-a"; aux_dir; "-s"; slc_dir;
     "-o"; orbits_dir; "-z"; str_of_int nalks; "-r"; str_of_int nrlks;
     "-f"; "0.8"; "-c"; "1"] in
  _ ← print "Stack Sentinel parameters:";
  _ ← print ("Running command: " ++ String.concat " " cmd);
  try_except
    (_ ← attempt os (Run cmd process_dir);
     _ ← print "Stack Sentinel completed successfully!";
     mret true)
    (fun e =>
       match e with
       | CalledProcessError returncode =>
           _ ← print ("ERROR: stackSentinel.py failed with return code "
                      ++ str_of_int returncode);
           mret false
       | FileNotFoundError =>
           _ ← print "ERROR: stackSentinel.py not found. Please ensure ISCE2 is installed and in PATH.";
           mret false
       | _ =>
           _ ← print ("ERROR: Unexpected error: " ++ str_of_exn e);
           mret false
       end).

(** Lines 165-183. *)
Definition validate_coordinates (a : args) : M bool :=
  if (lat_max a <=? lat_min a)%float then
    _ ← print "ERROR: lat_min must be less than lat_max"; mret false
  else if (lon_max a <=? lon_min a)%float then
    _ ← print "ERROR: lon_min must be less than lon_max"; mret false
  else if negb (between (-90) 90 (lat_min a) && between (-90) 90 (lat_max a)) then
    _ ← print "ERROR: Latitude values must be between -90 and 90"; mret false
  else if negb (between (-180) 180 (lon_min a) && between (-180) 180 (lon_max a)) then
    _ ← print "ERROR: Longitude values must be between -180 and 180"; mret false
  else mret true.

(** Lines 186-192. *)
Definition validate_parameters (a : args) : M bool :=
  if (nalks a <=? 0) || (nrlks a <=? 0) then
    _ ← print "ERROR: nalks and nrlks must be positive integers"; mret false
  else mret true.

(** Lines 199-213, from the parsed arguments on. *)
Definition main (os : OS) (a : args) : M Z :=
  valid ← validate_coordinates a;
  if negb valid then mret 1
  else
    valid ← validate_parameters a;
    if negb valid then mret 1
    else
      success ← stack_sentinel os (lat_min a) (lat_max a) (lon_min a) (lon_max a)
                  (dem_dir a) (aux_dir a) (slc_dir a) (orbits_dir a)
                  (nalks a) (nrlks a) (process_dir a);
      mret (if success : bool then 0 else 1).

(** Lines 195-213: the script as started from the shell. *)
Definition entry_point (os : OS) (argv : command_line args) : M Z :=
  match argv with
  | Parsed a => main os a
  | Help => mret 0
  | Usage_error => mret 2
  end.

End Stack.

(** ** RunStack.py: the sequential step runner *)

Module RunStack.
Import Py.

(** What the surroundings answer.  The [nat] given to [open_w] and
    [subprocess_run] is the number of steps run before, so that a script
    run a second time may end differently.  What the script prints is left
    out of this module: a run is told by the commands it starts. *)
Record OS : Type := {
  path_exists : string -> bool;
  path_is_dir : string -> bool;
  listdir : string -> list string;
  cpu_count : Z;
  input : result string;
  mkdir : string -> result unit;
  open_w : nat -> string -> result unit;
  subprocess_run : nat -> list string -> string -> result unit
}.

(** Lines 18-42.  [run_path.glob('run_*')] gives the entries whose names
    start with [run_], each as [run_path / name]; line 42 writes them out
    with [str] and sorts the texts. *)
Definition find_run_files (os : OS) (run_files_dir : string) : result (list string) :=
  if negb (path_exists os run_files_dir) then Raise FileNotFoundError
  else if negb (path_is_dir os run_files_dir) then Raise NotADirectoryError
  else
    let run_files :=
      map (path_div run_files_dir)
          (List.filter (String.prefix "run_") (listdir os run_files_dir)) in
    match run_files with
    | [] => Raise FileNotFoundError
    | _ => Return (sorted run_files)
    end.

(** [f'run_{i:02d}' in os.path.basename(s)] *)
Definition names_step (i : Z) (s : string) : bool :=
  contains ("run_" ++ format_0d 2 i) (basename s).

Definition matched_scripts (scripts : list string) (i : Z) : list string :=
  List.filter (names_step i) scripts.

(** One external invocation: the step index, the script handed to
    [run.py], and how the [try] block ended. *)
Record call : Type := Call { step : Z; script : string; outcome : result unit }.

(** Whether some found script names step [i]. *)
Definition has_script (scripts : list string) (i : Z) : bool :=
  match matched_scripts scripts i with [] => false | _ :: _ => true end.

Definition succeeded (c : call) : bool :=
  match outcome c with Return _ => true | Raise _ => false end.

(** The loop of lines 91-133 over the step indices still to do.  The answer
    is the invocations made, and the final [success_count], or [None] when
    an [except] clause returned [False]. *)
Fixpoint process (os : OS) (run_files_dir : string) (cores : Z)
    (scripts : list string) (indices : list Z) (earlier : nat) (success_count : Z)
    : list call * option Z :=
  match indices with
  | [] => ([], Some success_count)
  | i :: rest =>
      match matched_scripts scripts i with
      | [] => process os run_files_dir cores scripts rest earlier success_count
      | script :: _ =>
          let log_file :=
            join (join run_files_dir "logs") ("log_run" ++ format_0d 2 i ++ ".log") in
          let cmd := ["run.py"; "--input"; script; "-p"; str_of_int cores] in
          let r := _ ← open_w os earlier log_file;
                   subprocess_run os earlier cmd run_files_dir in
          match r with
          | Return _ =>
              let '(calls, final) :=
                process os run_files_dir cores scripts rest (S earlier) (success_count + 1) in
              (Call i script r :: calls, final)
          | Raise _ => ([Call i script r], None)
          end
      end
  end.

(** The count the last line compares [success_count] with. *)
Definition found_among_expected (scripts : list string) (expected_files : Z) : Z :=
  Z.of_nat (length (List.filter
    (fun s => existsb (fun i => names_step i s) (range 1 (expected_files + 1)))
    scripts)).

(** Whether execution gets past the length check of lines 76-81. *)
Definition confirmed (os : OS) (scripts : list string) (expected_files : Z) : result bool :=
  if negb (Z.of_nat (length scripts) =? expected_files) then
    response ← input os;
    Return (String.eqb (strip (lower response)) "y")
  else Return true.

Record run : Type := Run { calls : list call; returned : result bool }.

Definition run_stack_processing (os : OS) (run_files_dir : string)
    (cores : option Z) (expected_files : Z) : run :=
  let cores :=
    match cores with
    | Some c => c
    | None => Z.min (Z.max (cpu_count os / 2) 1) 8
    end in
  match find_run_files os run_files_dir with
  | Raise FileNotFoundError | Raise NotADirectoryError => Run [] (Return false)
  | Raise e => Run [] (Raise e)
  | Return scripts =>
      match confirmed os scripts expected_files with
      | Raise e => Run [] (Raise e)
      | Return false => Run [] (Return false)
      | Return true =>
          match mkdir os (join run_files_dir "logs") with
          | Raise e => Run [] (Raise e)
          | Return _ =>
              let '(calls, final) :=
                process os run_files_dir cores scripts
                        (range 1 (expected_files + 1)) 0 0 in
              match final with
              | None => Run calls (Return false)
              | Some success_count =>
                  Run calls
                      (Return (success_count =? found_among_expected scripts expected_files))
              end
          end
      end
  end.

(** The number of steps of a run that ended well. *)
Definition completed_steps (r : run) : Z :=
  Z.of_nat (length (List.filter succeeded (calls r))).

(** Lines 165-172, from the parsed arguments on:
    [sys.exit(0 if success else 1)]. *)
Definition main (os : OS) (run_files_dir : string) (cores : option Z)
    (expected_files : Z) : Z :=
  exit_code (success ← returned (run_stack_processing os run_files_dir cores expected_files);
             Return (if success : bool then 0 else 1)).

(** Lines 161-172: the script as started from the shell; the parsed
    arguments are [run_files_dir], [cores] and [expected_files]. *)
Definition entry_point (os : OS) (argv : command_line (string * option Z * Z)) : Z :=
  match argv with
  | Parsed (run_files_dir, cores, expected_files) =>
      main os run_files_dir cores expected_files
  | Help => 0
  | Usage_error => 2
  end.

(** The layout [stackSentinel.py] leaves behind: one found script for each
    step 1..expected_files, in step order, each naming its own step and
    no other one. *)
Definition names_only (expected_files : Z) (i : Z) (s : string) : Prop :=
  names_step i s = true /\
  forall j, 1 <= j <= expected_files -> j <> i -> names_step j s = false.

Definition one_script_per_step (scripts : list string) (expected_files : Z) : Prop :=
  Forall2 (names_only expected_files) (range 1 (expected_files + 1)) scripts.

End RunStack.

(** ** unzip_S1_SLC.py: extraction of the archives *)

Module Unzip.
Import Py.

(** *** The world the script acts on *)

(** What a path holds. *)
Inductive node : Type :=
  | Dir
  | File (content : string).

(** A member of an archive as [namelist()] gives it: a relative path, a
    directory when it ends in [/]. *)
Record member : Type := Member { name : string; data : string }.

(** Every operation on the surroundings, as it shows up in the history. *)
Inductive event : Type :=
  | Print (text : string)
  | Mkdir (path : string)
  | OpenW (path : string)
  | OpenA (path : string)
  | Write (path text : string)
  | OpenZip (path : string)
  | Extract (zip_file target_dir member_name : string)
  | Rmtree (path : string).

Record world : Type := World { files : gmap string node; history : list event }.

(** What is outside the script's control: the archives on disk, the
    machine, and which operations fail.  [fault w ev] is the exception
    operation [ev] ends with when attempted in world [w] (a full disk, a
    missing permission, a damaged archive), [None] when it goes through;
    [partial w ev] tells whether a failing extraction still leaves its
    target behind. *)
Record OS : Type := {
  archive : string -> list member;
  cpu_count : Z;
  fault : world -> event -> option exn;
  partial : world -> event -> bool
}.

(** Computations that act on this world and may raise. *)
Abbreviation M := (Py.M world).

(** An operation that is written to the history, fails when the
    surroundings say so, and otherwise changes the files by [effect]. *)
Definition attempt (os : OS) (ev : event)
    (effect on_failure : gmap string node -> gmap string node) : M unit := fun w =>
  match fault os w ev with
  | Some e => (World (on_failure (files w)) (history w ++ [ev]), Raise e)
  | None => (World (effect (files w)) (history w ++ [ev]), Return tt)
  end.

Definition print (text : string) : M unit := fun w =>
  (World (files w) (history w ++ [Print text]), Return tt).

(** [p.exists()] *)
Definition path_exists (p : string) : M bool := fun w =>
  (w, Return (bool_decide (is_Some (files w !! p)))).

(** The directories on the way to [name] below [base]: one for every [/]
    of [name]; [seen] is the part of [name] read so far, backwards. *)
Fixpoint parents_go (base seen name : string) : list string :=
  match name with
  | EmptyString => []
  | String c rest =>
      if Ascii.eqb c "/"
      then match seen with
           | EmptyString => parents_go base (String c seen) rest
           | _ => join base (String.rev seen) :: parents_go base (String c seen) rest
           end
      else parents_go base (String c seen) rest
  end.

Definition parents (base name : string) : list string := parents_go base EmptyString name.

Definition make_dirs (dirs : list string) (fs : gmap string node) : gmap string node :=
  fold_left (fun fs d => match fs !! d with Some _ => fs | None => <[d := Dir]> fs end)
            dirs fs.

Definition is_dir_name (name : string) : bool :=
  String.eqb (slice name (Some (-1)) None) "/".

(** What [zip_ref.extract(name, path=target_dir)] leaves on disk. *)
Definition extracted (target_dir : string) (m : member)
    (fs : gmap string node) : gmap string node :=
  let fs := make_dirs (parents target_dir (name m)) fs in
  if is_dir_name (name m) then fs
  else <[join target_dir (name m) := File (data m)]> fs.

(** [True] for the paths [shutil.rmtree(d)] removes: [d] and all below. *)
Definition below (d p : string) : bool :=
  String.eqb p d || String.prefix (d ++ "/") p.

Definition removed (d : string) (fs : gmap string node) : gmap string node :=
  filter (fun kv => below d kv.1 = false) fs.

(** [open(p, 'w')] empties or creates the file; [open(p, 'a')] creates it
    when missing. *)
Definition open_w (os : OS) (p : string) : M unit :=
  attempt os (OpenW p) (fun fs => <[p := File ""]> fs) (fun fs => fs).

Definition open_a (os : OS) (p : string) : M unit :=
  attempt os (OpenA p)
    (fun fs => match fs !! p with Some _ => fs | None => <[p := File ""]> fs end)
    (fun fs => fs).

Definition write (os : OS) (p text : string) : M unit :=
  attempt os (Write p text)
    (fun fs => match fs !! p with
               | Some (File c) => <[p := File (c ++ text)]> fs
               | _ => fs
               end)
    (fun fs => fs).

(** [zipfile.ZipFile(zip_file, 'r')] followed by [namelist()] *)
Definition zip_open (os : OS) (zip_file : string) : M (list member) :=
  _ ← attempt os (OpenZip zip_file) (fun fs => fs) (fun fs => fs);
  mret (archive os zip_file).

Definition extract (os : OS) (zip_file target_dir : string) (m : member) : M unit := fun w =>
  let ev := Extract zip_file target_dir (name m) in
  attempt os ev (extracted target_dir m)
    (fun fs => if partial os w ev then extracted target_dir (Member (name m) "") fs else fs)
    w.

(** [shutil.rmtree(d, ignore_errors=True)]: a failure is swallowed and
    leaves the tree where it is. *)
Definition rmtree_ignore_errors (os : OS) (d : string) : M unit :=
  try_except (attempt os (Rmtree d) (removed d) (fun fs => fs)) (fun _ => mret tt).

(** [target_path.mkdir(parents=True, exist_ok=True)] *)
Definition mkdir_parents (os : OS) (d : string) : M unit :=
  attempt os (Mkdir d) (make_dirs (parents "" (d ++ "/"))) (fun fs => fs).

Definition nl : string := String (ascii_of_nat 10) EmptyString.
Definition tab : string := String (ascii_of_nat 9) EmptyString.

(** *** The script *)

(** The loop of lines 55-57; [i] is the number [enumerate(file_list, 1)]
    gives the first member still to do. *)
Fixpoint extract_all (os : OS) (zip_file target_dir log_file : string)
    (total_files : Z) (i : Z) (file_list : list member) : M unit :=
  match file_list with
  | [] => mret tt
  | m :: rest =>
      _ ← write os log_file
            (tab ++ "[" ++ format_d 4 i ++ "/" ++ str_of_int total_files ++ "] "
                 ++ name m ++ nl);
      _ ← extract os zip_file target_dir m;
      extract_all os zip_file target_dir log_file total_files (i + 1) rest
  end.

(** Lines 33-34 and 42: the directory whose presence marks an archive as
    extracted, and the log of the task. *)
Definition safe_name (zip_file : string) : string := stem zip_file ++ ".SAFE".

Definition safe_dir (zip_file target_dir : string) : string :=
  join target_dir (safe_name zip_file).

Definition log_file (zip_file target_dir : string) : string :=
  join target_dir ("unzip_" ++ stem zip_file ++ ".log").

(** Lines 45-62, the body of the [try]. *)
Definition try_block (os : OS) (zip_file target_dir : string) : M bool :=
  let zip_name := basename zip_file in
  let log_file := log_file zip_file target_dir in
  _ ← open_w os log_file;
  _ ← write os log_file ("unzip_" ++ zip_name ++ ":" ++ nl);
  file_list ← zip_open os zip_file;
  let total_files := Z.of_nat (length file_list) in
  _ ← write os log_file ("Total files to extract: " ++ str_of_int total_files ++ nl);
  _ ← write os log_file ("Extracting files:" ++ nl);
  _ ← extract_all os zip_file target_dir log_file total_files 1 file_list;
  _ ← write os log_file ("Extraction completed successfully." ++ nl);
  _ ← print ("Unzip finished: " ++ zip_name);
  mret true.

(** Lines 64-78, the [except Exception as e] clause. *)
Definition except_block (os : OS) (zip_file target_dir : string) (e : exn) : M bool :=
  let zip_name := basename zip_file in
  let log_file := log_file zip_file target_dir in
  let safe_dir := safe_dir zip_file target_dir in
  let error_msg := "ERROR during unzipping " ++ zip_name ++ ": " ++ str_of_exn e in
  _ ← print error_msg;
  _ ← open_a os log_file;
  _ ← write os log_file (nl ++ error_msg ++ nl);
  partial_left ← path_exists safe_dir;
  if partial_left : bool then
    _ ← rmtree_ignore_errors os safe_dir;
    _ ← print ("Cleaned up partial extraction: " ++ safe_name zip_file);
    mret false
  else mret false.

Definition unzip_S1_SLC (os : OS) (zip_file target_dir : string) : M bool :=
  _ ← print ("Unzipping " ++ basename zip_file ++ " ...");
  already ← path_exists (safe_dir zip_file target_dir);
  if already : bool then
    _ ← print ("Already exists: " ++ safe_name zip_file ++ ", skipping...");
    mret true
  else
    try_except (try_block os zip_file target_dir) (except_block os zip_file target_dir).

(** [sum(results)] on booleans *)
Definition sum (results : list bool) : Z :=
  fold_left (fun acc (b : bool) => acc + (if b then 1 else 0)) results 0.

(** Lines 99-100:
    [if n_jobs is None: n_jobs = min(max(int(cpu_count() / 4), 2), 8)] *)
Definition pool_size (n_jobs : option Z) (cpu_count : Z) : Z :=
  match n_jobs with
  | Some n => n
  | None => Z.min (Z.max (int_of_Q (truediv cpu_count 4)) 2) 8
  end.

(** The rule [{'='*60}] printed around the headings. *)
Definition rule : string := repeat_char "=" 60.

Definition unzip_S1_SLC_list (os : OS) (zip_files : list string) (target_dir : string)
    (n_jobs : option Z) : M (Z * Z) :=
  _ ← mkdir_parents os target_dir;
  _ ← print (nl ++ rule);
  _ ← print ("Starting parallel unzip of "
             ++ str_of_int (Z.of_nat (length zip_files)) ++ " S1 SLC files");
  _ ← print ("Target directory: " ++ target_dir);
  let n_jobs := pool_size n_jobs (cpu_count os) in
  _ ← print ("Using " ++ str_of_int n_jobs ++ " parallel jobs (CPU cores: "
             ++ str_of_int (cpu_count os) ++ ")");
  _ ← print (rule ++ nl);
  results ← Parallel n_jobs (map (fun zip_file => unzip_S1_SLC os zip_file target_dir) zip_files);
  let successful := sum results in
  let failed := Z.of_nat (length results) - successful in
  _ ← print (nl ++ rule);
  _ ← print "Unzip Summary:";
  _ ← print ("  Total files: " ++ str_of_int (Z.of_nat (length zip_files)));
  _ ← print ("  Successful: " ++ str_of_int successful);
  _ ← print ("  Failed: " ++ str_of_int failed);
  _ ← print ("  Target directory: " ++ target_dir);
  _ ← print rule;
  mret (successful, failed).

(** Lines 199-205: the exit status decided from the number of failures. *)
Definition exit_status (failed : Z) : Z := if 0 <? failed then 1 else 0.

(** Lines 175-205.  Line 177 calls [init_pysarlab], a name the module never
    binds or imports: the call raises [NameError] before anything else runs,
    whatever the arguments. *)
Definition main (os : OS) (data_dir slc_dir : string) (job_dir : option Z) : M Z :=
  raise NameError.

(** The archives opened in a history. *)
Definition opened_archives (h : list event) : list string :=
  flat_map (fun ev => match ev with OpenZip z => [z] | _ => [] end) h.

(** The number of extraction attempts in a history. *)
Definition extractions (h : list event) : nat :=
  length (List.filter (fun ev => match ev with Extract _ _ _ => true | _ => false end) h).

(** The directories handed to [shutil.rmtree], in the order of the
    history. *)
Definition removals (h : list event) : list string :=
  flat_map (fun ev => match ev with Rmtree d => [d] | _ => [] end) h.

(** The member names handed to [extract], in the order of the history. *)
Definition extracted_members (h : list event) : list string :=
  flat_map (fun ev => match ev with Extract _ _ n => [n] | _ => [] end) h.

(** A computation that hands nothing to [extract]. *)
Definition quiet {A} (m : M A) : Prop :=
  forall w w' r, m w = (w', r) ->
    extracted_members (history w') = extracted_members (history w).

(** A computation that takes every world to one that [R] relates it to. *)
Definition keeps {A} (R : world -> world -> Prop) (m : M A) : Prop :=
  forall w w' r, m w = (w', r) -> R w w'.

(** Nothing is handed to [shutil.rmtree] on the way from [w] to [w']. *)
Definition no_removal (w w' : world) : Prop :=
  removals (history w') = removals (history w).

(** Every path on disk in [w] is on disk in [w']. *)
Definition nothing_lost (w w' : world) : Prop :=
  forall p, is_Some (files w !! p) -> is_Some (files w' !! p).

(** *** Finding the archives (lines 125-154) *)

(** What stands in front of the name of an entry of directory [d], for [d]
    as [str(Path(...))] writes it: nothing for the working directory [.],
    the root itself for a root, and [d] with a slash otherwise. *)
Definition dir_prefix (d : string) : string :=
  if String.eqb d "." then ""
  else if String.eqb (slice d (Some (-1)) None) "/" then d
  else d ++ "/".

(** The name of [p] when [p] lies directly in directory [d]. *)
Definition child_name (d p : string) : option string :=
  let pre := dir_prefix d in
  if String.prefix pre p then
    let n := substring (String.length pre) (String.length p - String.length pre) p in
    if negb (String.eqb n "") && negb (contains "/" n) then Some n else None
  else None.

(** The pattern [*.zip]: the name ends in [.zip]; a leading dot is not
    matched by the star. *)
Definition matches_zip (n : string) : bool :=
  String.eqb (slice n (Some (-4)) None) ".zip" && negb (String.prefix "." n).

(** [glob.glob(zip_pattern)] for [zip_pattern = str(data_path / "*.zip")],
    [data_path] being written [d].  When [d] holds no wildcard character the
    answer is the paths on disk directly in [d] whose names match, in the
    order the disk gives them.  When it does, [glob] reads the directory
    part as a pattern too; what it answers then is [glob]'s business and is
    given as [wild zip_pattern]. *)
Definition glob_zip (wild : string -> list string) (fs : gmap string node) (d : string)
    : list string :=
  if has_magic d then wild (path_div d "*.zip")
  else
    List.filter
      (fun p => match child_name d p with
                | Some n => matches_zip n
                | None => false
                end)
      (map fst (map_to_list fs)).

(** The test of line 149. *)
Definition is_S1_name (zip_file : string) : bool :=
  String.prefix "S1" (basename zip_file) && contains ".SAFE" (basename zip_file).

(** The loop of lines 147-152. *)
Fixpoint keep_S1 (zip_files s1_zip_files : list string) : M (list string) :=
  match zip_files with
  | [] => mret s1_zip_files
  | zip_file :: rest =>
      if is_S1_name zip_file
      then keep_S1 rest (s1_zip_files ++ [zip_file])
      else
        _ ← print ("Warning: Skipping non-S1 file: " ++ basename zip_file);
        keep_S1 rest s1_zip_files
  end.

Definition get_S1_zip_files (wild : string -> list string) (data_dir : string)
    : M (list string) := fun w =>
  let data_path := path_str data_dir in
  match files w !! data_path with
  | None => (w, Raise FileNotFoundError)
  | Some (File _) => (w, Raise NotADirectoryError)
  | Some Dir =>
      (s1_zip_files ← keep_S1 (glob_zip wild (files w) data_path) [];
       mret (sorted s1_zip_files)) w
  end.

End Unzip.

(** ** download_S1_SLC_orbit.py: the orbit files *)

Module Orbit.
Import Py.

Definition ORBIT_URL : string := "https://s1qc.asf.alaska.edu/aux_poeorb/".

(** *** The world the script acts on *)

Inductive event : Type :=
  | Print (text : string)
  | Listing (url : string)
  | Fetch (file_url save_path : string).

Record world : Type := World { history : list event }.

(** [content] is what the server sends for the directory, [listdir] names
    the files of a local directory, and [fault w ev] is the exception the
    request [ev] ends with in world [w], if any. *)
Record OS : Type := {
  content : string;
  listdir : string -> list string;
  cpu_count : Z;
  fault : world -> event -> option exn
}.

Abbreviation M := (Py.M world).

Definition print (text : string) : M unit := fun w =>
  (World (history w ++ [Print text]), Return tt).

Definition attempt (os : OS) (ev : event) : M unit := fun w =>
  match fault os w ev with
  | Some e => (World (history w ++ [ev]), Raise e)
  | None => (World (history w ++ [ev]), Return tt)
  end.

(** [glob.glob(os.path.join(d, 'S1A*.zip'))] for a directory name without
    wildcards. *)
Definition glob_S1A_zip (os : OS) (zipped_dir : string) : list string :=
  map (join zipped_dir)
      (List.filter
         (fun n => String.prefix "S1A" n
                   && String.eqb (slice n (Some (-4)) None) ".zip"
                   && (7 <=? len n))
         (listdir os zipped_dir)).

(** *** Reading the listing (line 69) *)

Definition double_quote : ascii := ascii_of_nat 34.
Definition backslash : ascii := ascii_of_nat 92.

Fixpoint occurs (c : ascii) (s : string) : bool :=
  match s with
  | EmptyString => false
  | String d s' => Ascii.eqb c d || occurs c s'
  end.

Definition hex_digit (n : nat) : ascii :=
  if (n <? 10)%nat then ascii_of_nat (48 + n) else ascii_of_nat (87 + n).

Definition escape (quote c : ascii) : string :=
  let n := nat_of_ascii c in
  if Ascii.eqb c quote || Ascii.eqb c backslash then String backslash (String c "")
  else if (n =? 9)%nat then String backslash "t"
  else if (n =? 10)%nat then String backslash "n"
  else if (n =? 13)%nat then String backslash "r"
  else if ((n <? 32) || (127 <=? n))%nat
  then String backslash (String "x" (String (hex_digit (n / 16)) (String (hex_digit (n mod 16)) "")))
  else String c "".

Fixpoint escape_all (quote : ascii) (b : string) : string :=
  match b with
  | EmptyString => EmptyString
  | String c b' => escape quote c ++ escape_all quote b'
  end.

(** [str(b)] for a [bytes] value [b]: its literal, as in [b'...']. *)
Definition str_of_bytes (b : string) : string :=
  let quote := if occurs "'" b && negb (occurs double_quote b) then double_quote else "'"%char in
  String "b" (String quote (escape_all quote b ++ String quote "")).

(** Line 69: the response is split at every [href=] followed by a double
    quote, and of each piece [i] the text [str(i[:77])[2:-1]] is kept. *)
Definition parse_listing (resp : string) : list string :=
  map (fun i => slice (str_of_bytes (slice i None (Some 77))) (Some 2) (Some (-1)))
      (split resp ("href=" ++ String double_quote "")).

(** *** Choosing what to download (lines 70-85) *)

(** Lines 73-79: the day before and the day after the acquisition date
    carried by a local file name, both as [YYYYMMDD] text. *)
Definition window (file : string) : result (string * string) :=
  part ← item (split file "_") (-5);
  let date_str := slice part None (Some 8) in
  y ← int_of_str (slice date_str None (Some 4));
  m ← int_of_str (slice date_str (Some 4) (Some 6));
  d ← int_of_str (slice date_str (Some 6) (Some 8));
  dt ← datetime y m d;
  prev_dt ← minus_one_day dt;
  next_dt ← plus_one_day dt;
  let prev_dt_str :=
    str_of_int (year prev_dt) ++ format_0d 2 (month prev_dt) ++ format_0d 2 (day prev_dt) in
  let next_dt_str :=
    str_of_int (year next_dt) ++ format_0d 2 (month next_dt) ++ format_0d 2 (day next_dt) in
  Return (prev_dt_str, next_dt_str).

(** The test of line 81. *)
Definition covers (prev_dt_str next_dt_str filename : string) : bool :=
  String.eqb (slice filename (Some (-35)) (Some (-27))) prev_dt_str
  && String.eqb (slice filename (Some (-19)) (Some (-11))) next_dt_str.

(** A task is a pair [(file_url, save_path)]. *)
Definition task_for (orbits_dir filename : string) : string * string :=
  (ORBIT_URL ++ filename, join orbits_dir filename).

(** The inner loop, lines 80-85. *)
Fixpoint scan_listing (orbits_dir prev_dt_str next_dt_str : string) (lst : list string)
    (download_tasks : list (string * string)) : list (string * string) :=
  match lst with
  | [] => download_tasks
  | filename :: rest =>
      scan_listing orbits_dir prev_dt_str next_dt_str rest
        (if covers prev_dt_str next_dt_str filename
         then download_tasks ++ [task_for orbits_dir filename]
         else download_tasks)
  end.

(** The outer loop, lines 72-85. *)
Fixpoint enumerate (orbits_dir : string) (lst : list string) (files : list string)
    (download_tasks : list (string * string)) : result (list (string * string)) :=
  match files with
  | [] => Return download_tasks
  | file :: rest =>
      '(prev_dt_str, next_dt_str) ← window file;
      enumerate orbits_dir lst rest
        (scan_listing orbits_dir prev_dt_str next_dt_str lst download_tasks)
  end.

(** The tasks one validity window gives rise to: one for every entry of
    the listing that covers it, in the order of the listing. *)
Definition tasks_of_window (orbits_dir : string) (lst : list string)
    (w : string * string) : list (string * string) :=
  map (task_for orbits_dir) (List.filter (covers w.1 w.2) lst).

(** *** Downloading *)

(** Line 87: [njobs = min(max(cpu_count() // 4, 2), 8)] *)
Definition njobs (cpu_count : Z) : Z := Z.min (Z.max (cpu_count / 4) 2) 8.

(** Lines 39-56.  The request, the status check and the writing of the
    chunks are one [Fetch] in the history.  The function has no [return]:
    the caller gets [None] either way. *)
Definition download_file (os : OS) (task : string * string) : M unit :=
  let '(file_url, save_path) := task in
  try_except
    (_ ← attempt os (Fetch file_url save_path);
     print ("Downloaded: " ++ basename save_path))
    (fun e => print ("Failed to download " ++ file_url ++ ": " ++ str_of_exn e)).

Definition downloda_S1_SLC_orbit_list (os : OS) (zipped_dir orbits_dir : string) : M unit :=
  _ ← attempt os (Listing ORBIT_URL);
  let resp := content os in
  let lst := parse_listing resp in
  download_tasks ← lift (enumerate orbits_dir lst (glob_S1A_zip os zipped_dir) []);
  let njobs := njobs (cpu_count os) in
  _ ← print ("Starting parallel download with " ++ str_of_int njobs ++ " jobs...");
  _ ← Parallel njobs (map (download_file os) download_tasks);
  print "All downloads finished.".

(** Line 115, from the parsed arguments on: the script ends after the
    call; there is no [sys.exit]. *)
Definition main (os : OS) (zipped_dir orbit_dir : string) : M Z :=
  _ ← downloda_S1_SLC_orbit_list os zipped_dir orbit_dir;
  mret 0.

(** Lines 110-115: the script as started from the shell; the parsed
    arguments are [zipped_dir] and [orbit_dir]. *)
Definition entry_point (os : OS) (argv : command_line (string * string)) : M Z :=
  match argv with
  | Parsed (zipped_dir, orbit_dir) => main os zipped_dir orbit_dir
  | Help => mret 0
  | Usage_error => mret 2
  end.

(** The downloads of a history that failed, by the message printed. *)
Definition failed_downloads (h : list event) : nat :=
  length (List.filter
            (fun ev => match ev with
                       | Print text => String.prefix "Failed to download" text
                       | _ => false
                       end) h).

(** The file requests of a history, as [(file_url, save_path)] pairs. *)
Definition fetched (h : list event) : list (string * string) :=
  flat_map (fun ev => match ev with Fetch u p => [(u, p)] | _ => [] end) h.

(** Text made of printable ASCII characters other than the two quotes and
    the backslash. *)
Definition plain_char (c : ascii) : bool :=
  let n := nat_of_ascii c in
  ((32 <=? n) && (n <? 127) && negb (n =? 39) && negb (n =? 34) && negb (n =? 92))%nat.

Fixpoint plain (s : string) : bool :=
  match s with
  | EmptyString => true
  | String c s' => plain_char c && plain s'
  end.

End Orbit.

(** ** Worlds the statements below are tried on *)

Module Scenario.
Import Py.

(** A run-files directory [/work/run_files] holding [names], on a machine
    with 16 CPUs, where [run.py] exits with code 1 at its invocation number
    [fail_at] (counted from 0) and the user types [answer] when asked. *)
Definition run_files (names : list string) (fail_at : option nat) (answer : string)
    : RunStack.OS := {|
  RunStack.path_exists := fun p => String.eqb p "/work/run_files";
  RunStack.path_is_dir := fun p => String.eqb p "/work/run_files";
  RunStack.listdir := fun _ => names;
  RunStack.cpu_count := 16;
  RunStack.input := Return answer;
  RunStack.mkdir := fun _ => Return tt;
  RunStack.open_w := fun _ _ => Return tt;
  RunStack.subprocess_run := fun k _ _ =>
    if bool_decide (fail_at = Some k) then Raise (CalledProcessError 1) else Return tt
|}.

Definition five_steps : list string :=
  ["run_01_unpack_topo_reference"; "run_02_unpack_secondary_slc";
   "run_03_average_baseline"; "run_04_fullBurst_geo2rdr";
   "run_05_fullBurst_resample"].

(** An archive as the data hubs ship it, and a disk holding it. *)
Definition slc_zip : string := "/data/S1A_IW_SLC__1SDV_20210209T101010_20210209T101037_036500_0448A1_ABCD.zip".

Definition slc_safe : string := "S1A_IW_SLC__1SDV_20210209T101010_20210209T101037_036500_0448A1_ABCD.SAFE".

Definition slc_members : list Unzip.member :=
  [Unzip.Member (slc_safe ++ "/") "";
   Unzip.Member (slc_safe ++ "/manifest.safe") "<xfdu/>";
   Unzip.Member (slc_safe ++ "/measurement/") "";
   Unzip.Member (slc_safe ++ "/measurement/s1a-iw1-slc-vv.tiff") "II*"].

Definition disk : Unzip.world :=
  Unzip.World {[ "/data" := Unzip.Dir; slc_zip := Unzip.File "PK"; "/slc" := Unzip.Dir ]} [].

(** The same product under the name the script's own file test asks for
    ([S1*.SAFE.zip], lines 149 and 188), and a disk holding it. *)
Definition slc_safe_zip : string := "/data/S1A_IW_SLC__1SDV_20210209T101010_20210209T101037_036500_0448A1_ABCD.SAFE.zip".

Definition disk_safe_zip : Unzip.world :=
  Unzip.World
    {[ "/data" := Unzip.Dir; slc_safe_zip := Unzip.File "PK"; "/slc" := Unzip.Dir ]} [].

(** A second acquisition waiting in the same directory. *)
Definition slc_zip_2 : string := "/data/S1A_IW_SLC__1SDV_20210221T101010_20210221T101037_036675_044EC2_1F2E.zip".

(** A healthy machine. *)
Definition healthy : Unzip.OS := {|
  Unzip.archive := fun _ => slc_members;
  Unzip.cpu_count := 16;
  Unzip.fault := fun _ _ => None;
  Unzip.partial := fun _ _ => false
|}.

(** The disk runs full while the measurement is written out: that
    extraction fails, leaving its target behind, and so does every later
    write. *)
Definition disk_full : Unzip.OS := {|
  Unzip.archive := fun _ => slc_members;
  Unzip.cpu_count := 16;
  Unzip.fault := fun w ev =>
    match ev with
    | Unzip.Extract _ _ n =>
        if String.eqb n (slc_safe ++ "/measurement/s1a-iw1-slc-vv.tiff")
        then Some OSError else None
    | Unzip.Write _ _ =>
        if Nat.leb 4 (Unzip.extractions (Unzip.history w)) then Some OSError else None
    | _ => None
    end;
  Unzip.partial := fun _ _ => true
|}.

(** The measurement member is damaged. *)
Definition damaged_archive : Unzip.OS := {|
  Unzip.archive := fun _ => slc_members;
  Unzip.cpu_count := 16;
  Unzip.fault := fun w ev =>
    match ev with
    | Unzip.Extract _ _ n =>
        if String.eqb n (slc_safe ++ "/measurement/s1a-iw1-slc-vv.tiff")
        then Some BadZipFile else None
    | _ => None
    end;
  Unzip.partial := fun _ _ => false
|}.

(** The measurement member is damaged, and the extracted tree cannot be
    removed afterwards. *)
Definition damaged_archive_stuck_tree : Unzip.OS := {|
  Unzip.archive := fun _ => slc_members;
  Unzip.cpu_count := 16;
  Unzip.fault := fun w ev =>
    match ev with
    | Unzip.Extract _ _ n =>
        if String.eqb n (slc_safe ++ "/measurement/s1a-iw1-slc-vv.tiff")
        then Some BadZipFile else None
    | Unzip.Rmtree _ => Some OSError
    | _ => None
    end;
  Unzip.partial := fun _ _ => false
|}.

(** A machine to run the ISCE front ends on. *)
Definition workstation : Host.OS := {|
  Host.path_exists := fun _ => true;
  Host.path_is_dir := fun _ => true;
  Host.listdir := fun _ => ["demLat_N30_N33_Lon_E100_E103.dem.wgs84"];
  Host.repr_float := fun _ => "0.0";
  Host.fault := fun _ _ => None
|}.

(** The same machine without ISCE on the path. *)
Definition no_isce : Host.OS := {|
  Host.path_exists := fun _ => true;
  Host.path_is_dir := fun _ => true;
  Host.listdir := fun _ => ["demLat_N30_N33_Lon_E100_E103.dem.wgs84"];
  Host.repr_float := fun _ => "0.0";
  Host.fault := fun _ ev =>
    match ev with Host.Run _ _ => Some FileNotFoundError | _ => None end
|}.

(** The orbit server's page for two days of February 2021: the precise
    orbits of Sentinel-1A and of Sentinel-1B around the 9th, and the one of
    Sentinel-1A around the 21st. *)
Definition eof_S1A_0209 : string :=
  "S1A_OPER_AUX_POEORB_OPOD_20210301T121212_V20210208T225942_20210210T005942.EOF".
Definition eof_S1B_0209 : string :=
  "S1B_OPER_AUX_POEORB_OPOD_20210301T111212_V20210208T225942_20210210T005942.EOF".
Definition eof_S1A_0221 : string :=
  "S1A_OPER_AUX_POEORB_OPOD_20210313T121212_V20210220T225942_20210222T005942.EOF".

Definition anchor (name : string) : string :=
  "<a href=" ++ String Orbit.double_quote name ++ String Orbit.double_quote ">"
    ++ name ++ "</a>".

Definition page (names : list string) : string :=
  "<html><body>" ++ String.concat " " (map anchor names) ++ "</body></html>".

(** Two slices of the pass of 9 February 2021, as named by the hub. *)
Definition slice_1 : string :=
  "S1A_IW_SLC__1SDV_20210209T101010_20210209T101037_036500_0448A1_ABCD.zip".
Definition slice_2 : string :=
  "S1A_IW_SLC__1SDV_20210209T101035_20210209T101102_036500_0448A1_77C1.zip".

(** A server that lists [names], a download directory holding [zips], and
    file requests that end with [fetch_fault]. *)
Definition orbit_site (names zips : list string) (fetch_fault : option exn) : Orbit.OS := {|
  Orbit.content := page names;
  Orbit.listdir := fun _ => zips;
  Orbit.cpu_count := 16;
  Orbit.fault := fun _ ev =>
    match ev with Orbit.Fetch _ _ => fetch_fault | _ => None end
|}.

(** The disk after the archive has been extracted on the healthy machine. *)
Definition extracted_once : Unzip.world :=
  (Unzip.unzip_S1_SLC healthy slc_zip "/slc" disk).1.

(** A download directory with one archive named as the test of
    [get_S1_zip_files] wants it, one named as the hub names it, a hidden
    file, a file of another kind and a subdirectory. *)
Definition download_dir : Unzip.world :=
  Unzip.World
    {[ "/data" := Unzip.Dir;
       "/data/S1B_IW_SLC__1SDV_20210215T101010_20210215T101037_025600_030D1A_77AA.SAFE.zip"
         := Unzip.File "PK";
       "/data/S1A_IW_SLC__1SDV_20210209T101010_20210209T101037_036500_0448A1_ABCD.SAFE.zip"
         := Unzip.File "PK";
       slc_zip := Unzip.File "PK";
       "/data/.S1A_partial.SAFE.zip" := Unzip.File "";
       "/data/readme.txt" := Unzip.File "";
       "/data/old" := Unzip.Dir;
       "/data/old/S1A_OLD.SAFE.zip" := Unzip.File "PK" ]} [].

End Scenario.

(** * Part II: what the programs guarantee *)

Local Open Scope list_scope.

(** ** The built-ins on examples *)

Example slice_validity_start :
  Py.slice Scenario.eof_S1A_0209 (Some (-35)) (Some (-27)) = "20210208".
Proof. reflexivity. Qed.

Example slice_validity_stop :
  Py.slice Scenario.eof_S1A_0209 (Some (-19)) (Some (-11)) = "20210210".
Proof. reflexivity. Qed.

Example slice_of_short_text : Py.slice "abc" (Some (-35)) (Some (-27)) = "".
Proof. reflexivity. Qed.

Example split_keeps_empty_pieces : Py.split "a_b__c_" "_" = ["a"; "b"; ""; "c"; ""].
Proof. reflexivity. Qed.

Example item_from_the_end :
  Py.item (Py.split ("/data/" ++ Scenario.slice_1)%string "_") (-5)
  = Py.Return "20210209T101010".
Proof. reflexivity. Qed.

Example item_out_of_range : Py.item (Py.split "S1A.zip" "_") (-5) = Py.Raise Py.IndexError.
Proof. reflexivity. Qed.

Example int_of_str_examples :
  Py.int_of_str "02" = Py.Return 2 /\ Py.int_of_str " 9" = Py.Return 9 /\
  Py.int_of_str "2_0" = Py.Return 20 /\ Py.int_of_str "T1" = Py.Raise Py.ValueError /\
  Py.int_of_str "" = Py.Raise Py.ValueError.
Proof. repeat split; reflexivity. Qed.

Example format_examples :
  Py.format_0d 2 7 = "07" /\ Py.format_0d 2 123 = "123" /\ Py.format_0d 3 (-7) = "-07" /\
  Py.format_d 4 12 = "  12".
Proof. repeat split; reflexivity. Qed.

Example path_examples :
  Py.basename "/work/run_files/run_01_unpack" = "run_01_unpack" /\
  Py.stem "/data/S1A_X.SAFE.zip" = "S1A_X.SAFE" /\ Py.stem "/data/.zip" = ".zip" /\
  Py.join "/slc" "a.SAFE" = "/slc/a.SAFE" /\ Py.join "/slc/" "a" = "/slc/a" /\
  Py.join "/slc" "/abs" = "/abs".
Proof. repeat split; reflexivity. Qed.

Example sorted_by_code_point :
  Py.sorted ["run_10_x"; "run_02_b"; "run_100_y"; "run_01_a"]
  = ["run_01_a"; "run_02_b"; "run_100_y"; "run_10_x"].
Proof. reflexivity. Qed.

Example int_of_float_examples :
  Py.int_of_float 30.5 = Py.Return 30 /\ Py.int_of_float (-0.5) = Py.Return 0 /\
  Py.int_of_float (-100.5) = Py.Return (-100) /\
  Py.int_of_float nan = Py.Raise Py.ValueError /\
  Py.int_of_float infinity = Py.Raise Py.OverflowError.
Proof. repeat split; reflexivity. Qed.

Example window_examples :
  Orbit.window ("/data/" ++ Scenario.slice_1)%string = Py.Return ("20210208", "20210210") /\
  Orbit.window "/data/S1A_IW_SLC__1SDV_20200301T101010_20200301T101037_031500_03A1B2_0001.zip"
    = Py.Return ("20200229", "20200302") /\
  Orbit.window "/data/S1A_IW_SLC__1SDV_20210101T101010_20210101T101037_035900_0434C1_0002.zip"
    = Py.Return ("20201231", "20210102") /\
  Orbit.window "/data/S1A.zip" = Py.Raise Py.IndexError.
Proof. repeat split; reflexivity. Qed.

Example parse_listing_example :
  Orbit.parse_listing (Scenario.page [Scenario.eof_S1A_0209; Scenario.eof_S1A_0221])
  = ["<html><body><a "; Scenario.eof_S1A_0209; Scenario.eof_S1A_0221].
Proof. reflexivity. Qed.

(** The day after the day before: the two date steps undo each other. *)
Lemma plus_after_minus_one_day (y m d : Z) (dt before : Py.date) :
  Py.datetime y m d = Py.Return dt ->
  Py.minus_one_day dt = Py.Return before ->
  Py.plus_one_day before = Py.Return dt.
Proof.
  unfold Py.datetime.
  destruct (_ && _) eqn:Hvalid; [|discriminate]. intros [= <-].
  repeat (apply andb_true_iff in Hvalid as [Hvalid ?]).
  unfold Py.minus_one_day, Py.plus_one_day. simpl.
  destruct (Z.ltb_spec 1 d).
  - intros [= <-]. simpl.
    destruct (Z.ltb_spec (d - 1) (Py.days_in_month y m)); [|lia].
    do 2 f_equal. lia.
  - assert (d = 1) by lia. subst d.
    destruct (Z.ltb_spec 1 m).
    + intros [= <-]. simpl. rewrite Z.ltb_irrefl.
      destruct (Z.ltb_spec (m - 1) 12); [|lia]. do 2 f_equal. lia.
    + assert (m = 1) by lia. subst m.
      destruct (Z.ltb_spec 1 y); [|discriminate].
      intros [= <-]. simpl. change (Py.days_in_month (y - 1) 12) with 31.
      simpl. destruct (Z.ltb_spec (y - 1) 9999); [|lia]. do 2 f_equal. lia.
Qed.

(** ** Sequencing *)

Lemma bind_inv {W A B} (m : Py.M W A) (k : A -> Py.M W B) (w w' : W) (r : Py.result B) :
  (m ≫= k) w = (w', r) ->
  (exists w1 a, m w = (w1, Py.Return a) /\ k a w1 = (w', r)) \/
  (exists e, m w = (w', Py.Raise e) /\ r = Py.Raise e).
Proof.
  unfold mbind, Py.M_bind. destruct (m w) as [w1 [a|e]].
  - intros Hk. left. exists w1, a. split; [reflexivity | exact Hk].
  - intros [= <- <-]. right. exists e. split; reflexivity.
Qed.

Lemma bind_return_inv {W A B} (m : Py.M W A) (k : A -> Py.M W B) (w w' : W) (b : B) :
  (m ≫= k) w = (w', Py.Return b) ->
  exists w1 a, m w = (w1, Py.Return a) /\ k a w1 = (w', Py.Return b).
Proof.
  intros H. apply bind_inv in H as [H | (e & _ & He)]; [exact H | discriminate].
Qed.



(** ** The sequential step runner *)


Section RunStack_loop.
Import Py RunStack.
Context (os : OS) (run_files_dir : string) (cores : Z) (scripts : list string).

Lemma process_some indices earlier count cs n :
  process os run_files_dir cores scripts indices earlier count = (cs, Some n) ->
  Forall (fun c => succeeded c = true) cs /\ n = count + Z.of_nat (length cs) /\
  map step cs = List.filter (has_script scripts) indices.
Proof.
  revert earlier count cs n.
  induction indices as [|i rest IH]; intros earlier count cs n; simpl.
  - intros [= <- <-]. repeat split; [constructor | simpl; lia].
  - unfold has_script at 1. destruct (matched_scripts scripts i) as [|s ms] eqn:Hm.
    + apply IH.
    + destruct (_ ← open_w os earlier _; subprocess_run os earlier _ _) as [u|e] eqn:Hr;
        [|discriminate].
      destruct (process os run_files_dir cores scripts rest (S earlier) (count + 1))
        as [cs' fin] eqn:Hp.
      intros [= <- ->]. destruct (IH _ _ _ _ Hp) as (Hall & Hn & Hsteps).
      repeat split.
      * constructor; [reflexivity | exact Hall].
      * simpl length. lia.
      * simpl. congruence.
Qed.

Lemma process_none indices earlier count cs :
  process os run_files_dir cores scripts indices earlier count = (cs, None) ->
  exists pre c rest,
    cs = pre ++ [c] /\ Forall (fun c => succeeded c = true) pre /\ succeeded c = false /\
    List.filter (has_script scripts) indices = map step cs ++ rest.
Proof.
  revert earlier count cs.
  induction indices as [|i rest IH]; intros earlier count cs; simpl.
  - discriminate.
  - unfold has_script at 1. destruct (matched_scripts scripts i) as [|s ms] eqn:Hm.
    + apply IH.
    + destruct (_ ← open_w os earlier _; subprocess_run os earlier _ _) as [u|e] eqn:Hr.
      * destruct (process os run_files_dir cores scripts rest (S earlier) (count + 1))
          as [cs' fin] eqn:Hp.
        intros [= <- ->]. destruct (IH _ _ _ Hp) as (pre & c & tl & -> & Hall & Hc & Hsteps).
        exists (Call i s (Return u) :: pre), c, tl. repeat split; try assumption.
        -- constructor; [reflexivity | exact Hall].
        -- simpl. congruence.
      * intros [= <-]. exists [], (Call i s (Raise e)), (List.filter (has_script scripts) rest).
        repeat split. constructor.
Qed.


End RunStack_loop.

Lemma seq_strongly_sorted (a n : nat) : StronglySorted lt (seq a n).
Proof.
  revert a. induction n as [|n IH]; intros a; simpl; constructor.
  - apply IH.
  - apply Forall_forall. intros x Hx. apply elem_of_seq in Hx. lia.
Qed.

Lemma range_strongly_sorted (lo hi : Z) : StronglySorted Z.lt (Py.range lo hi).
Proof.
  unfold Py.range.
  apply (StronglySorted_fmap _ lt Z.lt); [intros; lia | apply seq_strongly_sorted].
Qed.

Lemma elem_of_range (lo hi i : Z) : i ∈ Py.range lo hi <-> lo <= i < hi.
Proof.
  unfold Py.range. rewrite list_elem_of_fmap. split.
  - intros (k & -> & Hk). apply elem_of_seq in Hk. lia.
  - intros Hi. exists (Z.to_nat (i - lo)). split; [lia | apply elem_of_seq; lia].
Qed.

Lemma filter_strongly_sorted {A} (R : relation A) (f : A -> bool) (l : list A) :
  StronglySorted R l -> StronglySorted R (List.filter f l).
Proof.
  induction 1 as [|x l Hl IH Hx]; simpl; [constructor|].
  destruct (f x); [|exact IH]. constructor; [exact IH|].
  apply Forall_forall. intros y Hy. apply list_elem_of_In, filter_In in Hy as [Hy _].
  rewrite Forall_forall in Hx. apply Hx, list_elem_of_In, Hy.
Qed.

Lemma run_stack_processing_inv (os : RunStack.OS) (run_files_dir : string)
    (cores : option Z) (expected_files : Z) :
  let r := RunStack.run_stack_processing os run_files_dir cores expected_files in
  (RunStack.calls r = [] /\ RunStack.returned r <> Py.Return true /\
   ~ (exists scripts u,
        RunStack.find_run_files os run_files_dir = Py.Return scripts /\
        RunStack.confirmed os scripts expected_files = Py.Return true /\
        RunStack.mkdir os (Py.join run_files_dir "logs") = Py.Return u)) \/
  (exists scripts u n cs fin,
      RunStack.find_run_files os run_files_dir = Py.Return scripts /\
      RunStack.confirmed os scripts expected_files = Py.Return true /\
      RunStack.mkdir os (Py.join run_files_dir "logs") = Py.Return u /\
      RunStack.process os run_files_dir n scripts
        (Py.range 1 (expected_files + 1)) 0 0 = (cs, fin) /\
      RunStack.calls r = cs /\
      RunStack.returned r =
        match fin with
        | None => Py.Return false
        | Some count =>
            Py.Return (count =? RunStack.found_among_expected scripts expected_files)
        end).
Proof.
  unfold RunStack.run_stack_processing.
  destruct (RunStack.find_run_files os run_files_dir) as [scripts|e] eqn:Hfind.
  2: { left. destruct e; simpl; repeat split; try congruence;
       intros (s & u & H & _); discriminate. }
  destruct (RunStack.confirmed os scripts expected_files) as [[|]|e] eqn:Hconf.
  2, 3: left; simpl; repeat split; try congruence;
    intros (s & u & [= <-] & H & _); congruence.
  destruct (RunStack.mkdir os (Py.join run_files_dir "logs")) as [u|e] eqn:Hmk.
  2: { left; simpl; repeat split; try congruence.
       intros (s & u & _ & _ & H); discriminate. }
  match goal with |- context [RunStack.process os run_files_dir ?n scripts ?idx 0%nat 0] =>
    destruct (RunStack.process os run_files_dir n scripts idx 0%nat 0) as [cs fin] eqn:Hp;
    right; exists scripts, u, n, cs, fin end.
  destruct fin; simpl; repeat split; try assumption; reflexivity.
Qed.

(** C4: when the external command of an invoked step fails (non-zero exit,
    missing tool, or any other exception of the [try] block), that
    invocation is the last one, no step with a greater index is invoked, and
    [run_stack_processing] returns [False]. *)
Theorem C4_failed_step_halts_run (os : RunStack.OS) (run_files_dir : string)
    (cores : option Z) (expected_files : Z) (k : nat) (c : RunStack.call) (e : Py.exn) :
  let r := RunStack.run_stack_processing os run_files_dir cores expected_files in
  RunStack.calls r !! k = Some c ->
  RunStack.outcome c = Py.Raise e ->
  RunStack.returned r = Py.Return false /\
  length (RunStack.calls r) = S k /\
  (forall c', c' ∈ RunStack.calls r -> RunStack.step c' <= RunStack.step c).
Proof.
  intros r Hk Hc. subst r.
  pose proof (run_stack_processing_inv os run_files_dir cores expected_files) as Hinv.
  cbv zeta in Hinv.
  destruct Hinv
    as [[Hnil _] | (scripts & u & n & cs & fin & _ & _ & _ & Hp & Hcalls & Hret)].
  { rewrite Hnil in Hk. discriminate. }
  rewrite Hcalls in *. rewrite Hret. clear Hcalls Hret.
  assert (Hfail : RunStack.succeeded c = false)
    by (unfold RunStack.succeeded; rewrite Hc; reflexivity).
  destruct fin as [count|].
  { apply process_some in Hp as (Hall & _).
    rewrite Forall_forall in Hall.
    rewrite (Hall c) in Hfail by (eapply list_elem_of_lookup_2; exact Hk). discriminate. }
  apply process_none in Hp as (pre & c0 & rest & -> & Hall & Hc0 & Hsteps).
  assert (Hlen : k = length pre).
  { destruct (decide (k < length pre)%nat) as [Hlt|Hge].
    - rewrite lookup_app_l in Hk by exact Hlt.
      rewrite Forall_forall in Hall.
      rewrite (Hall c) in Hfail by (eapply list_elem_of_lookup_2; exact Hk). discriminate.
    - apply lookup_lt_Some in Hk. rewrite length_app in Hk. simpl in Hk. lia. }
  subst k. rewrite list_lookup_middle in Hk by reflexivity. injection Hk as <-.
  split; [reflexivity|]. split; [rewrite length_app; simpl; lia|].
  intros c' Hin.
  assert (Hsorted : StronglySorted Z.lt (map RunStack.step (pre ++ [c0]) ++ rest)).
  { rewrite <- Hsteps. apply filter_strongly_sorted, range_strongly_sorted. }
  apply StronglySorted_app_1_l in Hsorted. rewrite map_app in Hsorted. simpl in Hsorted.
  apply elem_of_app in Hin as [Hin | Hin].
  - apply Z.lt_le_incl.
    eapply (StronglySorted_app_1_elem_of _ _ _ _ _ Hsorted).
    + apply list_elem_of_fmap. exists c'. split; [reflexivity | exact Hin].
    + apply list_elem_of_singleton. reflexivity.
  - apply list_elem_of_singleton in Hin as ->. lia.
Qed.

(** Step 3 of 5 exits non-zero: steps 4 and 5 are not invoked and the run
    reports failure. *)
Lemma C4_witness_step_3_of_5 :
  let r := RunStack.run_stack_processing
             (Scenario.run_files Scenario.five_steps (Some 2%nat) "")
             "/work/run_files" None 5 in
  RunStack.returned r = Py.Return false /\
  length (RunStack.calls r) = 3%nat /\
  (forall c', c' ∈ RunStack.calls r -> RunStack.step c' <= 3).
Proof.
  apply (C4_failed_step_halts_run
           (Scenario.run_files Scenario.five_steps (Some 2%nat) "")
           "/work/run_files" None 5 2
           (RunStack.Call 3 "/work/run_files/run_03_average_baseline"
              (Py.Raise (Py.CalledProcessError 1)))
           (Py.CalledProcessError 1)).
  - vm_compute. reflexivity.
  - reflexivity.
Defined.

Lemma filter_all_succeeded (cs : list RunStack.call) :
  Forall (fun c => RunStack.succeeded c = true) cs ->
  List.filter RunStack.succeeded cs = cs.
Proof.
  induction 1 as [|c cs Hc _ IH]; simpl; [reflexivity|].
  rewrite Hc, IH. reflexivity.
Qed.

(** C9, the statement as the specification has it, tried on a directory
    whose only script names no expected step while the user declines to
    continue: nothing is run, so the number of completed steps (0) equals
    the number of found scripts naming an expected step (0), and yet the
    answer is [False]. *)
Lemma C9_counterexample_declined_prompt :
  let os := Scenario.run_files ["run_17_merge"] None "n" in
  let r := RunStack.run_stack_processing os "/work/run_files" None 16 in
  RunStack.find_run_files os "/work/run_files"
    = Py.Return ["/work/run_files/run_17_merge"] /\
  RunStack.completed_steps r
    = RunStack.found_among_expected ["/work/run_files/run_17_merge"] 16 /\
  RunStack.returned r = Py.Return false.
Proof. vm_compute. repeat split; reflexivity. Qed.

(** C9, amended: [run_stack_processing] returns [True] exactly when it gets
    to its last line (run files are found, the length check passes or the
    user answers y, the logs directory can be made, every invoked step ends
    well) and the number of completed steps equals the number of found
    scripts naming some step in 1..expected_files.  The number
    [expected_files] itself is not compared with: three found scripts out
    of five expected give [True]. *)
Theorem C9_final_verdict_compares_with_found :
  (forall (os : RunStack.OS) (run_files_dir : string) (cores : option Z)
          (expected_files : Z),
     let r := RunStack.run_stack_processing os run_files_dir cores expected_files in
     RunStack.returned r = Py.Return true <->
     exists scripts,
       RunStack.find_run_files os run_files_dir = Py.Return scripts /\
       RunStack.confirmed os scripts expected_files = Py.Return true /\
       RunStack.mkdir os (Py.join run_files_dir "logs") = Py.Return tt /\
       Forall (fun c => RunStack.succeeded c = true) (RunStack.calls r) /\
       RunStack.completed_steps r = RunStack.found_among_expected scripts expected_files) /\
  (let os := Scenario.run_files (take 3 Scenario.five_steps) None "y" in
   RunStack.returned (RunStack.run_stack_processing os "/work/run_files" None 5)
     = Py.Return true /\
   RunStack.found_among_expected
     (map (Py.join "/work/run_files") (take 3 Scenario.five_steps)) 5 = 3).
Proof.
  split; [|vm_compute; split; reflexivity].
  intros os run_files_dir cores expected_files r. subst r. split.
  - intros Hret.
    pose proof (run_stack_processing_inv os run_files_dir cores expected_files) as Hinv.
    cbv zeta in Hinv.
    destruct Hinv
      as [(_ & Hne & _) | (scripts & u & n & cs & fin & Hfind & Hconf & Hmk & Hp & Hcalls & Hr)];
      [congruence|].
    rewrite Hr in Hret. destruct fin as [count|]; [|discriminate].
    injection Hret as Heq. apply Z.eqb_eq in Heq.
    apply process_some in Hp as (Hall & Hcount & _).
    exists scripts. destruct u. repeat split; try assumption.
    + rewrite Hcalls. exact Hall.
    + unfold RunStack.completed_steps. rewrite Hcalls, filter_all_succeeded by exact Hall.
      lia.
  - intros (scripts & Hfind & Hconf & Hmk & Hall & Hcount).
    unfold RunStack.completed_steps in Hcount. revert Hall Hcount.
    unfold RunStack.run_stack_processing. rewrite Hfind, Hconf, Hmk.
    match goal with |- context [RunStack.process os run_files_dir ?n scripts ?idx 0%nat 0] =>
      destruct (RunStack.process os run_files_dir n scripts idx 0%nat 0) as [cs fin] eqn:Hp
    end.
    destruct fin as [count|]; simpl; intros Hall Hcount.
    + apply process_some in Hp as (_ & Hn & _).
      rewrite filter_all_succeeded in Hcount by exact Hall.
      f_equal. apply Z.eqb_eq. lia.
    + apply process_none in Hp as (pre & c & rest & -> & _ & Hc & _).
      rewrite Forall_forall in Hall. rewrite (Hall c) in Hc; [discriminate|].
      apply elem_of_app. right. apply list_elem_of_singleton. reflexivity.
Qed.

(** ** Extraction *)

Section Unzip_facts.
Import Py Unzip.
Context (os : OS).

Lemma print_files (text : string) (w w' : world) (r : result unit) :
  print text w = (w', r) -> files w' = files w /\ r = Return tt.
Proof. unfold print. intros [= <- <-]. split; reflexivity. Qed.

Lemma path_exists_spec (p : string) (w w' : world) (b : bool) :
  path_exists p w = (w', Return b) ->
  w' = w /\ (b = true <-> is_Some (files w !! p)).
Proof.
  unfold path_exists. intros [= <- <-]. split; [reflexivity|].
  apply bool_decide_eq_true.
Qed.

Lemma try_block_returns_true (zip_file target_dir : string) (w w' : world) (b : bool) :
  try_block os zip_file target_dir w = (w', Return b) -> b = true.
Proof.
  unfold try_block. intros H.
  repeat (apply bind_return_inv in H as (? & ? & _ & H)).
  unfold mret, Py.M_ret in H. congruence.
Qed.

Lemma removed_root (d : string) (fs : gmap string node) : removed d fs !! d = None.
Proof.
  unfold removed. apply map_lookup_filter_None. right. intros x _. simpl.
  unfold below. rewrite String.eqb_refl. discriminate.
Qed.

Lemma rmtree_removes (d : string) (w w' : world) (r : result unit) :
  fault os w (Rmtree d) = None ->
  rmtree_ignore_errors os d w = (w', r) -> files w' !! d = None.
Proof.
  unfold rmtree_ignore_errors, try_except, attempt. intros ->. intros [= <- <-].
  simpl. apply removed_root.
Qed.

Lemma except_block_false (zip_file target_dir : string) (e : exn) (w w' : world) (b : bool) :
  (forall w0, fault os w0 (Rmtree (safe_dir zip_file target_dir)) = None) ->
  except_block os zip_file target_dir e w = (w', Return b) ->
  b = false /\ files w' !! safe_dir zip_file target_dir = None.
Proof.
  intros Hrm. unfold except_block. intros H.
  apply bind_return_inv in H as (w1 & [] & _ & H).
  apply bind_return_inv in H as (w2 & [] & _ & H).
  apply bind_return_inv in H as (w3 & [] & _ & H).
  apply bind_return_inv in H as (w4 & left_behind & Hex & H).
  apply path_exists_spec in Hex as [-> Hex].
  destruct left_behind.
  - apply bind_return_inv in H as (w5 & [] & Hr & H).
    apply bind_return_inv in H as (w6 & [] & Hp & H).
    apply print_files in Hp as [Hp _].
    unfold mret, Py.M_ret in H. injection H as <- <-.
    split; [reflexivity|]. rewrite Hp. eapply rmtree_removes; [apply Hrm | exact Hr].
  - unfold mret, Py.M_ret in H. injection H as <- <-.
    split; [reflexivity|].
    destruct (files w3 !! safe_dir zip_file target_dir) as [n|] eqn:Hl; [|reflexivity].
    assert (false = true) by (apply Hex; eauto). discriminate.
Qed.

Lemma attempt_history (ev : event) (f g : gmap string node -> gmap string node)
    (w w' : world) (r : result unit) :
  attempt os ev f g w = (w', r) -> history w' = history w ++ [ev].
Proof. unfold attempt. destruct (fault os w ev); intros [= <- <-]; reflexivity. Qed.

Lemma removals_snoc (h : list event) (ev : event) :
  removals (h ++ [ev]) = removals h ++ match ev with Rmtree d => [d] | _ => [] end.
Proof. unfold removals. rewrite flat_map_app. simpl. rewrite app_nil_r. reflexivity. Qed.

(** What holds between the worlds before and after every operation of the
    [try] block holds between the worlds before and after the block. *)
Section Keeps.
Context (R : world -> world -> Prop).
Hypothesis R_refl : forall w, R w w.
Hypothesis R_trans : forall w1 w2 w3, R w1 w2 -> R w2 w3 -> R w1 w3.
Hypothesis R_print : forall text, keeps R (print text).
Hypothesis R_open_w : forall p, keeps R (open_w os p).
Hypothesis R_write : forall p text, keeps R (write os p text).
Hypothesis R_open_zip : forall z, keeps R (attempt os (OpenZip z) (fun fs => fs) (fun fs => fs)).
Hypothesis R_extract : forall z t m, keeps R (extract os z t m).

Lemma keeps_ret {A} (a : A) : keeps R (mret a : M A).
Proof. intros w w' r. unfold mret, M_ret. intros [= <- <-]. apply R_refl. Qed.

Lemma keeps_bind {A B} (m : M A) (k : A -> M B) :
  keeps R m -> (forall a, keeps R (k a)) -> keeps R (m ≫= k).
Proof.
  intros Hm Hk w w' r H. apply bind_inv in H as [(w1 & a & H1 & H2) | (e & H1 & _)].
  - eapply R_trans; [eapply Hm; exact H1 | eapply Hk; exact H2].
  - eapply Hm. exact H1.
Qed.

Lemma keeps_extract_all (zip_file target_dir log : string) (total : Z)
    (l : list member) (i : Z) :
  keeps R (extract_all os zip_file target_dir log total i l).
Proof.
  revert i. induction l as [|m rest IH]; intros i; simpl.
  - apply keeps_ret.
  - apply keeps_bind; [apply R_write | intros _].
    apply keeps_bind; [apply R_extract | intros _]. apply IH.
Qed.

Lemma keeps_try_block (zip_file target_dir : string) :
  keeps R (try_block os zip_file target_dir).
Proof.
  unfold try_block.
  apply keeps_bind; [apply R_open_w | intros _].
  apply keeps_bind; [apply R_write | intros _].
  apply keeps_bind.
  { unfold zip_open. apply keeps_bind; [apply R_open_zip | intros; apply keeps_ret]. }
  intros file_list.
  apply keeps_bind; [apply R_write | intros _].
  apply keeps_bind; [apply R_write | intros _].
  apply keeps_bind; [apply keeps_extract_all | intros _].
  apply keeps_bind; [apply R_write | intros _].
  apply keeps_bind; [apply R_print | intros; apply keeps_ret].
Qed.

End Keeps.

Lemma no_removal_print (text : string) : keeps no_removal (print text).
Proof.
  intros w w' r. unfold print, no_removal. intros [= <- <-]. simpl.
  rewrite removals_snoc. apply app_nil_r.
Qed.

Lemma no_removal_attempt (ev : event) (f g : gmap string node -> gmap string node) :
  match ev with Rmtree _ => False | _ => True end -> keeps no_removal (attempt os ev f g).
Proof.
  intros Hev w w' r H. apply attempt_history in H. unfold no_removal.
  rewrite H, removals_snoc. destruct ev; try contradiction; apply app_nil_r.
Qed.

Lemma try_block_no_removal (zip_file target_dir : string) :
  keeps no_removal (try_block os zip_file target_dir).
Proof.
  apply keeps_try_block.
  - intros w. reflexivity.
  - unfold no_removal. intros w1 w2 w3 H12 H23. congruence.
  - apply no_removal_print.
  - intros p. apply no_removal_attempt. exact I.
  - intros p text. apply no_removal_attempt. exact I.
  - intros z. apply no_removal_attempt. exact I.
  - intros z t m w w' r. unfold extract. apply no_removal_attempt. exact I.
Qed.

(** What the [except] clause has done when it returns: either it found no
    destination directory and left the files as they were after the log
    entry, or it handed the destination directory to [rmtree], once. *)
Lemma except_block_cleanup (zip_file target_dir : string) (e : exn) (w w' : world) (b : bool) :
  except_block os zip_file target_dir e w = (w', Return b) ->
  b = false /\
  (removals (history w') = removals (history w)
   /\ files w' !! safe_dir zip_file target_dir = None
   \/ removals (history w') = removals (history w) ++ [safe_dir zip_file target_dir]).
Proof.
  unfold except_block. intros H.
  apply bind_return_inv in H as (w1 & [] & H1 & H). apply no_removal_print in H1.
  apply bind_return_inv in H as (w2 & [] & H2 & H).
  apply (no_removal_attempt (OpenA _)) in H2; [|exact I].
  apply bind_return_inv in H as (w3 & [] & H3 & H).
  apply (no_removal_attempt (Write _ _)) in H3; [|exact I].
  assert (Hlog : removals (history w3) = removals (history w))
    by (unfold no_removal in *; congruence).
  apply bind_return_inv in H as (w4 & left_behind & Hex & H).
  apply path_exists_spec in Hex as [-> Hex].
  destruct left_behind.
  - apply bind_return_inv in H as (w5 & [] & Hr & H).
    apply bind_return_inv in H as (w6 & [] & Hp & H).
    apply no_removal_print in Hp.
    unfold mret, Py.M_ret in H. injection H as <- <-.
    split; [reflexivity|]. right.
    assert (Hrm : history w5 = history w3 ++ [Rmtree (safe_dir zip_file target_dir)]).
    { revert Hr. unfold rmtree_ignore_errors, try_except, attempt.
      destruct (fault os w3 _); intros [= <-]; reflexivity. }
    unfold no_removal in Hp. rewrite Hp, Hrm, removals_snoc, Hlog. reflexivity.
  - unfold mret, Py.M_ret in H. injection H as <- <-.
    split; [reflexivity|]. left. split; [exact Hlog|].
    destruct (files w3 !! safe_dir zip_file target_dir) as [n|] eqn:Hl; [|reflexivity].
    assert (false = true) by (apply Hex; eauto). discriminate.
Qed.

End Unzip_facts.

(** The marker is the stem with [.SAFE] appended, also when the stem ends in
    [.SAFE] already. *)
Example safe_dir_examples :
  Unzip.safe_dir Scenario.slc_zip "/slc" = ("/slc/" ++ Scenario.slc_safe)%string /\
  Unzip.safe_dir "/data/S1A_X.SAFE.zip" "/slc" = "/slc/S1A_X.SAFE.SAFE".
Proof. split; reflexivity. Qed.

Lemma unzip_skips (os : Unzip.OS) (zip_file target_dir : string) (w : Unzip.world) :
  is_Some (Unzip.files w !! Unzip.safe_dir zip_file target_dir) ->
  Unzip.unzip_S1_SLC os zip_file target_dir w =
    (Unzip.World (Unzip.files w)
       ((Unzip.history w
           ++ [Unzip.Print ("Unzipping " ++ Py.basename zip_file ++ " ...")%string])
           ++ [Unzip.Print ("Already exists: " ++ Unzip.safe_name zip_file
                              ++ ", skipping...")%string]),
     Py.Return true).
Proof.
  intros Hex. unfold Unzip.unzip_S1_SLC, mbind, Py.M_bind, Unzip.print, Unzip.path_exists.
  simpl. rewrite bool_decide_eq_true_2 by exact Hex. reflexivity.
Qed.

Lemma unzip_attempts (os : Unzip.OS) (zip_file target_dir : string) (w : Unzip.world) :
  Unzip.files w !! Unzip.safe_dir zip_file target_dir = None ->
  Unzip.unzip_S1_SLC os zip_file target_dir w =
    Py.try_except (Unzip.try_block os zip_file target_dir)
      (Unzip.except_block os zip_file target_dir)
      (Unzip.World (Unzip.files w)
         (Unzip.history w
            ++ [Unzip.Print ("Unzipping " ++ Py.basename zip_file ++ " ...")%string])).
Proof.
  intros Hno. unfold Unzip.unzip_S1_SLC, mbind, Py.M_bind, Unzip.print, Unzip.path_exists.
  simpl. rewrite bool_decide_eq_false_2; [reflexivity|].
  rewrite Hno. intros [x Hx]. discriminate.
Qed.

Lemma extractions_print (h : list Unzip.event) (text : string) :
  Unzip.extractions (h ++ [Unzip.Print text]) = Unzip.extractions h.
Proof.
  unfold Unzip.extractions. rewrite List.filter_app, length_app. simpl. lia.
Qed.

(** C2 at an archive named as the script's own file test wants it
    ([S1*.SAFE.zip], lines 149 and 188) and holding the product directory
    [S1*.SAFE]: line 33 appends [.SAFE] to a stem that ends in [.SAFE]
    already, so the directory looked for is [S1*.SAFE.SAFE].  The first run
    extracts the four members and returns [True]; the directory looked for
    is still missing, so the second run extracts the four members again;
    and when the archive has been damaged in between, the second run
    returns [False] for a product that lies extracted on disk. *)
Theorem C2_safe_named_archive_is_extracted_again :
  let first := Unzip.unzip_S1_SLC Scenario.healthy Scenario.slc_safe_zip "/slc"
                 Scenario.disk_safe_zip in
  let second := Unzip.unzip_S1_SLC Scenario.healthy Scenario.slc_safe_zip "/slc" first.1 in
  let second_damaged :=
    Unzip.unzip_S1_SLC Scenario.damaged_archive Scenario.slc_safe_zip "/slc" first.1 in
  Unzip.is_S1_name Scenario.slc_safe_zip = true /\
  Unzip.safe_dir Scenario.slc_safe_zip "/slc"
    = ("/slc/" ++ Scenario.slc_safe ++ ".SAFE")%string /\
  first.2 = Py.Return true /\
  Unzip.extracted_members (Unzip.history first.1) = map Unzip.name Scenario.slc_members /\
  Unzip.files first.1 !! ("/slc/" ++ Scenario.slc_safe)%string = Some Unzip.Dir /\
  Unzip.files first.1 !! Unzip.safe_dir Scenario.slc_safe_zip "/slc" = None /\
  second.2 = Py.Return true /\
  Unzip.extracted_members (Unzip.history second.1)
    = map Unzip.name Scenario.slc_members ++ map Unzip.name Scenario.slc_members /\
  second_damaged.2 = Py.Return false.
Proof. vm_compute. repeat split; reflexivity. Qed.

(** C10, the statement as it stands, tried on an archive whose last member
    is damaged while the tree extracted so far cannot be removed: [rmtree]
    is told to ignore errors, so [unzip_S1_SLC] returns [False] with the
    directory still there, and the next run, on a healthy machine, skips the
    archive and reports success although the measurement was never
    extracted. *)
Lemma C10_counterexample_removal_fails_silently :
  let first := Unzip.unzip_S1_SLC Scenario.damaged_archive_stuck_tree
                 Scenario.slc_zip "/slc" Scenario.disk in
  let again := Unzip.unzip_S1_SLC Scenario.healthy Scenario.slc_zip "/slc" first.1 in
  first.2 = Py.Return false /\
  Unzip.removals (Unzip.history first.1) = [Unzip.safe_dir Scenario.slc_zip "/slc"] /\
  Unzip.files first.1 !! Unzip.safe_dir Scenario.slc_zip "/slc" = Some Unzip.Dir /\
  again.2 = Py.Return true /\
  Unzip.extractions (Unzip.history again.1) = Unzip.extractions (Unzip.history first.1) /\
  Unzip.files again.1
    !! ("/slc/" ++ Scenario.slc_safe ++ "/measurement/s1a-iw1-slc-vv.tiff")%string = None.
Proof. vm_compute. repeat split; reflexivity. Qed.

(** C10, amended: whenever [unzip_S1_SLC] returns [False], its [except]
    clause has either found no destination directory, which is then absent
    at the return, or handed the destination directory, and nothing else,
    to [rmtree] once; when removing it does not fail the directory is
    absent at the return; and with the directory absent a further run does
    not skip the archive: it enters the [try] block again. *)
Theorem C10_failure_removes_destination (os : Unzip.OS)
    (zip_file target_dir : string) (w : Unzip.world) :
  (Unzip.unzip_S1_SLC os zip_file target_dir w).2 = Py.Return false ->
  let w' := (Unzip.unzip_S1_SLC os zip_file target_dir w).1 in
  let destination := Unzip.safe_dir zip_file target_dir in
  (Unzip.removals (Unzip.history w') = Unzip.removals (Unzip.history w)
   /\ Unzip.files w' !! destination = None
   \/ Unzip.removals (Unzip.history w')
      = Unzip.removals (Unzip.history w) ++ [destination]) /\
  ((forall w0, Unzip.fault os w0 (Unzip.Rmtree destination) = None) ->
   Unzip.files w' !! destination = None) /\
  (Unzip.files w' !! destination = None ->
   forall os2,
     Unzip.unzip_S1_SLC os2 zip_file target_dir w' =
       Py.try_except (Unzip.try_block os2 zip_file target_dir)
         (Unzip.except_block os2 zip_file target_dir)
         (Unzip.World (Unzip.files w')
            (Unzip.history w'
               ++ [Unzip.Print ("Unzipping " ++ Py.basename zip_file ++ " ...")%string]))).
Proof.
  intros Hret w' destination. subst w' destination. revert Hret.
  destruct (Unzip.files w !! Unzip.safe_dir zip_file target_dir) as [n|] eqn:Hl.
  { rewrite unzip_skips by eauto. discriminate. }
  rewrite unzip_attempts by exact Hl. unfold Py.try_except.
  destruct (Unzip.try_block os zip_file target_dir _) as [w1 [b|e]] eqn:Htry.
  { apply try_block_returns_true in Htry as ->. discriminate. }
  apply try_block_no_removal in Htry. unfold Unzip.no_removal in Htry. simpl in Htry.
  rewrite removals_snoc, app_nil_r in Htry.
  destruct (Unzip.except_block os zip_file target_dir e w1) as [w2 r] eqn:Hexc.
  simpl. intros ->. split; [|split].
  - destruct (except_block_cleanup os zip_file target_dir e w1 w2 false Hexc)
      as [_ [[Hsame Hgone] | Hone]].
    + left. split; [congruence | exact Hgone].
    + right. congruence.
  - intros Hrm.
    apply (except_block_false os zip_file target_dir e w1 w2 false Hrm Hexc).
  - intros Hgone os2. apply unzip_attempts, Hgone.
Qed.

(** A damaged member makes the extraction fail; the directory is handed to
    [rmtree] and is gone afterwards. *)
Lemma C10_witness_damaged_archive :
  let w' := (Unzip.unzip_S1_SLC Scenario.damaged_archive Scenario.slc_zip "/slc"
               Scenario.disk).1 in
  let destination := Unzip.safe_dir Scenario.slc_zip "/slc" in
  (Unzip.removals (Unzip.history w') = Unzip.removals (Unzip.history Scenario.disk)
   /\ Unzip.files w' !! destination = None
   \/ Unzip.removals (Unzip.history w')
      = Unzip.removals (Unzip.history Scenario.disk) ++ [destination]) /\
  ((forall w0, Unzip.fault Scenario.damaged_archive w0 (Unzip.Rmtree destination) = None) ->
   Unzip.files w' !! destination = None) /\
  (Unzip.files w' !! destination = None ->
   forall os2,
     Unzip.unzip_S1_SLC os2 Scenario.slc_zip "/slc" w' =
       Py.try_except (Unzip.try_block os2 Scenario.slc_zip "/slc")
         (Unzip.except_block os2 Scenario.slc_zip "/slc")
         (Unzip.World (Unzip.files w')
            (Unzip.history w'
               ++ [Unzip.Print ("Unzipping " ++ Py.basename Scenario.slc_zip ++ " ...")%string]))).
Proof.
  apply (C10_failure_removes_destination Scenario.damaged_archive Scenario.slc_zip "/slc"
           Scenario.disk).
  vm_compute. reflexivity.
Defined.

(** The same failure on the healthy disk and on the archive named
    [S1*.SAFE.zip]: in the first case the directory is handed to [rmtree]
    and gone; in the second the [except] clause finds no [S1*.SAFE.SAFE]
    to remove, nothing is handed to [rmtree], and the product directory
    extracted so far stays. *)
Example cleanup_examples :
  let hub := Unzip.unzip_S1_SLC Scenario.damaged_archive Scenario.slc_zip "/slc"
               Scenario.disk in
  let safe_named := Unzip.unzip_S1_SLC Scenario.damaged_archive Scenario.slc_safe_zip "/slc"
                      Scenario.disk_safe_zip in
  hub.2 = Py.Return false /\
  Unzip.removals (Unzip.history hub.1) = [Unzip.safe_dir Scenario.slc_zip "/slc"] /\
  Unzip.files hub.1 !! Unzip.safe_dir Scenario.slc_zip "/slc" = None /\
  safe_named.2 = Py.Return false /\
  Unzip.removals (Unzip.history safe_named.1) = [] /\
  Unzip.files safe_named.1 !! Unzip.safe_dir Scenario.slc_safe_zip "/slc" = None /\
  Unzip.files safe_named.1 !! ("/slc/" ++ Scenario.slc_safe)%string = Some Unzip.Dir.
Proof. vm_compute. repeat split; reflexivity. Qed.

(** C7 at a disk that runs full during extraction: the [except] clause
    itself fails when it appends to the log, so the exception leaves
    [unzip_S1_SLC] with the half-extracted directory still in place, leaves
    [Parallel], and the batch ends without any count; on the one-job
    schedule the second archive is never opened. *)
Theorem C7_exception_leaves_except_clause :
  let task := Unzip.unzip_S1_SLC Scenario.disk_full Scenario.slc_zip "/slc" Scenario.disk in
  let batch := Unzip.unzip_S1_SLC_list Scenario.disk_full
                 [Scenario.slc_zip; Scenario.slc_zip_2] "/slc" None Scenario.disk in
  task.2 = Py.Raise Py.OSError /\
  Unzip.files task.1 !! Unzip.safe_dir Scenario.slc_zip "/slc" = Some Unzip.Dir /\
  batch.2 = Py.Raise Py.OSError /\
  Unzip.opened_archives (Unzip.history batch.1) = [Scenario.slc_zip].
Proof. vm_compute. repeat split; reflexivity. Qed.

(** ** Worker-count policy *)

Lemma int_of_truediv_4 (c : Z) : Py.int_of_Q (Py.truediv c 4) = Z.quot c 4.
Proof.
  unfold Py.int_of_Q, Py.truediv, Qdiv, Qmult, Qinv, inject_Z. simpl.
  rewrite Z.mul_1_r. reflexivity.
Qed.

Lemma clamp_min_max (x lo hi : Z) :
  lo <= hi -> Z.min (Z.max x lo) hi = Py.clamp x lo hi.
Proof.
  intros Hle. unfold Py.clamp.
  destruct (Z.ltb_spec x lo), (Z.ltb_spec hi x); lia.
Qed.

Lemma quot_4_clamped (c : Z) : Z.max (Z.quot c 4) 2 = Z.max (c / 4) 2.
Proof.
  destruct (Z.le_gt_cases 0 c) as [Hpos | Hneg].
  - rewrite Z.quot_div_nonneg by lia. reflexivity.
  - assert (Hq : Z.quot c 4 <= 0)
      by (rewrite <- (Z.quot_0_l 4) by lia; apply Z.quot_le_mono; lia).
    assert (Hd : c / 4 < 0) by (apply Z.div_lt_upper_bound; lia).
    lia.
Qed.

(** C1: with no override, the orbit download and the archive extraction
    size their pool as clamp(c // 4, 2, 8) = min(max(c // 4, 2), 8) for every
    CPU count [c]; that is 4 for 16 CPUs and 2 for 2 CPUs. *)
Theorem C1_pool_size_is_clamp (c : Z) :
  Orbit.njobs c = Py.clamp (c / 4) 2 8 /\
  Unzip.pool_size None c = Py.clamp (c / 4) 2 8 /\
  Orbit.njobs c = Z.min (Z.max (c / 4) 2) 8 /\
  Unzip.pool_size None c = Z.min (Z.max (c / 4) 2) 8 /\
  Orbit.njobs 16 = 4 /\ Unzip.pool_size None 16 = 4 /\
  Orbit.njobs 2 = 2 /\ Unzip.pool_size None 2 = 2.
Proof.
  assert (Hu : Unzip.pool_size None c = Z.min (Z.max (c / 4) 2) 8)
    by (unfold Unzip.pool_size; rewrite int_of_truediv_4, quot_4_clamped; reflexivity).
  repeat split; try reflexivity; try exact Hu.
  - unfold Orbit.njobs. apply clamp_min_max. lia.
  - rewrite Hu. apply clamp_min_max. lia.
Qed.

(** ** Coordinate validation *)

Lemma SFltb_not_SFleb (a b : spec_float) : SFltb a b = true -> SFleb b a = false.
Proof.
  unfold SFltb, SFleb.
  destruct a as [sa| sa | | sa ma ea], b as [sb | sb | | sb mb eb]; simpl;
    try destruct sa; try destruct sb; simpl; try discriminate; try reflexivity.
  - rewrite (Z.compare_antisym ea eb). destruct (ea ?= eb)%Z; simpl; try discriminate;
      try reflexivity.
    pose proof (Pos.compare_cont_antisym ma mb Eq) as Ha. simpl in Ha. rewrite <- Ha.
    destruct (Pos.compare_cont Eq ma mb); simpl; try discriminate; reflexivity.
  - rewrite (Z.compare_antisym ea eb). destruct (ea ?= eb)%Z; simpl; try discriminate;
      try reflexivity.
    pose proof (Pos.compare_cont_antisym ma mb Eq) as Ha. simpl in Ha. rewrite <- Ha.
    destruct (Pos.compare_cont Eq ma mb); simpl; try discriminate; reflexivity.
Qed.

Lemma float_ltb_not_leb (x y : float) : (x <? y)%float = true -> (y <=? x)%float = false.
Proof. rewrite ltb_spec, leb_spec. apply SFltb_not_SFleb. Qed.

Lemma outside_not_between (lo hi x : float) :
  Host.outside lo hi x = true -> Host.between lo hi x = false.
Proof.
  unfold Host.outside, Host.between. intros H. apply orb_true_iff in H as [H | H].
  - rewrite (float_ltb_not_leb _ _ H). reflexivity.
  - rewrite (float_ltb_not_leb _ _ H). apply andb_false_r.
Qed.

Lemma printed_false (w : Host.world) (text : string) (a : bool) :
  Host.only_printed w ((_ ← Host.print text; mret a) w) a.
Proof.
  unfold Host.only_printed, mbind, Py.M_bind, Host.print, mret, Py.M_ret. simpl.
  split; [reflexivity|]. split; [|exists text; reflexivity].
  unfold Host.work. rewrite List.filter_app. simpl. apply app_nil_r.
Qed.

Ltac reject_by_check :=
  match goal with
  | |- Host.only_printed _ ((if ?c then _ else _) _) _ =>
      destruct c eqn:?; [apply printed_false|]
  end.

Lemma malformed_fails_a_check (lat_min lat_max lon_min lon_max : float) :
  Host.malformed lat_min lat_max lon_min lon_max ->
  (lat_max <=? lat_min)%float = false ->
  (lon_max <=? lon_min)%float = false ->
  negb (Host.between (-90) 90 lat_min && Host.between (-90) 90 lat_max) = false ->
  negb (Host.between (-180) 180 lon_min && Host.between (-180) 180 lon_max) = false ->
  False.
Proof.
  intros Hbad H1 H2 H3 H4.
  apply negb_false_iff, andb_true_iff in H3 as [H3a H3b].
  apply negb_false_iff, andb_true_iff in H4 as [H4a H4b].
  destruct Hbad as [H | [H | [H | [H | [H | H]]]]];
    try apply outside_not_between in H; congruence.
Qed.

Lemma dem_validate_rejects (a : DownloadDem.args) (w : Host.world) :
  Host.malformed (DownloadDem.lat_min a) (DownloadDem.lat_max a)
                 (DownloadDem.lon_min a) (DownloadDem.lon_max a) ->
  Host.only_printed w (DownloadDem.validate_coordinates a w) false.
Proof.
  intros Hbad. unfold DownloadDem.validate_coordinates.
  do 4 reject_by_check.
  exfalso. eapply malformed_fails_a_check; eassumption.
Qed.

Lemma stack_validate_rejects (a : Stack.args) (w : Host.world) :
  Host.malformed (Stack.lat_min a) (Stack.lat_max a) (Stack.lon_min a) (Stack.lon_max a) ->
  Host.only_printed w (Stack.validate_coordinates a w) false.
Proof.
  intros Hbad. unfold Stack.validate_coordinates.
  do 4 reject_by_check.
  exfalso. eapply malformed_fails_a_check; eassumption.
Qed.

(** C8: a bounding box with lat_min >= lat_max, or lon_min >= lon_max, or a
    latitude outside [-90, 90], or a longitude outside [-180, 180] is refused
    by [validate_coordinates] of both front ends; the process then prints
    one error line, exits with code 1, and has made no directory, opened no
    file and run no command. *)
Theorem C8_malformed_coordinates_rejected (os : Host.OS) (w : Host.world)
    (lat_min lat_max lon_min lon_max : float)
    (dem_dir aux_dir slc_dir orbits_dir process_dir : string) (nalks nrlks : Z) :
  Host.malformed lat_min lat_max lon_min lon_max ->
  let dem := DownloadDem.Build_args lat_min lat_max lon_min lon_max dem_dir in
  let stack := Stack.Build_args lat_min lat_max lon_min lon_max
                 dem_dir aux_dir slc_dir orbits_dir nalks nrlks process_dir in
  Host.only_printed w (DownloadDem.validate_coordinates dem w) false /\
  Host.only_printed w (DownloadDem.main os dem w) 1 /\
  Py.exit_code (DownloadDem.main os dem w).2 = 1 /\
  Host.only_printed w (Stack.validate_coordinates stack w) false /\
  Host.only_printed w (Stack.main os stack w) 1 /\
  Py.exit_code (Stack.main os stack w).2 = 1.
Proof.
  intros Hbad dem stack.
  pose proof (dem_validate_rejects dem w Hbad) as Hd.
  pose proof (stack_validate_rejects stack w Hbad) as Hs.
  assert (Hdm : Host.only_printed w (DownloadDem.main os dem w) 1).
  { unfold DownloadDem.main, mbind, Py.M_bind.
    destruct (DownloadDem.validate_coordinates dem w) as [w1 r1].
    destruct Hd as (Hr & Hw & Ht). simpl in Hr. subst r1. simpl.
    split; [reflexivity|]. split; assumption. }
  assert (Hsm : Host.only_printed w (Stack.main os stack w) 1).
  { unfold Stack.main, mbind, Py.M_bind.
    destruct (Stack.validate_coordinates stack w) as [w1 r1].
    destruct Hs as (Hr & Hw & Ht). simpl in Hr. subst r1. simpl.
    split; [reflexivity|]. split; assumption. }
  repeat split; try apply Hd; try apply Hs; try apply Hdm; try apply Hsm.
  - destruct Hdm as [-> _]. reflexivity.
  - destruct Hsm as [-> _]. reflexivity.
Qed.

(** The two boxes of the specification: lat_min = 10 above lat_max = 5, and
    lat_min = -95. *)
Lemma C8_witness_examples :
  Py.exit_code
    (DownloadDem.main Scenario.workstation
       (DownloadDem.Build_args 10 5 100 102 "/dem") (Host.World [])).2 = 1 /\
  Py.exit_code
    (Stack.main Scenario.workstation
       (Stack.Build_args (-95) 5 100 102 "/dem" "/aux" "/slc" "/orbits" 3 9 "/work")
       (Host.World [])).2 = 1.
Proof.
  split.
  - refine (proj1 (proj2 (proj2
      (C8_malformed_coordinates_rejected Scenario.workstation (Host.World [])
         10 5 100 102 "/dem" "/aux" "/slc" "/orbits" "/work" 3 9 _)))).
    left. vm_compute. reflexivity.
  - refine (proj2 (proj2 (proj2 (proj2 (proj2
      (C8_malformed_coordinates_rejected Scenario.workstation (Host.World [])
         (-95) 5 100 102 "/dem" "/aux" "/slc" "/orbits" "/work" 3 9 _)))))).
    right. right. left. vm_compute. reflexivity.
Defined.

(** ** The orbit enumerator *)

Lemma scan_listing_spec (orbits_dir prev next : string) (lst : list string)
    (acc : list (string * string)) :
  Orbit.scan_listing orbits_dir prev next lst acc
  = acc ++ Orbit.tasks_of_window orbits_dir lst (prev, next).
Proof.
  unfold Orbit.tasks_of_window. simpl. revert acc.
  induction lst as [|filename rest IH]; intros acc; simpl.
  - symmetry. apply app_nil_r.
  - rewrite IH. destruct (Orbit.covers prev next filename); simpl.
    + rewrite <- app_assoc. reflexivity.
    + reflexivity.
Qed.

Lemma enumerate_spec (orbits_dir : string) (lst files : list string)
    (acc tasks : list (string * string)) :
  Orbit.enumerate orbits_dir lst files acc = Py.Return tasks <->
  exists windows,
    Forall2 (fun file w => Orbit.window file = Py.Return w) files windows /\
    tasks = acc ++ concat (map (Orbit.tasks_of_window orbits_dir lst) windows).
Proof.
  revert acc. induction files as [|file rest IH]; intros acc; simpl.
  - split.
    + intros [= <-]. exists []. split; [constructor | simpl; symmetry; apply app_nil_r].
    + intros (windows & Hall & ->). inversion Hall; subst. simpl.
      rewrite app_nil_r. reflexivity.
  - unfold mbind, Py.result_bind, Py.bind.
    destruct (Orbit.window file) as [[prev next]|e] eqn:Hw.
    + rewrite IH, scan_listing_spec. split.
      * intros (windows & Hall & ->). exists ((prev, next) :: windows).
        split; [constructor; assumption|]. simpl. rewrite <- app_assoc. reflexivity.
      * intros (windows & Hall & ->). inversion Hall as [|? w ? ws Hw' Hrest]; subst.
        rewrite Hw in Hw'. injection Hw' as <-. exists ws.
        split; [exact Hrest|]. simpl. rewrite <- app_assoc. reflexivity.
    + split; [discriminate|].
      intros (windows & Hall & _). inversion Hall as [|? w ? ws Hw' Hrest]; subst.
      rewrite Hw in Hw'. discriminate.
Qed.

(** C3, the statement as it stands, tried twice.  First on one archive of
    9 February 2021 and a listing holding the orbit files of Sentinel-1A and
    of Sentinel-1B for the window from the 8th to the 10th: both entries
    carry the two dates at the places compared, so the one date gets two
    tasks.  Then on two archives of that same day and the Sentinel-1A entry
    alone: the same task is appended once per archive, so the list holds it
    twice. *)
Lemma C3_counterexample_two_tasks_for_one_date :
  let lst := Orbit.parse_listing
               (Scenario.page [Scenario.eof_S1A_0209; Scenario.eof_S1B_0209]) in
  let one := Orbit.task_for "/orbits" Scenario.eof_S1A_0209 in
  let other := Orbit.task_for "/orbits" Scenario.eof_S1B_0209 in
  Orbit.enumerate "/orbits" lst [("/data/" ++ Scenario.slice_1)%string] []
    = Py.Return [one; other] /\
  Orbit.enumerate "/orbits"
      (Orbit.parse_listing (Scenario.page [Scenario.eof_S1A_0209]))
      [("/data/" ++ Scenario.slice_1)%string; ("/data/" ++ Scenario.slice_2)%string] []
    = Py.Return [one; one].
Proof. vm_compute. split; reflexivity. Qed.

(** C3, amended: the enumerator answers with a task list exactly when every
    local file name carries a date it can read, and the list then holds, for
    each local file in turn, one task per listing entry whose characters
    -35..-27 are the previous day and -19..-11 the next day: none for a
    file without such an entry, exactly one for a file with exactly one such
    entry.  Nothing is removed from the list: its length is the sum of these
    numbers. *)
Theorem C3_one_task_per_file_and_covering_entry (orbits_dir : string)
    (lst files : list string) :
  (forall tasks,
     Orbit.enumerate orbits_dir lst files [] = Py.Return tasks <->
     exists windows,
       Forall2 (fun file w => Orbit.window file = Py.Return w) files windows /\
       tasks = concat (map (Orbit.tasks_of_window orbits_dir lst) windows)) /\
  (forall w,
     length (Orbit.tasks_of_window orbits_dir lst w)
       = length (List.filter (Orbit.covers w.1 w.2) lst)) /\
  (forall w,
     Orbit.tasks_of_window orbits_dir lst w = [] <->
     forall filename, filename ∈ lst -> Orbit.covers w.1 w.2 filename = false) /\
  (forall w task,
     task ∈ Orbit.tasks_of_window orbits_dir lst w <->
     exists filename,
       filename ∈ lst /\ Orbit.covers w.1 w.2 filename = true /\
       task = Orbit.task_for orbits_dir filename).
Proof.
  split; [|split; [|split]].
  - intros tasks. apply (enumerate_spec orbits_dir lst files [] tasks).
  - intros w. unfold Orbit.tasks_of_window. apply length_map.
  - intros w. unfold Orbit.tasks_of_window. split.
    + intros Hnil filename Hin.
      destruct (Orbit.covers w.1 w.2 filename) eqn:Hc; [|reflexivity].
      apply map_eq_nil in Hnil.
      assert (Hf : In filename (List.filter (Orbit.covers w.1 w.2) lst))
        by (apply filter_In; split; [apply list_elem_of_In, Hin | exact Hc]).
      rewrite Hnil in Hf. destruct Hf.
    + intros Hnone. induction lst as [|filename rest IH]; simpl; [reflexivity|].
      rewrite (Hnone filename) by (left). apply IH.
      intros f Hf. apply Hnone. right. exact Hf.
  - intros w task. unfold Orbit.tasks_of_window.
    rewrite list_elem_of_In, in_map_iff. split.
    + intros (filename & <- & Hin). apply filter_In in Hin as [Hin Hc].
      exists filename. rewrite list_elem_of_In. auto.
    + intros (filename & Hin & Hc & ->). exists filename. split; [reflexivity|].
      apply filter_In. rewrite <- list_elem_of_In. auto.
Qed.

(** ** Counting outcomes *)

Lemma sum_from (results : list bool) (acc : Z) :
  fold_left (fun acc (b : bool) => acc + (if b then 1 else 0)) results acc
  = acc + Unzip.sum results.
Proof.
  unfold Unzip.sum. revert acc. induction results as [|b rest IH]; intros acc; simpl.
  - lia.
  - rewrite IH, (IH (0 + _)). lia.
Qed.

Lemma sum_bounds (results : list bool) :
  0 <= Unzip.sum results <= Z.of_nat (length results) /\
  (Unzip.sum results = Z.of_nat (length results) <-> Forall (fun b => b = true) results).
Proof.
  induction results as [|b rest [IHb IHall]].
  - unfold Unzip.sum. simpl. split; [lia|]. split; [constructor | reflexivity].
  - unfold Unzip.sum. simpl fold_left. rewrite sum_from.
    change (length (b :: rest)) with (S (length rest)). split.
    + destruct b; lia.
    + split.
      * intros Hs. destruct b; [|lia]. constructor; [reflexivity|].
        apply IHall. lia.
      * intros Hall. inversion Hall as [|? ? -> Hrest]; subst.
        apply IHall in Hrest. lia.
Qed.







(** ** Exit codes *)

Lemma download_file_returns (os : Orbit.OS) (task : string * string) (w : Orbit.world) :
  (Orbit.download_file os task w).2 = Py.Return tt.
Proof.
  destruct task as [file_url save_path].
  unfold Orbit.download_file, Py.try_except, mbind, Py.M_bind, Orbit.attempt, Orbit.print.
  destruct (Orbit.fault os w (Orbit.Fetch file_url save_path)); reflexivity.
Qed.

Lemma downloads_return (os : Orbit.OS) (tasks : list (string * string)) (w : Orbit.world) :
  exists results,
    (Py.run_tasks (map (Orbit.download_file os) tasks) w).2 = Py.Return results
    /\ length results = length tasks.
Proof.
  revert w. induction tasks as [|task rest IH]; intros w; simpl.
  - exists []. split; reflexivity.
  - unfold mbind, Py.M_bind.
    pose proof (download_file_returns os task w) as Hd.
    destruct (Orbit.download_file os task w) as [w1 r1]. simpl in Hd. subst r1.
    destruct (IH w1) as (results & Hr & Hlen).
    destruct (Py.run_tasks (map (Orbit.download_file os) rest) w1) as [w2 r2].
    simpl in Hr. subst r2. exists (tt :: results). split; [reflexivity|].
    simpl. rewrite Hlen. reflexivity.
Qed.

Lemma njobs_not_zero (c : Z) : (Orbit.njobs c =? 0) = false.
Proof. unfold Orbit.njobs. apply Z.eqb_neq. lia. Qed.

Lemma orbit_main_exit (os : Orbit.OS) (zipped_dir orbit_dir : string) (w : Orbit.world)
    (tasks : list (string * string)) :
  Orbit.fault os w (Orbit.Listing Orbit.ORBIT_URL) = None ->
  Orbit.enumerate orbit_dir (Orbit.parse_listing (Orbit.content os))
    (Orbit.glob_S1A_zip os zipped_dir) [] = Py.Return tasks ->
  (Orbit.main os zipped_dir orbit_dir w).2 = Py.Return 0.
Proof.
  intros Hlist Henum.
  unfold Orbit.main, Orbit.downloda_S1_SLC_orbit_list, mbind, Py.M_bind, Orbit.attempt.
  rewrite Hlist. unfold Py.lift. rewrite Henum.
  unfold Orbit.print, Py.Parallel. rewrite njobs_not_zero. simpl.
  match goal with |- context [Py.run_tasks ?ts ?w0] =>
    destruct (downloads_return os tasks w0) as (results & Hr & _);
    destruct (Py.run_tasks ts w0) as [w2 r2] end.
  simpl in Hr. subst r2. reflexivity.
Qed.

(** C6, the statement as it stands, tried on the orbit script started with
    a well-formed command line, one archive, one matching orbit file on the
    server, and a server that answers the file request with an HTTP error:
    the failure is printed, and the script still ends with exit code 0.
    Besides, a command line that [argparse] refuses ends the DEM script
    with exit code 2, not 1. *)
Lemma C6_counterexample_orbit_failure_exits_0 :
  let os := Scenario.orbit_site [Scenario.eof_S1A_0209] [Scenario.slice_1]
              (Some Py.HTTPError) in
  let r := Orbit.entry_point os (Py.Parsed ("/data", "/orbits")) (Orbit.World []) in
  Orbit.failed_downloads (Orbit.history r.1) = 1%nat /\
  Py.exit_code r.2 = 0 /\
  Py.exit_code (DownloadDem.entry_point Scenario.workstation Py.Usage_error
                  (Host.World [])).2 = 2.
Proof. vm_compute. repeat split; reflexivity. Qed.

Lemma dem_main_exit (os : Host.OS) (a : DownloadDem.args) (w : Host.world) :
  let code := Py.exit_code (DownloadDem.main os a w).2 in
  (code = 0 \/ code = 1) /\
  (code = 0 <->
   exists w1 w2,
     DownloadDem.validate_coordinates a w = (w1, Py.Return true) /\
     DownloadDem.download_S1_SLC_dem os (DownloadDem.lat_min a) (DownloadDem.lat_max a)
       (DownloadDem.lon_min a) (DownloadDem.lon_max a) (DownloadDem.dem_dir a) w1
     = (w2, Py.Return true)).
Proof.
  unfold DownloadDem.main, mbind, Py.M_bind.
  destruct (DownloadDem.validate_coordinates a w) as [w1 r1] eqn:Hv.
  destruct r1 as [[|]|e]; simpl.
  - destruct (DownloadDem.download_S1_SLC_dem os _ _ _ _ _ w1) as [w2 r2] eqn:Hd.
    destruct r2 as [[|]|e]; simpl.
    + split; [left; reflexivity|]. split; [eauto | reflexivity].
    + split; [right; reflexivity|]. split; [discriminate|].
      intros (x1 & x2 & H1 & H2). injection H1 as <-. congruence.
    + split; [right; reflexivity|]. split; [discriminate|].
      intros (x1 & x2 & H1 & H2). injection H1 as <-. congruence.
  - split; [right; reflexivity|]. split; [discriminate|].
    intros (x1 & x2 & H1 & _). discriminate.
  - split; [right; reflexivity|]. split; [discriminate|].
    intros (x1 & x2 & H1 & _). discriminate.
Qed.

Lemma stack_main_exit (os : Host.OS) (a : Stack.args) (w : Host.world) :
  let code := Py.exit_code (Stack.main os a w).2 in
  (code = 0 \/ code = 1) /\
  (code = 0 <->
   exists w1 w2 w3,
     Stack.validate_coordinates a w = (w1, Py.Return true) /\
     Stack.validate_parameters a w1 = (w2, Py.Return true) /\
     Stack.stack_sentinel os (Stack.lat_min a) (Stack.lat_max a) (Stack.lon_min a)
       (Stack.lon_max a) (Stack.dem_dir a) (Stack.aux_dir a) (Stack.slc_dir a)
       (Stack.orbits_dir a) (Stack.nalks a) (Stack.nrlks a) (Stack.process_dir a) w2
     = (w3, Py.Return true)).
Proof.
  unfold Stack.main, mbind, Py.M_bind.
  destruct (Stack.validate_coordinates a w) as [w1 r1] eqn:Hv.
  destruct r1 as [[|]|e]; simpl.
  - destruct (Stack.validate_parameters a w1) as [w2 r2] eqn:Hp.
    destruct r2 as [[|]|e]; simpl.
    + destruct (Stack.stack_sentinel os _ _ _ _ _ _ _ _ _ _ _ w2) as [w3 r3] eqn:Hs.
      destruct r3 as [[|]|e]; simpl.
      * split; [left; reflexivity|]. split; [eauto 6 | reflexivity].
      * split; [right; reflexivity|]. split; [discriminate|].
        intros (x1 & x2 & x3 & H1 & H2 & H3). injection H1 as <-.
        rewrite Hp in H2. injection H2 as <-. congruence.
      * split; [right; reflexivity|]. split; [discriminate|].
        intros (x1 & x2 & x3 & H1 & H2 & H3). injection H1 as <-.
        rewrite Hp in H2. injection H2 as <-. congruence.
    + split; [right; reflexivity|]. split; [discriminate|].
      intros (x1 & x2 & x3 & H1 & H2 & H3). injection H1 as <-. congruence.
    + split; [right; reflexivity|]. split; [discriminate|].
      intros (x1 & x2 & x3 & H1 & H2 & H3). injection H1 as <-. congruence.
  - split; [right; reflexivity|]. split; [discriminate|].
    intros (x1 & x2 & x3 & H1 & _). discriminate.
  - split; [right; reflexivity|]. split; [discriminate|].
    intros (x1 & x2 & x3 & H1 & _). discriminate.
Qed.

Lemma runstack_main_exit (os : RunStack.OS) (run_files_dir : string) (cores : option Z)
    (expected_files : Z) :
  let code := RunStack.main os run_files_dir cores expected_files in
  (code = 0 \/ code = 1) /\
  (code = 0 <->
   RunStack.returned (RunStack.run_stack_processing os run_files_dir cores expected_files)
     = Py.Return true).
Proof.
  unfold RunStack.main, mbind, Py.result_bind, Py.bind.
  destruct (RunStack.returned _) as [[|]|e]; simpl.
  - split; [left; reflexivity|]. split; reflexivity.
  - split; [right; reflexivity|]. split; discriminate.
  - split; [right; reflexivity|]. split; discriminate.
Qed.

Lemma runstack_declined (os : RunStack.OS) (run_files_dir : string) (cores : option Z)
    (expected_files : Z) (scripts : list string) :
  RunStack.find_run_files os run_files_dir = Py.Return scripts ->
  RunStack.confirmed os scripts expected_files = Py.Return false ->
  RunStack.main os run_files_dir cores expected_files = 1.
Proof.
  intros Hfind Hconf. unfold RunStack.main, RunStack.run_stack_processing.
  rewrite Hfind, Hconf. reflexivity.
Qed.

(** Without ISCE on the path the DEM front end makes its directory, opens
    its log, fails to start [dem.py] and exits with 1. *)
Example dem_without_isce_exits_1 :
  let r := DownloadDem.main Scenario.no_isce
             (DownloadDem.Build_args 30.5 32.25 100 102 "/dem") (Host.World []) in
  Py.exit_code r.2 = 1 /\
  Host.work (Host.history r.1)
  = [Host.Mkdir "/dem"; Host.Chdir "/dem"; Host.OpenW "/dem/dem.log";
     Host.Run ["dem.py"; "-a"; "stitch"; "-b"; "29"; "33"; "99"; "103";
               "-r"; "-s"; "1"; "-c"] "/dem"].
Proof. vm_compute. split; reflexivity. Qed.

(** The unzip script as it stands stops at line 177 with [NameError]: exit
    code 1 whatever the archives. *)
Lemma unzip_main_stops_at_line_177 (os : Unzip.OS) (data_dir slc_dir : string)
    (job_dir : option Z) (w : Unzip.world) :
  Unzip.main os data_dir slc_dir job_dir w = (w, Py.Raise Py.NameError) /\
  Py.exit_code (Unzip.main os data_dir slc_dir job_dir w).2 = 1.
Proof. split; reflexivity. Qed.

Lemma orbit_main_0_or_1 (os : Orbit.OS) (zipped_dir orbit_dir : string) (w : Orbit.world) :
  Py.exit_code (Orbit.main os zipped_dir orbit_dir w).2 = 0 \/
  Py.exit_code (Orbit.main os zipped_dir orbit_dir w).2 = 1.
Proof.
  unfold Orbit.main, mbind, Py.M_bind.
  destruct (Orbit.downloda_S1_SLC_orbit_list os zipped_dir orbit_dir w) as [w1 [[]|e]];
    simpl; auto.
Qed.

(** The parser in front of an entry point: a refused command line is the
    one way to exit code 2, help one more way to exit code 0. *)
Section Parser_in_front.
Context {A W : Type} (main : A -> Py.M W Z) (entry_point : Py.command_line A -> Py.M W Z).
Hypothesis entry_point_eq : forall argv,
  entry_point argv =
    match argv with
    | Py.Parsed a => main a
    | Py.Help => mret 0
    | Py.Usage_error => mret 2
    end.
Hypothesis main_0_or_1 : forall a w,
  Py.exit_code (main a w).2 = 0 \/ Py.exit_code (main a w).2 = 1.

Lemma entry_point_exit (argv : Py.command_line A) (w : W) :
  let code := Py.exit_code (entry_point argv w).2 in
  (code = 0 \/ code = 1 \/ code = 2) /\
  (code = 2 <-> argv = Py.Usage_error) /\
  (code = 0 <->
   argv = Py.Help \/ exists a, argv = Py.Parsed a /\ Py.exit_code (main a w).2 = 0).
Proof.
  cbv zeta. rewrite entry_point_eq. destruct argv as [a| |].
  - destruct (main_0_or_1 a w) as [H | H]; rewrite H.
    + split; [auto|]. split; [split; discriminate|].
      split; [|reflexivity]. intros _. right. exists a. auto.
    + split; [auto|]. split; [split; discriminate|].
      split; [discriminate|]. intros [Hh | (a' & [= <-] & H')]; [discriminate | congruence].
  - simpl. split; [auto|]. split; [split; discriminate|]. split; auto.
  - simpl. split; [auto|]. split; [split; reflexivity|].
    split; [discriminate|]. intros [Hh | (a' & Ha & _)]; discriminate.
Qed.

End Parser_in_front.

(** C6, amended.  The DEM, stack-generation and run-stack entry points
    exit with 0, 1 or 2: with 2 exactly when [argparse] refuses the command
    line; with 0 exactly when help was asked for or, the command line
    parsed, the validations pass and the work function returns [True]; with
    1 otherwise, a declined confirmation prompt included.  The exit rule of
    the unzip script gives 0 exactly when every task result is [True], and
    1 otherwise.  The orbit script has no exit rule of its own: it ends
    with 2 exactly when [argparse] refuses the command line, with 0 after
    help, and for a parsed command line, once the listing is fetched and the
    local file names are read, with 0 whatever its download tasks did. *)
Theorem C6_exit_codes :
  (forall (os : Host.OS) (argv : Py.command_line DownloadDem.args) (w : Host.world),
     let code := Py.exit_code (DownloadDem.entry_point os argv w).2 in
     (code = 0 \/ code = 1 \/ code = 2) /\
     (code = 2 <-> argv = Py.Usage_error) /\
     (code = 0 <->
      argv = Py.Help \/
      exists a w1 w2,
        argv = Py.Parsed a /\
        DownloadDem.validate_coordinates a w = (w1, Py.Return true) /\
        DownloadDem.download_S1_SLC_dem os (DownloadDem.lat_min a) (DownloadDem.lat_max a)
          (DownloadDem.lon_min a) (DownloadDem.lon_max a) (DownloadDem.dem_dir a) w1
        = (w2, Py.Return true))) /\
  (forall (os : Host.OS) (argv : Py.command_line Stack.args) (w : Host.world),
     let code := Py.exit_code (Stack.entry_point os argv w).2 in
     (code = 0 \/ code = 1 \/ code = 2) /\
     (code = 2 <-> argv = Py.Usage_error) /\
     (code = 0 <->
      argv = Py.Help \/
      exists a w1 w2 w3,
        argv = Py.Parsed a /\
        Stack.validate_coordinates a w = (w1, Py.Return true) /\
        Stack.validate_parameters a w1 = (w2, Py.Return true) /\
        Stack.stack_sentinel os (Stack.lat_min a) (Stack.lat_max a) (Stack.lon_min a)
          (Stack.lon_max a) (Stack.dem_dir a) (Stack.aux_dir a) (Stack.slc_dir a)
          (Stack.orbits_dir a) (Stack.nalks a) (Stack.nrlks a) (Stack.process_dir a) w2
        = (w3, Py.Return true))) /\
  (forall (os : RunStack.OS) (argv : Py.command_line (string * option Z * Z)),
     let code := RunStack.entry_point os argv in
     (code = 0 \/ code = 1 \/ code = 2) /\
     (code = 2 <-> argv = Py.Usage_error) /\
     (code = 0 <->
      argv = Py.Help \/
      exists run_files_dir cores expected_files,
        argv = Py.Parsed (run_files_dir, cores, expected_files) /\
        RunStack.returned
          (RunStack.run_stack_processing os run_files_dir cores expected_files)
        = Py.Return true) /\
     (forall run_files_dir cores expected_files scripts,
        argv = Py.Parsed (run_files_dir, cores, expected_files) ->
        RunStack.find_run_files os run_files_dir = Py.Return scripts ->
        RunStack.confirmed os scripts expected_files = Py.Return false ->
        code = 1)) /\
  (forall results : list bool,
     let failed := Z.of_nat (length results) - Unzip.sum results in
     (Unzip.exit_status failed = 0 \/ Unzip.exit_status failed = 1) /\
     (Unzip.exit_status failed = 0 <-> Forall (fun b => b = true) results)) /\
  (forall (os : Orbit.OS) (argv : Py.command_line (string * string)) (w : Orbit.world),
     let code := Py.exit_code (Orbit.entry_point os argv w).2 in
     (code = 0 \/ code = 1 \/ code = 2) /\
     (code = 2 <-> argv = Py.Usage_error) /\
     (argv = Py.Help -> code = 0) /\
     (forall zipped_dir orbit_dir tasks,
        argv = Py.Parsed (zipped_dir, orbit_dir) ->
        Orbit.fault os w (Orbit.Listing Orbit.ORBIT_URL) = None ->
        Orbit.enumerate orbit_dir (Orbit.parse_listing (Orbit.content os))
          (Orbit.glob_S1A_zip os zipped_dir) [] = Py.Return tasks ->
        code = 0)).
Proof.
  split; [|split; [|split; [|split]]].
  - intros os argv w.
    destruct (entry_point_exit (DownloadDem.main os) (DownloadDem.entry_point os)
                (fun argv => eq_refl) (fun a w => proj1 (dem_main_exit os a w)) argv w)
      as (H012 & H2 & H0).
    split; [exact H012|]. split; [exact H2|]. cbv zeta. rewrite H0. split.
    + intros [Hh | (a & -> & Ha)]; [left; exact Hh | right].
      apply (proj2 (dem_main_exit os a w)) in Ha as (w1 & w2 & Hv & Hd). eauto 6.
    + intros [Hh | (a & w1 & w2 & -> & Hv & Hd)]; [left; exact Hh | right].
      exists a. split; [reflexivity|]. apply (proj2 (dem_main_exit os a w)). eauto.
  - intros os argv w.
    destruct (entry_point_exit (Stack.main os) (Stack.entry_point os)
                (fun argv => eq_refl) (fun a w => proj1 (stack_main_exit os a w)) argv w)
      as (H012 & H2 & H0).
    split; [exact H012|]. split; [exact H2|]. cbv zeta. rewrite H0. split.
    + intros [Hh | (a & -> & Ha)]; [left; exact Hh | right].
      apply (proj2 (stack_main_exit os a w)) in Ha as (w1 & w2 & w3 & Hv & Hp & Hs).
      eauto 8.
    + intros [Hh | (a & w1 & w2 & w3 & -> & Hv & Hp & Hs)]; [left; exact Hh | right].
      exists a. split; [reflexivity|]. apply (proj2 (stack_main_exit os a w)). eauto 6.
  - intros os argv code. subst code. destruct argv as [[[run_files_dir cores] expected_files]| |].
    + cbn [RunStack.entry_point].
      destruct (runstack_main_exit os run_files_dir cores expected_files) as [H01 Hiff].
      split; [destruct H01; auto|].
      split; [split; [intros H2; destruct H01; congruence | discriminate]|].
      split.
      * rewrite Hiff. split.
        -- intros H. right. eauto 6.
        -- intros [Hh | (d & c & n & [= <- <- <-] & H)]; [discriminate | exact H].
      * intros d c n scripts [= <- <- <-]. apply runstack_declined.
    + cbn [RunStack.entry_point]. split; [auto|]. split; [split; discriminate|].
      split; [split; auto|]. intros d c n scripts Ha. discriminate.
    + cbn [RunStack.entry_point]. split; [auto|]. split; [split; reflexivity|].
      split; [|intros d c n scripts Ha; discriminate].
      split; [discriminate|]. intros [Hh | (d & c & n & Ha & _)]; discriminate.
  - intros results failed. subst failed.
    pose proof (sum_bounds results) as [Hb Hall]. unfold Unzip.exit_status.
    destruct (Z.ltb_spec 0 (Z.of_nat (length results) - Unzip.sum results)).
    + split; [right; reflexivity|]. split; [discriminate|].
      intros Hf. apply Hall in Hf. lia.
    + split; [left; reflexivity|]. split; [|reflexivity].
      intros _. apply Hall. lia.
  - intros os argv w code. subst code. destruct argv as [[zipped_dir orbit_dir]| |].
    + cbn [Orbit.entry_point].
      pose proof (orbit_main_0_or_1 os zipped_dir orbit_dir w) as H01.
      split; [destruct H01; auto|].
      split; [split; [intros H2; destruct H01; congruence | discriminate]|].
      split; [discriminate|].
      intros z o tasks [= <- <-] Hlist Henum.
      rewrite (orbit_main_exit os zipped_dir orbit_dir w tasks Hlist Henum). reflexivity.
    + simpl. split; [auto|]. split; [split; discriminate|]. split; [reflexivity|].
      intros z o tasks Ha. discriminate.
    + simpl. split; [auto|]. split; [split; reflexivity|]. split; [discriminate|].
      intros z o tasks Ha. discriminate.
Qed.

(** * Part III: further properties of the scripts *)

(** ** Finding the run files *)

Lemma insert_sorted_perm (s : string) (l : list string) :
  Permutation (Py.insert_sorted s l) (s :: l).
Proof.
  induction l as [|t l IH]; simpl; [reflexivity|].
  destruct (String.leb s t); [reflexivity|].
  rewrite IH. apply perm_swap.
Qed.

Lemma sorted_perm (l : list string) : Permutation (Py.sorted l) l.
Proof.
  induction l as [|s l IH]; simpl; [reflexivity|].
  rewrite insert_sorted_perm. constructor. exact IH.
Qed.

Lemma leb_false_flip (s t : string) : String.leb s t = false -> String.leb t s = true.
Proof. intros H. destruct (String.leb_total s t) as [H' | H']; congruence. Qed.

Lemma insert_sorted_sorted (s : string) (l : list string) :
  Sorted (fun a b => String.leb a b = true) l ->
  Sorted (fun a b => String.leb a b = true) (Py.insert_sorted s l).
Proof.
  induction 1 as [|t l Hl IH Ht]; simpl.
  - repeat constructor.
  - destruct (String.leb s t) eqn:Hst.
    + constructor; [constructor; assumption|]. constructor. exact Hst.
    + constructor; [exact IH|].
      destruct l as [|u l]; simpl.
      * constructor. apply leb_false_flip, Hst.
      * destruct (String.leb s u); constructor.
        -- apply leb_false_flip, Hst.
        -- inversion Ht; assumption.
Qed.

Lemma sorted_sorted (l : list string) :
  Sorted (fun a b => String.leb a b = true) (Py.sorted l).
Proof.
  induction l as [|s l IH]; simpl; [constructor|].
  apply insert_sorted_sorted, IH.
Qed.

Lemma find_run_files_inv (os : RunStack.OS) (run_files_dir : string) (scripts : list string) :
  RunStack.find_run_files os run_files_dir = Py.Return scripts ->
  RunStack.path_exists os run_files_dir = true /\
  RunStack.path_is_dir os run_files_dir = true /\
  scripts <> [] /\
  scripts = Py.sorted (map (Py.path_div run_files_dir)
                         (List.filter (String.prefix "run_")
                            (RunStack.listdir os run_files_dir))).
Proof.
  unfold RunStack.find_run_files.
  destruct (RunStack.path_exists os run_files_dir); [|discriminate].
  destruct (RunStack.path_is_dir os run_files_dir); [|discriminate]. cbn [negb].
  set (found := map (Py.path_div run_files_dir) _).
  destruct found as [|f fs]; [discriminate|].
  intros [= <-]. repeat split; try reflexivity.
  intros Hnil. pose proof (sorted_perm (f :: fs)) as Hp.
  change (Py.insert_sorted f (Py.sorted fs)) with (Py.sorted (f :: fs)) in Hnil.
  rewrite Hnil in Hp. apply Permutation_nil in Hp. discriminate.
Qed.

(** [pathlib] writes the directory in its normal form, whatever form it was
    given in. *)
Example path_str_examples :
  Py.path_str "/work/run_files" = "/work/run_files" /\
  Py.path_str "/work//run_files/" = "/work/run_files" /\
  Py.path_str "./plain" = "plain" /\ Py.path_str EmptyString = "." /\
  Py.path_str "//srv/./data" = "//srv/data" /\ Py.path_str "///srv" = "/srv" /\
  Py.path_str "a/../b" = "a/../b" /\
  Py.path_div "./plain" "run_01" = "plain/run_01" /\
  Py.path_div "." "run_01" = "run_01" /\ Py.path_div "/" "run_01" = "/run_01".
Proof. vm_compute. repeat split; reflexivity. Qed.

(** X1: when [find_run_files] answers, the directory exists and the answer
    is the non-empty list of its [run_*] entries, each written as [pathlib]
    writes [Path(run_files_dir) / name] (the directory in normal form), in
    ascending code-point order; it raises [FileNotFoundError] for a missing
    directory or one without [run_*] entries, and [NotADirectoryError] for
    a path that is no directory. *)
Theorem X1_find_run_files_sorted_or_raises (os : RunStack.OS) (run_files_dir : string) :
  let found := map (Py.path_div run_files_dir)
                 (List.filter (String.prefix "run_") (RunStack.listdir os run_files_dir)) in
  (forall scripts,
     RunStack.find_run_files os run_files_dir = Py.Return scripts ->
     scripts <> [] /\
     Sorted (fun a b => String.leb a b = true) scripts /\
     Permutation scripts found) /\
  (RunStack.path_exists os run_files_dir = false ->
   RunStack.find_run_files os run_files_dir = Py.Raise Py.FileNotFoundError) /\
  (RunStack.path_exists os run_files_dir = true ->
   RunStack.path_is_dir os run_files_dir = false ->
   RunStack.find_run_files os run_files_dir = Py.Raise Py.NotADirectoryError) /\
  (RunStack.path_exists os run_files_dir = true ->
   RunStack.path_is_dir os run_files_dir = true ->
   found = [] ->
   RunStack.find_run_files os run_files_dir = Py.Raise Py.FileNotFoundError) /\
  (found <> [] ->
   RunStack.path_exists os run_files_dir = true ->
   RunStack.path_is_dir os run_files_dir = true ->
   exists scripts, RunStack.find_run_files os run_files_dir = Py.Return scripts).
Proof.
  intros found. split; [|split; [|split; [|split]]].
  - intros scripts H. apply find_run_files_inv in H as (_ & _ & Hne & ->).
    split; [exact Hne|]. split; [apply sorted_sorted | apply sorted_perm].
  - intros He. unfold RunStack.find_run_files. rewrite He. reflexivity.
  - intros He Hd. unfold RunStack.find_run_files. rewrite He, Hd. reflexivity.
  - intros He Hd Hf. unfold RunStack.find_run_files. rewrite He, Hd. cbn [negb].
    fold found. rewrite Hf. reflexivity.
  - intros Hf He Hd. unfold RunStack.find_run_files. rewrite He, Hd. cbn [negb].
    fold found. destruct found; [congruence | eauto].
Qed.

(** ** A complete set of run files *)

Lemma others_do_not_name (expected_files i : Z) (js : list Z) (ss : list string) :
  Forall2 (RunStack.names_only expected_files) js ss ->
  1 <= i <= expected_files -> i ∉ js ->
  List.filter (RunStack.names_step i) ss = [].
Proof.
  intros Hall Hi. induction Hall as [|j s js ss [_ Hj] _ IH]; intros Hnot; simpl.
  - reflexivity.
  - rewrite Hj; [|exact Hi|].
    + apply IH. intros Hin. apply Hnot. right. exact Hin.
    + intros ->. apply Hnot. left.
Qed.

Lemma process_complete (os : RunStack.OS) (run_files_dir : string) (cores : Z)
    (expected_files : Z) (scripts : list string) :
  (forall k log, RunStack.open_w os k log = Py.Return tt) ->
  (forall k cmd cwd, RunStack.subprocess_run os k cmd cwd = Py.Return tt) ->
  forall (rest : list Z) (srest : list string),
    Forall2 (RunStack.names_only expected_files) rest srest ->
    forall (before : list Z) (sbefore : list string) (earlier : nat) (count : Z),
      scripts = sbefore ++ srest ->
      Forall2 (RunStack.names_only expected_files) before sbefore ->
      NoDup (before ++ rest) ->
      Forall (fun i => 1 <= i <= expected_files) rest ->
      exists cs,
        RunStack.process os run_files_dir cores scripts rest earlier count
          = (cs, Some (count + Z.of_nat (length rest))) /\
        map RunStack.step cs = rest /\ map RunStack.script cs = srest.
Proof.
  intros Hopen Hrun rest srest Hall.
  induction Hall as [|i s rest srest Hi Hrest IH];
    intros before sbefore earlier count Hscripts Hbefore Hnodup Hrange.
  - exists []. simpl. rewrite Z.add_0_r. repeat split.
  - inversion Hrange as [|? ? Hir Hrange']; subst.
    apply NoDup_app in Hnodup as (Hnb & Hdisj & Hnr).
    apply NoDup_cons in Hnr as [Hnotin Hnr].
    assert (Hm : RunStack.matched_scripts (sbefore ++ s :: srest) i = [s]).
    { unfold RunStack.matched_scripts. rewrite List.filter_app. simpl.
      rewrite (others_do_not_name expected_files i before sbefore Hbefore Hir).
      2: { intros Hin. apply (Hdisj i Hin). left. }
      destruct Hi as [-> _].
      rewrite (others_do_not_name expected_files i rest srest Hrest Hir Hnotin).
      reflexivity. }
    simpl. rewrite Hm. rewrite Hopen. simpl. rewrite Hrun.
    destruct (IH (before ++ [i]) (sbefore ++ [s]) (S earlier) (count + 1))
      as (cs & Hp & Hsteps & Hscr).
    + rewrite <- app_assoc. reflexivity.
    + apply Forall2_app; [exact Hbefore|]. constructor; [exact Hi | constructor].
    + rewrite <- app_assoc. simpl. apply NoDup_app.
      split; [exact Hnb|]. split; [exact Hdisj|]. apply NoDup_cons. split; assumption.
    + exact Hrange'.
    + rewrite Hp. eexists. split; [|split].
      * f_equal. f_equal. simpl length. lia.
      * simpl. f_equal. exact Hsteps.
      * simpl. f_equal. exact Hscr.
Qed.

Lemma range_in_bounds (lo hi : Z) : Forall (fun i => lo <= i <= hi - 1) (Py.range lo hi).
Proof. apply Forall_forall. intros i Hi. apply elem_of_range in Hi. lia. Qed.

Lemma range_nodup (lo hi : Z) : NoDup (Py.range lo hi).
Proof.
  unfold Py.range. apply NoDup_fmap_2; [|apply NoDup_seq].
  intros a b H. lia.
Qed.

Lemma range_length (lo hi : Z) : length (Py.range lo hi) = Z.to_nat (hi - lo).
Proof. unfold Py.range. rewrite length_map, length_seq. reflexivity. Qed.

Lemma all_found_among_expected (expected_files : Z) (js : list Z) (ss : list string) :
  Forall2 (RunStack.names_only expected_files) js ss ->
  (forall j, j ∈ js -> j ∈ Py.range 1 (expected_files + 1)) ->
  List.filter
    (fun s => existsb (fun i => RunStack.names_step i s)
                (Py.range 1 (expected_files + 1))) ss = ss.
Proof.
  induction 1 as [|j s js ss [Hj _] _ IH]; intros Hin; simpl; [reflexivity|].
  assert (He : existsb (fun i => RunStack.names_step i s)
                 (Py.range 1 (expected_files + 1)) = true).
  { apply existsb_exists. exists j. split; [|exact Hj].
    apply list_elem_of_In, Hin. left. }
  rewrite He. f_equal. apply IH. intros j' Hj'. apply Hin. right. exact Hj'.
Qed.

(** X2: with a complete set of run files (one found script for each step
    1..expected_files, in step order, each naming only its own step), a
    logs directory that can be made and commands that all end well,
    [run_stack_processing] asks nothing of the user, runs every found
    script exactly once, in step order, and returns [True]. *)
Theorem X2_complete_run_executes_every_script (os : RunStack.OS)
    (run_files_dir : string) (cores : option Z) (expected_files : Z)
    (scripts : list string) :
  RunStack.find_run_files os run_files_dir = Py.Return scripts ->
  RunStack.one_script_per_step scripts expected_files ->
  RunStack.mkdir os (Py.join run_files_dir "logs") = Py.Return tt ->
  (forall k log, RunStack.open_w os k log = Py.Return tt) ->
  (forall k cmd cwd, RunStack.subprocess_run os k cmd cwd = Py.Return tt) ->
  let r := RunStack.run_stack_processing os run_files_dir cores expected_files in
  RunStack.returned r = Py.Return true /\
  map RunStack.script (RunStack.calls r) = scripts /\
  map RunStack.step (RunStack.calls r) = Py.range 1 (expected_files + 1) /\
  RunStack.completed_steps r = expected_files.
Proof.
  intros Hfind Hlayout Hmk Hopen Hrun r. subst r.
  pose proof (find_run_files_inv _ _ _ Hfind) as (_ & _ & Hne & _).
  pose proof (Forall2_length _ _ _ Hlayout) as Hlen. rewrite range_length in Hlen.
  assert (Hexp : Z.of_nat (length scripts) = expected_files).
  { destruct scripts as [|s0 ss]; [congruence|]. simpl length in *. lia. }
  unfold RunStack.run_stack_processing, RunStack.confirmed.
  rewrite Hfind, Hexp, Z.eqb_refl. simpl. rewrite Hmk.
  match goal with |- context [RunStack.process os run_files_dir ?n scripts ?idx 0%nat 0] =>
    destruct (process_complete os run_files_dir n expected_files scripts Hopen Hrun
                idx scripts Hlayout [] [] 0%nat 0)
      as (cs & Hp & Hsteps & Hscr) end.
  - reflexivity.
  - constructor.
  - apply range_nodup.
  - pose proof (range_in_bounds 1 (expected_files + 1)) as Hb.
    eapply Forall_impl; [exact Hb|]. simpl. intros; lia.
  - rewrite Hp. simpl.
    assert (Hall : Forall (fun c => RunStack.succeeded c = true) cs).
    { apply process_some in Hp as (Hall & _). exact Hall. }
    unfold RunStack.completed_steps. simpl. rewrite filter_all_succeeded by exact Hall.
    assert (Hcs : length cs = length scripts)
      by (rewrite <- Hscr, length_map; reflexivity).
    unfold RunStack.found_among_expected.
    rewrite (all_found_among_expected expected_files _ _ Hlayout) by auto.
    rewrite range_length. repeat split; try assumption.
    + f_equal. apply Z.eqb_eq. lia.
    + lia.
Qed.

(** Five steps, five scripts, everything ends well. *)
Lemma X2_witness_five_steps :
  let r := RunStack.run_stack_processing
             (Scenario.run_files Scenario.five_steps None "") "/work/run_files" None 5 in
  RunStack.returned r = Py.Return true /\
  map RunStack.script (RunStack.calls r)
    = map (Py.join "/work/run_files") Scenario.five_steps /\
  map RunStack.step (RunStack.calls r) = Py.range 1 (5 + 1) /\
  RunStack.completed_steps r = 5.
Proof.
  apply (X2_complete_run_executes_every_script
           (Scenario.run_files Scenario.five_steps None "") "/work/run_files" None 5
           (map (Py.join "/work/run_files") Scenario.five_steps)).
  - vm_compute. reflexivity.
  - unfold RunStack.one_script_per_step.
    change (Py.range 1 (5 + 1)) with [1; 2; 3; 4; 5].
    change (map (Py.join "/work/run_files") Scenario.five_steps)
      with [Py.join "/work/run_files" "run_01_unpack_topo_reference";
            Py.join "/work/run_files" "run_02_unpack_secondary_slc";
            Py.join "/work/run_files" "run_03_average_baseline";
            Py.join "/work/run_files" "run_04_fullBurst_geo2rdr";
            Py.join "/work/run_files" "run_05_fullBurst_resample"].
    repeat (apply List.Forall2_cons; [split; [vm_compute; reflexivity|];
      intros j Hj Hne;
      assert (Hc : j = 1 \/ j = 2 \/ j = 3 \/ j = 4 \/ j = 5) by lia;
      destruct Hc as [-> | [-> | [-> | [-> | ->]]]];
      first [congruence | vm_compute; reflexivity] |]).
    apply List.Forall2_nil.
  - reflexivity.
  - intros k log. reflexivity.
  - intros k cmd cwd. reflexivity.
Defined.

(** ** No step expected *)

Lemma range_empty (lo hi : Z) : hi <= lo -> Py.range lo hi = [].
Proof. intros H. unfold Py.range. replace (Z.to_nat (hi - lo)) with 0%nat by lia. reflexivity. Qed.

Lemma filter_none {A} (l : list A) : List.filter (fun _ => false) l = [].
Proof. induction l; simpl; auto. Qed.

(** X3: with [expected_files] at or below 0 no step is ever run; the user
    is always asked (the directory holds at least one run file), and the
    answer y alone makes the run report success. *)
Theorem X3_nothing_expected_nothing_run (os : RunStack.OS) (run_files_dir : string)
    (cores : option Z) (expected_files : Z) :
  expected_files <= 0 ->
  let r := RunStack.run_stack_processing os run_files_dir cores expected_files in
  RunStack.calls r = [] /\
  (RunStack.returned r = Py.Return true <->
   exists scripts answer,
     RunStack.find_run_files os run_files_dir = Py.Return scripts /\
     RunStack.input os = Py.Return answer /\
     Py.strip (Py.lower answer) = "y" /\
     RunStack.mkdir os (Py.join run_files_dir "logs") = Py.Return tt).
Proof.
  intros Hexp r. subst r. unfold RunStack.run_stack_processing.
  destruct (RunStack.find_run_files os run_files_dir) as [scripts|e] eqn:Hfind.
  2: { destruct e; simpl; (split; [reflexivity|]); split; try discriminate;
       intros (? & ? & [=] & _). }
  pose proof (find_run_files_inv _ _ _ Hfind) as (_ & _ & Hne & _).
  assert (Hlen : (Z.of_nat (length scripts) =? expected_files) = false).
  { apply Z.eqb_neq. destruct scripts; [congruence|]. simpl length. lia. }
  unfold RunStack.confirmed. rewrite Hlen. simpl.
  unfold mbind, Py.result_bind, Py.bind.
  destruct (RunStack.input os) as [answer|e] eqn:Hin.
  2: { simpl. split; [reflexivity|]. split; [discriminate|].
       intros (? & ? & _ & [=] & _). }
  destruct (String.eqb_spec (Py.strip (Py.lower answer)) "y") as [Hy | Hy].
  2: { simpl. split; [reflexivity|]. split; [discriminate|].
       intros (? & a & _ & [= <-] & Ha & _). congruence. }
  destruct (RunStack.mkdir os (Py.join run_files_dir "logs")) as [[]|e] eqn:Hmk.
  2: { simpl. split; [reflexivity|]. split; [discriminate|].
       intros (? & ? & _ & _ & _ & [=]). }
  unfold RunStack.found_among_expected.
  rewrite (range_empty 1 (expected_files + 1)) by lia. simpl. rewrite filter_none. simpl.
  split; [reflexivity|]. split; [|reflexivity].
  intros _. exists scripts, answer. auto.
Qed.

(** Five scripts, none expected, and a user who says y. *)
Lemma X3_witness_zero_expected :
  let r := RunStack.run_stack_processing
             (Scenario.run_files Scenario.five_steps None "y") "/work/run_files" None 0 in
  RunStack.calls r = [] /\
  (RunStack.returned r = Py.Return true <->
   exists scripts answer,
     RunStack.find_run_files (Scenario.run_files Scenario.five_steps None "y")
       "/work/run_files" = Py.Return scripts /\
     RunStack.input (Scenario.run_files Scenario.five_steps None "y") = Py.Return answer /\
     Py.strip (Py.lower answer) = "y" /\
     RunStack.mkdir (Scenario.run_files Scenario.five_steps None "y")
       (Py.join "/work/run_files" "logs") = Py.Return tt).
Proof.
  apply (X3_nothing_expected_nothing_run
           (Scenario.run_files Scenario.five_steps None "y") "/work/run_files" None 0).
  lia.
Defined.

(** ** What one extraction task does *)

Section Unzip_history.
Import Py Unzip.
Context (os : OS).

Lemma extracted_members_snoc (h : list event) (ev : event) :
  extracted_members (h ++ [ev])
  = extracted_members h ++ match ev with Extract _ _ n => [n] | _ => [] end.
Proof. unfold extracted_members. rewrite flat_map_app. simpl. rewrite app_nil_r. reflexivity. Qed.

Lemma quiet_attempt (ev : event) (f g : gmap string node -> gmap string node) :
  match ev with Extract _ _ _ => False | _ => True end -> quiet (attempt os ev f g).
Proof.
  intros Hev w w' r H. apply attempt_history in H. rewrite H, extracted_members_snoc.
  destruct ev; try contradiction; apply app_nil_r.
Qed.

Lemma quiet_print (text : string) : quiet (print text).
Proof.
  intros w w' r. unfold print. intros [= <- <-]. simpl.
  rewrite extracted_members_snoc. apply app_nil_r.
Qed.

Lemma quiet_ret {A} (a : A) : quiet (mret a : M A).
Proof. intros w w' r. unfold mret, M_ret. intros [= <- <-]. reflexivity. Qed.

Lemma quiet_bind {A B} (m : M A) (k : A -> M B) :
  quiet m -> (forall a, quiet (k a)) -> quiet (m ≫= k).
Proof.
  intros Hm Hk w w' r H. apply bind_inv in H as [(w1 & a & H1 & H2) | (e & H1 & _)].
  - rewrite (Hk a _ _ _ H2). eapply Hm. exact H1.
  - eapply Hm. exact H1.
Qed.

Lemma quiet_try_except {A} (body : M A) (handler : exn -> M A) :
  quiet body -> (forall e, quiet (handler e)) -> quiet (try_except body handler).
Proof.
  intros Hb Hh w w' r. unfold try_except.
  destruct (body w) as [w1 [a|e]] eqn:H1.
  - intros [= <- <-]. eapply Hb. exact H1.
  - intros H2. rewrite (Hh e _ _ _ H2). eapply Hb. exact H1.
Qed.

Lemma quiet_path_exists (p : string) : quiet (path_exists p).
Proof. intros w w' r. unfold path_exists. intros [= <- <-]. reflexivity. Qed.

Lemma quiet_write (p text : string) : quiet (write os p text).
Proof. apply quiet_attempt. exact I. Qed.

Lemma quiet_except_block (zip_file target_dir : string) (e : exn) :
  quiet (except_block os zip_file target_dir e).
Proof.
  unfold except_block.
  apply quiet_bind; [apply quiet_print | intros _].
  apply quiet_bind; [apply quiet_attempt; exact I | intros _].
  apply quiet_bind; [apply quiet_write | intros _].
  apply quiet_bind; [apply quiet_path_exists | intros [|]].
  - apply quiet_bind.
    + apply quiet_try_except; [apply quiet_attempt; exact I | intros; apply quiet_ret].
    + intros _. apply quiet_bind; [apply quiet_print | intros; apply quiet_ret].
  - apply quiet_ret.
Qed.

(** The loop hands the members to [extract] one by one, in the order of
    the archive, and stops at the first operation that fails. *)
Lemma extract_all_history (zip_file target_dir log : string) (total : Z)
    (l : list member) (i : Z) (w w' : world) (r : result unit) :
  extract_all os zip_file target_dir log total i l w = (w', r) ->
  exists k,
    (k <= length l)%nat /\
    extracted_members (history w')
    = extracted_members (history w) ++ map name (take k l) /\
    (forall u, r = Return u -> k = length l).
Proof.
  revert i w. induction l as [|m rest IH]; intros i w; simpl.
  - unfold mret, M_ret. intros [= <- <-]. exists 0%nat.
    split; [lia|]. split; [simpl; symmetry; apply app_nil_r | reflexivity].
  - intros H. apply bind_inv in H as [(w1 & [] & Hw & H) | (e & Hw & ->)].
    2: { exists 0%nat. split; [lia|]. split; [|discriminate].
         rewrite (quiet_write _ _ _ _ _ Hw). simpl. symmetry. apply app_nil_r. }
    apply quiet_write in Hw.
    apply bind_inv in H as [(w2 & [] & Hx & H) | (e & Hx & ->)].
    2: { exists 1%nat. split; [lia|]. split; [|discriminate].
         unfold extract in Hx. apply attempt_history in Hx.
         rewrite Hx, extracted_members_snoc, Hw. reflexivity. }
    unfold extract in Hx. apply attempt_history in Hx.
    apply IH in H as (k & Hk & Hems & Hret).
    exists (S k). split; [lia|]. split.
    + rewrite Hems, Hx, extracted_members_snoc, Hw, <- app_assoc. reflexivity.
    + intros u Hu. f_equal. eapply Hret. exact Hu.
Qed.

Lemma try_block_history (zip_file target_dir : string) (w w' : world) (r : result bool) :
  try_block os zip_file target_dir w = (w', r) ->
  exists k,
    (k <= length (archive os zip_file))%nat /\
    extracted_members (history w')
    = extracted_members (history w) ++ map name (take k (archive os zip_file)) /\
    (forall b, r = Return b -> k = length (archive os zip_file)).
Proof.
  unfold try_block. intros H.
  assert (Hnone : forall w0 (r0 : result bool),
            extracted_members (history w0) = extracted_members (history w) ->
            (exists e, r0 = Raise e) ->
            exists k,
              (k <= length (archive os zip_file))%nat /\
              extracted_members (history w0)
              = extracted_members (history w) ++ map name (take k (archive os zip_file)) /\
              (forall b, r0 = Return b -> k = length (archive os zip_file))).
  { intros w0 r0 Hq [e ->]. exists 0%nat. split; [lia|].
    split; [rewrite Hq; simpl; symmetry; apply app_nil_r | discriminate]. }
  apply bind_inv in H as [(w1 & [] & H1 & H) | (e & H1 & ->)].
  2: { apply Hnone; [|eauto]. eapply (quiet_attempt (OpenW _)); [exact I | exact H1]. }
  apply (quiet_attempt (OpenW _)) in H1; [|exact I].
  apply bind_inv in H as [(w2 & [] & H2 & H) | (e & H2 & ->)].
  2: { apply Hnone; [|eauto]. rewrite (quiet_write _ _ _ _ _ H2). exact H1. }
  apply quiet_write in H2.
  apply bind_inv in H as [(w3 & members & H3 & H) | (e & H3 & ->)].
  2: { apply Hnone; [|eauto].
       assert (Hq : quiet (zip_open os zip_file))
         by (apply quiet_bind; [apply quiet_attempt; exact I | intros; apply quiet_ret]).
       rewrite (Hq _ _ _ H3). congruence. }
  assert (Hm : members = archive os zip_file
               /\ extracted_members (history w3) = extracted_members (history w2)).
  { unfold zip_open in H3. apply bind_return_inv in H3 as (w3' & [] & Ha & Hr).
    unfold mret, M_ret in Hr. injection Hr as <- <-.
    split; [reflexivity|]. eapply (quiet_attempt (OpenZip _)); [exact I | exact Ha]. }
  destruct Hm as [-> H3'].
  apply bind_inv in H as [(w4 & [] & H4 & H) | (e & H4 & ->)].
  2: { apply Hnone; [|eauto]. rewrite (quiet_write _ _ _ _ _ H4). congruence. }
  apply quiet_write in H4.
  apply bind_inv in H as [(w5 & [] & H5 & H) | (e & H5 & ->)].
  2: { apply Hnone; [|eauto]. rewrite (quiet_write _ _ _ _ _ H5). congruence. }
  apply quiet_write in H5.
  assert (Hstart : extracted_members (history w5) = extracted_members (history w))
    by congruence.
  apply bind_inv in H as [(w6 & [] & H6 & H) | (e & H6 & ->)].
  2: { apply extract_all_history in H6 as (k & Hk & Hems & _).
       exists k. split; [exact Hk|]. split; [congruence | discriminate]. }
  apply extract_all_history in H6 as (k & Hk & Hems & Hret).
  assert (Hkl : k = length (archive os zip_file)) by (eapply Hret; reflexivity).
  assert (Hrest : quiet (_ ← write os (log_file zip_file target_dir)
                               ("Extraction completed successfully." ++ nl)%string;
                         _ ← print ("Unzip finished: " ++ basename zip_file)%string;
                         (mret true : M bool))).
  { apply quiet_bind; [apply quiet_write | intros _].
    apply quiet_bind; [apply quiet_print | intros; apply quiet_ret]. }
  exists k. split; [exact Hk|]. split.
  - rewrite (Hrest _ _ _ H). congruence.
  - intros _ _. exact Hkl.
Qed.

End Unzip_history.

Lemma except_block_false_only (os : Unzip.OS) (zip_file target_dir : string) (e : Py.exn)
    (w w' : Unzip.world) (b : bool) :
  Unzip.except_block os zip_file target_dir e w = (w', Py.Return b) -> b = false.
Proof.
  unfold Unzip.except_block. intros H.
  apply bind_return_inv in H as (w1 & [] & _ & H).
  apply bind_return_inv in H as (w2 & [] & _ & H).
  apply bind_return_inv in H as (w3 & [] & _ & H).
  apply bind_return_inv in H as (w4 & left_behind & _ & H).
  destruct left_behind.
  - apply bind_return_inv in H as (w5 & [] & _ & H).
    apply bind_return_inv in H as (w6 & [] & _ & H).
    unfold mret, Py.M_ret in H. congruence.
  - unfold mret, Py.M_ret in H. congruence.
Qed.

(** X4: when the destination directory is not there yet, [unzip_S1_SLC]
    hands the members of the archive to [extract] in the order of
    [namelist()], each at most once, stopping at the first operation that
    fails; if it returns [True], every member has been handed over exactly
    once. *)
Theorem X4_members_extracted_once_in_order (os : Unzip.OS)
    (zip_file target_dir : string) (w : Unzip.world) :
  Unzip.files w !! Unzip.safe_dir zip_file target_dir = None ->
  let r := Unzip.unzip_S1_SLC os zip_file target_dir w in
  exists k,
    (k <= length (Unzip.archive os zip_file))%nat /\
    Unzip.extracted_members (Unzip.history r.1)
    = Unzip.extracted_members (Unzip.history w)
        ++ map Unzip.name (take k (Unzip.archive os zip_file)) /\
    (r.2 = Py.Return true -> k = length (Unzip.archive os zip_file)).
Proof.
  intros Hno. cbv zeta. rewrite unzip_attempts by exact Hno.
  unfold Py.try_except.
  destruct (Unzip.try_block os zip_file target_dir _) as [w1 r1] eqn:Htry.
  apply try_block_history in Htry as (k & Hk & Hems & Hret).
  simpl in Hems. rewrite extracted_members_snoc, app_nil_r in Hems.
  exists k. split; [exact Hk|].
  destruct r1 as [b|e].
  - simpl. split; [exact Hems|]. intros _. eapply Hret. reflexivity.
  - destruct (Unzip.except_block os zip_file target_dir e w1) as [w2 r2] eqn:Hexc.
    simpl. split.
    + rewrite (quiet_except_block os _ _ _ _ _ _ Hexc). exact Hems.
    + intros ->. apply except_block_false_only in Hexc. discriminate.
Qed.

(** On the healthy machine the four members are handed over in order. *)
Lemma X4_witness_healthy_extraction :
  let r := Unzip.unzip_S1_SLC Scenario.healthy Scenario.slc_zip "/slc" Scenario.disk in
  exists k,
    (k <= length (Unzip.archive Scenario.healthy Scenario.slc_zip))%nat /\
    Unzip.extracted_members (Unzip.history r.1)
    = Unzip.extracted_members (Unzip.history Scenario.disk)
        ++ map Unzip.name (take k (Unzip.archive Scenario.healthy Scenario.slc_zip)) /\
    (r.2 = Py.Return true -> k = length (Unzip.archive Scenario.healthy Scenario.slc_zip)).
Proof.
  apply (X4_members_extracted_once_in_order Scenario.healthy Scenario.slc_zip "/slc"
           Scenario.disk).
  vm_compute. reflexivity.
Defined.

(** X5: as long as the error message can be appended to the log, no
    exception leaves [unzip_S1_SLC]: it returns a bool, and that bool is
    [False] exactly when the destination directory was absent and some
    operation of the [try] block raised. *)
Theorem X5_task_failure_becomes_false (os : Unzip.OS) (zip_file target_dir : string)
    (w : Unzip.world) :
  (forall w0 p, Unzip.fault os w0 (Unzip.OpenA p) = None) ->
  (forall w0 p msg, Unzip.fault os w0 (Unzip.Write p (Unzip.nl ++ msg)%string) = None) ->
  exists b,
    (Unzip.unzip_S1_SLC os zip_file target_dir w).2 = Py.Return b /\
    (b = false <->
     Unzip.files w !! Unzip.safe_dir zip_file target_dir = None /\
     exists w1 e,
       Unzip.try_block os zip_file target_dir
         (Unzip.World (Unzip.files w)
            (Unzip.history w
               ++ [Unzip.Print ("Unzipping " ++ Py.basename zip_file ++ " ...")%string]))
       = (w1, Py.Raise e)).
Proof.
  intros Hopen Hwrite.
  destruct (Unzip.files w !! Unzip.safe_dir zip_file target_dir) as [n|] eqn:Hl.
  - rewrite unzip_skips by eauto. exists true. split; [reflexivity|].
    split; [discriminate | intros [[=] _]].
  - rewrite unzip_attempts by exact Hl. unfold Py.try_except.
    destruct (Unzip.try_block os zip_file target_dir _) as [w1 [b|e]] eqn:Htry.
    + pose proof (try_block_returns_true os _ _ _ _ _ Htry) as ->.
      exists true. split; [reflexivity|]. split; [discriminate|].
      intros (_ & w2 & e & [=]).
    + exists false. split; [|split; eauto].
      unfold Unzip.except_block, mbind, Py.M_bind, Unzip.print, Unzip.open_a, Unzip.write,
        Unzip.attempt, Unzip.path_exists, Unzip.rmtree_ignore_errors, Py.try_except.
      simpl. rewrite Hopen. simpl. rewrite Hwrite. simpl.
      case_bool_decide; simpl; [|reflexivity]. unfold Unzip.attempt.
      match goal with |- context [Unzip.fault os ?w0 (Unzip.Rmtree ?d)] =>
        destruct (Unzip.fault os w0 (Unzip.Rmtree d)) end; reflexivity.
Qed.

(** The damaged archive: the task ends with [False]. *)
Lemma X5_witness_damaged_archive :
  exists b,
    (Unzip.unzip_S1_SLC Scenario.damaged_archive Scenario.slc_zip "/slc" Scenario.disk).2
      = Py.Return b /\
    (b = false <->
     Unzip.files Scenario.disk !! Unzip.safe_dir Scenario.slc_zip "/slc" = None /\
     exists w1 e,
       Unzip.try_block Scenario.damaged_archive Scenario.slc_zip "/slc"
         (Unzip.World (Unzip.files Scenario.disk)
            (Unzip.history Scenario.disk
               ++ [Unzip.Print ("Unzipping " ++ Py.basename Scenario.slc_zip ++ " ...")%string]))
       = (w1, Py.Raise e)).
Proof.
  apply (X5_task_failure_becomes_false Scenario.damaged_archive Scenario.slc_zip "/slc"
           Scenario.disk).
  - intros w0 p. reflexivity.
  - intros w0 p msg. reflexivity.
Defined.

(** ** A destination that is already there *)

(** X16: when the directory stem + ".SAFE" is already there, [unzip_S1_SLC]
    answers [True] and does nothing but print two lines: no log is opened,
    no archive is read, no member is extracted, the files stay as they are.
    Running it once more on the outcome does the same again. *)
Theorem X16_existing_destination_is_skipped (os : Unzip.OS)
    (zip_file target_dir : string) (w : Unzip.world) :
  is_Some (Unzip.files w !! Unzip.safe_dir zip_file target_dir) ->
  let once := Unzip.unzip_S1_SLC os zip_file target_dir w in
  let twice := Unzip.unzip_S1_SLC os zip_file target_dir once.1 in
  once.2 = Py.Return true /\
  Unzip.files once.1 = Unzip.files w /\
  Unzip.history once.1 =
    Unzip.history w
      ++ [Unzip.Print ("Unzipping " ++ Py.basename zip_file ++ " ...")%string;
          Unzip.Print ("Already exists: " ++ Unzip.safe_name zip_file
                         ++ ", skipping...")%string] /\
  Unzip.extractions (Unzip.history once.1) = Unzip.extractions (Unzip.history w) /\
  twice.2 = Py.Return true /\
  Unzip.files twice.1 = Unzip.files w /\
  Unzip.extractions (Unzip.history twice.1) = Unzip.extractions (Unzip.history w).
Proof.
  intros Hex. cbv zeta.
  rewrite (unzip_skips os zip_file target_dir w Hex). simpl.
  rewrite unzip_skips by exact Hex. simpl.
  rewrite !extractions_print, <- app_assoc. repeat split; reflexivity.
Qed.

(** The archive extracted a moment ago is skipped by a second run. *)
Lemma X16_witness_second_run :
  let once := Unzip.unzip_S1_SLC Scenario.healthy Scenario.slc_zip "/slc"
                Scenario.extracted_once in
  let twice := Unzip.unzip_S1_SLC Scenario.healthy Scenario.slc_zip "/slc" once.1 in
  once.2 = Py.Return true /\
  Unzip.files once.1 = Unzip.files Scenario.extracted_once /\
  Unzip.history once.1 =
    Unzip.history Scenario.extracted_once
      ++ [Unzip.Print ("Unzipping " ++ Py.basename Scenario.slc_zip ++ " ...")%string;
          Unzip.Print ("Already exists: " ++ Unzip.safe_name Scenario.slc_zip
                         ++ ", skipping...")%string] /\
  Unzip.extractions (Unzip.history once.1)
    = Unzip.extractions (Unzip.history Scenario.extracted_once) /\
  twice.2 = Py.Return true /\
  Unzip.files twice.1 = Unzip.files Scenario.extracted_once /\
  Unzip.extractions (Unzip.history twice.1)
    = Unzip.extractions (Unzip.history Scenario.extracted_once).
Proof.
  apply (X16_existing_destination_is_skipped Scenario.healthy Scenario.slc_zip "/slc"
           Scenario.extracted_once).
  vm_compute. eexists. reflexivity.
Defined.

(** ** Running the batch again *)

Lemma make_dirs_keeps (dirs : list string) (fs : gmap string Unzip.node) (p : string)
    (n : Unzip.node) :
  fs !! p = Some n -> Unzip.make_dirs dirs fs !! p = Some n.
Proof.
  unfold Unzip.make_dirs. revert fs. induction dirs as [|d dirs IH]; intros fs Hp; simpl.
  - exact Hp.
  - apply IH. destruct (fs !! d) eqn:Hd; [exact Hp|].
    rewrite lookup_insert_ne; [exact Hp|]. intros ->. congruence.
Qed.

(** ** A product that extraction puts where the next run looks *)

(** A member below [pre/] has the directory [pre] on its way. *)
Lemma parents_go_prefix (base pre rest seen : string) :
  String.rev_app seen pre <> EmptyString ->
  Py.join base (String.rev_app seen pre)
    ∈ Unzip.parents_go base seen (pre ++ String "/" rest).
Proof.
  revert seen. induction pre as [|c pre IH]; intros seen Hne.
  - change (EmptyString ++ String "/" rest)%string with (String "/" rest).
    destruct seen as [|c0 seen0]; [contradiction|].
    change (Py.join base (String.rev (String c0 seen0))
            ∈ Py.join base (String.rev (String c0 seen0))
                :: Unzip.parents_go base (String "/" (String c0 seen0)) rest).
    apply list_elem_of_here.
  - assert (Hin : Py.join base (String.rev_app seen (String c pre))
                  ∈ Unzip.parents_go base (String c seen) (pre ++ String "/" rest))
      by (apply (IH (String c seen)); exact Hne).
    change (String c pre ++ String "/" rest)%string
      with (String c (pre ++ String "/" rest)).
    cbn [Unzip.parents_go].
    destruct (Ascii.eqb c "/"); [|exact Hin].
    destruct seen; [exact Hin | apply list_elem_of_further; exact Hin].
Qed.

Lemma make_dirs_makes (dirs : list string) (fs : gmap string Unzip.node) (d : string) :
  d ∈ dirs -> is_Some (Unzip.make_dirs dirs fs !! d).
Proof.
  unfold Unzip.make_dirs. revert fs. induction dirs as [|d0 dirs IH]; intros fs Hin.
  - inversion Hin.
  - apply elem_of_cons in Hin as [-> | Hin]; [|apply IH, Hin]. simpl.
    destruct (fs !! d0) as [n|] eqn:Hd.
    + exists n. apply (make_dirs_keeps dirs fs d0 n Hd).
    + exists Unzip.Dir. apply (make_dirs_keeps dirs). apply lookup_insert_eq.
Qed.

Lemma extracted_keeps (target_dir : string) (m : Unzip.member) (fs : gmap string Unzip.node)
    (p : string) :
  is_Some (fs !! p) -> is_Some (Unzip.extracted target_dir m fs !! p).
Proof.
  intros [n Hn]. unfold Unzip.extracted.
  pose proof (make_dirs_keeps (Unzip.parents target_dir (Unzip.name m)) fs p n Hn) as Hk.
  destruct (Unzip.is_dir_name (Unzip.name m)); [eauto|].
  rewrite lookup_insert_is_Some. destruct (decide (Py.join target_dir (Unzip.name m) = p)); eauto.
Qed.

Lemma extracted_makes_parents (target_dir : string) (m : Unzip.member)
    (fs : gmap string Unzip.node) (d : string) :
  d ∈ Unzip.parents target_dir (Unzip.name m) ->
  is_Some (Unzip.extracted target_dir m fs !! d).
Proof.
  intros Hin. unfold Unzip.extracted.
  pose proof (make_dirs_makes _ fs d Hin) as Hk.
  destruct (Unzip.is_dir_name (Unzip.name m)); [exact Hk|].
  rewrite lookup_insert_is_Some. destruct (decide (Py.join target_dir (Unzip.name m) = d)); eauto.
Qed.

Section Unzip_nothing_lost.
Import Py Unzip.
Context (os : OS).

Lemma nothing_lost_attempt (ev : event) (f g : gmap string node -> gmap string node) :
  (forall fs p, is_Some (fs !! p) -> is_Some (f fs !! p)) ->
  (forall fs p, is_Some (fs !! p) -> is_Some (g fs !! p)) ->
  keeps nothing_lost (attempt os ev f g).
Proof.
  intros Hf Hg w w' r. unfold attempt.
  destruct (fault os w ev); intros [= <- <-] p Hp; simpl; auto.
Qed.

Lemma nothing_lost_extract (zip_file target_dir : string) (m : member) :
  keeps nothing_lost (extract os zip_file target_dir m).
Proof.
  intros w w' r. unfold extract. apply nothing_lost_attempt.
  - intros fs p. apply extracted_keeps.
  - intros fs p Hp. destruct (partial os w _); [apply extracted_keeps|]; exact Hp.
Qed.

Lemma nothing_lost_write (p text : string) : keeps nothing_lost (write os p text).
Proof.
  apply nothing_lost_attempt; [|auto]. intros fs q Hq.
  destruct (fs !! p) as [[|c]|] eqn:Hp; try exact Hq.
  rewrite lookup_insert_is_Some. destruct (decide (p = q)); auto.
Qed.

Lemma nothing_lost_print (text : string) : keeps nothing_lost (print text).
Proof. intros w w' r. unfold print. intros [= <- <-] p Hp. exact Hp. Qed.

Lemma nothing_lost_trans (w1 w2 w3 : world) :
  nothing_lost w1 w2 -> nothing_lost w2 w3 -> nothing_lost w1 w3.
Proof. intros H12 H23 p Hp. apply H23, H12, Hp. Qed.

Lemma nothing_lost_extract_all (zip_file target_dir log : string) (total : Z)
    (l : list member) (i : Z) :
  keeps nothing_lost (extract_all os zip_file target_dir log total i l).
Proof.
  apply (keeps_extract_all os nothing_lost).
  - intros w p Hp. exact Hp.
  - apply nothing_lost_trans.
  - apply nothing_lost_write.
  - apply nothing_lost_extract.
Qed.

(** After a loop that went through, the directories on the way to every
    member are on disk. *)
Lemma extract_all_makes_parents (zip_file target_dir log : string) (total : Z)
    (l : list member) (i : Z) (w w' : world) (m : member) (d : string) :
  extract_all os zip_file target_dir log total i l w = (w', Return tt) ->
  m ∈ l -> d ∈ parents target_dir (name m) -> is_Some (files w' !! d).
Proof.
  revert i w. induction l as [|m0 rest IH]; intros i w H Hin Hd.
  - inversion Hin.
  - simpl in H. apply bind_return_inv in H as (w1 & [] & _ & H).
    apply bind_return_inv in H as (w2 & [] & Hx & H).
    apply elem_of_cons in Hin as [-> | Hin]; [|eapply IH; eauto].
    apply (nothing_lost_extract_all _ _ _ _ _ _ _ _ _ H).
    revert Hx. unfold extract, attempt.
    destruct (fault os w1 _); [discriminate|]. intros [= <-]. simpl.
    apply extracted_makes_parents, Hd.
Qed.

Lemma try_block_makes_parents (zip_file target_dir : string) (w w' : world) (b : bool)
    (m : member) (d : string) :
  try_block os zip_file target_dir w = (w', Return b) ->
  m ∈ archive os zip_file -> d ∈ parents target_dir (name m) -> is_Some (files w' !! d).
Proof.
  unfold try_block. intros H Hin Hd.
  apply bind_return_inv in H as (w1 & [] & _ & H).
  apply bind_return_inv in H as (w2 & [] & _ & H).
  apply bind_return_inv in H as (w3 & file_list & Hz & H).
  assert (file_list = archive os zip_file) as ->.
  { unfold zip_open in Hz. apply bind_return_inv in Hz as (w3' & [] & _ & Hr).
    unfold mret, M_ret in Hr. congruence. }
  apply bind_return_inv in H as (w4 & [] & _ & H).
  apply bind_return_inv in H as (w5 & [] & _ & H).
  apply bind_return_inv in H as (w6 & [] & Hall & H).
  apply bind_return_inv in H as (w7 & [] & Hw & H).
  apply bind_return_inv in H as (w8 & [] & Hp & H).
  unfold mret, M_ret in H. injection H as <- _.
  apply (nothing_lost_print _ _ _ _ Hp), (nothing_lost_write _ _ _ _ _ Hw).
  eapply extract_all_makes_parents; eauto.
Qed.

End Unzip_nothing_lost.

(** X17: when the archive holds a member below the directory stem +
    ".SAFE" (as an archive [X.zip] holding the product [X.SAFE] does),
    a run of [unzip_S1_SLC] that returns [True] leaves that directory on
    disk, and a further run, on whatever machine, is skipped: it returns
    [True], changes no file and hands nothing to [extract]. *)
Theorem X17_extracted_product_is_skipped_next_time (os os2 : Unzip.OS)
    (zip_file target_dir : string) (w : Unzip.world) (m : Unzip.member) (rest : string) :
  m ∈ Unzip.archive os zip_file ->
  Unzip.name m = (Unzip.safe_name zip_file ++ String "/" rest)%string ->
  (Unzip.unzip_S1_SLC os zip_file target_dir w).2 = Py.Return true ->
  let once := Unzip.unzip_S1_SLC os zip_file target_dir w in
  let twice := Unzip.unzip_S1_SLC os2 zip_file target_dir once.1 in
  is_Some (Unzip.files once.1 !! Unzip.safe_dir zip_file target_dir) /\
  twice.2 = Py.Return true /\
  Unzip.files twice.1 = Unzip.files once.1 /\
  Unzip.extracted_members (Unzip.history twice.1)
    = Unzip.extracted_members (Unzip.history once.1).
Proof.
  intros Hin Hname Hret. cbv zeta.
  assert (Hthere : is_Some (Unzip.files (Unzip.unzip_S1_SLC os zip_file target_dir w).1
                              !! Unzip.safe_dir zip_file target_dir)).
  { revert Hret.
    destruct (Unzip.files w !! Unzip.safe_dir zip_file target_dir) as [n|] eqn:Hl.
    { rewrite unzip_skips by eauto. simpl. eauto. }
    rewrite unzip_attempts by exact Hl. unfold Py.try_except.
    destruct (Unzip.try_block os zip_file target_dir _) as [w1 [b|e]] eqn:Htry.
    - simpl. intros _.
      apply (try_block_makes_parents os zip_file target_dir _ w1 b m _ Htry Hin).
      unfold Unzip.parents, Unzip.safe_dir. rewrite Hname.
      apply (parents_go_prefix target_dir (Unzip.safe_name zip_file) rest EmptyString).
      unfold Unzip.safe_name. destruct (Py.stem zip_file); discriminate.
    - destruct (Unzip.except_block os zip_file target_dir e w1) as [w2 r] eqn:Hexc.
      simpl. intros ->.
      apply except_block_cleanup in Hexc as [Hb _]. discriminate. }
  split; [exact Hthere|].
  rewrite (unzip_skips os2 zip_file target_dir _ Hthere). simpl.
  split; [reflexivity|]. split; [reflexivity|].
  rewrite !extracted_members_snoc, !app_nil_r. reflexivity.
Qed.

(** The archive named as the hub names it, on the healthy machine: the
    manifest lies in the product directory, and the second run, here on a
    machine whose archive has been damaged meanwhile, is skipped. *)
Lemma X17_witness_hub_named_archive :
  let once := Unzip.unzip_S1_SLC Scenario.healthy Scenario.slc_zip "/slc" Scenario.disk in
  let twice := Unzip.unzip_S1_SLC Scenario.damaged_archive Scenario.slc_zip "/slc" once.1 in
  is_Some (Unzip.files once.1 !! Unzip.safe_dir Scenario.slc_zip "/slc") /\
  twice.2 = Py.Return true /\
  Unzip.files twice.1 = Unzip.files once.1 /\
  Unzip.extracted_members (Unzip.history twice.1)
    = Unzip.extracted_members (Unzip.history once.1).
Proof.
  apply (X17_extracted_product_is_skipped_next_time Scenario.healthy Scenario.damaged_archive
           Scenario.slc_zip "/slc" Scenario.disk
           (Unzip.Member (Scenario.slc_safe ++ "/manifest.safe") "<xfdu/>") "manifest.safe").
  - vm_compute. apply list_elem_of_further, list_elem_of_here.
  - reflexivity.
  - vm_compute. reflexivity.
Defined.

Lemma sum_all_true (n : nat) : Unzip.sum (repeat true n) = Z.of_nat n.
Proof.
  induction n as [|n IH]; [reflexivity|].
  unfold Unzip.sum. simpl fold_left. rewrite sum_from, IH. lia.
Qed.

Lemma skipped_tasks (os : Unzip.OS) (target_dir : string) (zip_files : list string)
    (w : Unzip.world) :
  Forall (fun z => is_Some (Unzip.files w !! Unzip.safe_dir z target_dir)) zip_files ->
  exists w',
    Py.run_tasks (map (fun z => Unzip.unzip_S1_SLC os z target_dir) zip_files) w
    = (w', Py.Return (repeat true (length zip_files))) /\
    Unzip.files w' = Unzip.files w /\
    Unzip.extracted_members (Unzip.history w') = Unzip.extracted_members (Unzip.history w).
Proof.
  revert w. induction zip_files as [|z rest IH]; intros w Hall; simpl.
  - exists w. repeat split.
  - inversion Hall as [|? ? Hz Hrest]; subst.
    unfold mbind, Py.M_bind. rewrite unzip_skips by exact Hz.
    destruct (IH (Unzip.World (Unzip.files w)
                    ((Unzip.history w
                        ++ [Unzip.Print ("Unzipping " ++ Py.basename z ++ " ...")%string])
                        ++ [Unzip.Print ("Already exists: " ++ Unzip.safe_name z
                                           ++ ", skipping...")%string])))
      as (w' & Hrun & Hfiles & Hems); [exact Hrest|].
    rewrite Hrun. exists w'. split; [reflexivity|]. split; [exact Hfiles|].
    rewrite Hems. simpl. rewrite !extracted_members_snoc, !app_nil_r. reflexivity.
Qed.

(** X6: when every archive of the batch already has its destination
    directory, [unzip_S1_SLC_list] reports all of them successful and none
    failed, hands nothing to [extract], and leaves every existing file as
    it is. *)
Theorem X6_batch_rerun_skips_everything (os : Unzip.OS) (zip_files : list string)
    (target_dir : string) (n_jobs : option Z) (w : Unzip.world) :
  (forall w0 d, Unzip.fault os w0 (Unzip.Mkdir d) = None) ->
  Unzip.pool_size n_jobs (Unzip.cpu_count os) <> 0 ->
  Forall (fun z => is_Some (Unzip.files w !! Unzip.safe_dir z target_dir)) zip_files ->
  let r := Unzip.unzip_S1_SLC_list os zip_files target_dir n_jobs w in
  r.2 = Py.Return (Z.of_nat (length zip_files), 0) /\
  Unzip.extracted_members (Unzip.history r.1)
    = Unzip.extracted_members (Unzip.history w) /\
  (forall p n, Unzip.files w !! p = Some n -> Unzip.files r.1 !! p = Some n).
Proof.
  intros Hmk Hpool Hall. cbv zeta.
  unfold Unzip.unzip_S1_SLC_list, mbind, Py.M_bind, Unzip.mkdir_parents, Unzip.attempt.
  rewrite Hmk. unfold Unzip.print. simpl.
  unfold Py.Parallel. apply Z.eqb_neq in Hpool. rewrite Hpool.
  match goal with |- context [Py.run_tasks ?ts ?w0] =>
    destruct (skipped_tasks os target_dir zip_files w0) as (w' & Hrun & Hfiles & Hems) end.
  { simpl. eapply Forall_impl; [exact Hall|]. simpl. intros z [n Hn].
    exists n. apply make_dirs_keeps. exact Hn. }
  rewrite Hrun. simpl. rewrite sum_all_true, repeat_length.
  split; [do 2 f_equal; lia|]. split.
  - rewrite !extracted_members_snoc, !app_nil_r, Hems. simpl.
    rewrite !extracted_members_snoc, !app_nil_r. reflexivity.
  - intros p n Hp. rewrite Hfiles. simpl. apply make_dirs_keeps. exact Hp.
Qed.

(** The archive extracted a moment ago, given to the batch again. *)
Lemma X6_witness_second_batch :
  let r := Unzip.unzip_S1_SLC_list Scenario.healthy [Scenario.slc_zip] "/slc" None
             Scenario.extracted_once in
  r.2 = Py.Return (Z.of_nat (length [Scenario.slc_zip]), 0) /\
  Unzip.extracted_members (Unzip.history r.1)
    = Unzip.extracted_members (Unzip.history Scenario.extracted_once) /\
  (forall p n, Unzip.files Scenario.extracted_once !! p = Some n ->
               Unzip.files r.1 !! p = Some n).
Proof.
  apply (X6_batch_rerun_skips_everything Scenario.healthy [Scenario.slc_zip] "/slc" None
           Scenario.extracted_once).
  - intros w0 d. reflexivity.
  - vm_compute. discriminate.
  - constructor; [|constructor]. vm_compute. eexists. reflexivity.
Defined.

(** ** Finding the archives *)

Lemma keep_S1_spec (zip_files acc : list string) (w : Unzip.world) :
  exists w',
    Unzip.keep_S1 zip_files acc w
    = (w', Py.Return (acc ++ List.filter Unzip.is_S1_name zip_files)) /\
    Unzip.files w' = Unzip.files w /\
    Unzip.extracted_members (Unzip.history w') = Unzip.extracted_members (Unzip.history w).
Proof.
  revert acc w. induction zip_files as [|z rest IH]; intros acc w; simpl.
  - exists w. rewrite app_nil_r. repeat split.
  - destruct (Unzip.is_S1_name z).
    + destruct (IH (acc ++ [z]) w) as (w' & Hk & Hf & Hh).
      exists w'. rewrite Hk, <- app_assoc. repeat split; assumption.
    + unfold mbind, Py.M_bind, Unzip.print.
      match goal with |- context [Unzip.keep_S1 rest acc ?w0] =>
        destruct (IH acc w0) as (w' & Hk & Hf & Hh) end.
      exists w'. rewrite Hk. repeat split; [exact Hf|].
      rewrite Hh. simpl. rewrite extracted_members_snoc. apply app_nil_r.
Qed.

(** X7: [get_S1_zip_files] looks at the directory under its [pathlib]
    normal form; it raises [FileNotFoundError] when nothing is there and
    [NotADirectoryError] for a file; for a directory whose normal form holds
    no wildcard character it returns, in ascending order, exactly the paths
    on disk directly in it whose name ends in [.zip], does not start with a
    dot, starts with [S1] and contains [.SAFE] - possibly none.  It changes
    no file in any case. *)
Theorem X7_get_S1_zip_files_sorted_S1_archives (wild : string -> list string)
    (data_dir : string) (w : Unzip.world) :
  let data_path := Py.path_str data_dir in
  let r := Unzip.get_S1_zip_files wild data_dir w in
  Unzip.files r.1 = Unzip.files w /\
  (Unzip.files w !! data_path = None -> r.2 = Py.Raise Py.FileNotFoundError) /\
  (forall c, Unzip.files w !! data_path = Some (Unzip.File c) ->
             r.2 = Py.Raise Py.NotADirectoryError) /\
  (Unzip.files w !! data_path = Some Unzip.Dir ->
   Py.has_magic data_path = false ->
   exists found,
     r.2 = Py.Return found /\
     Sorted (fun a b => String.leb a b = true) found /\
     forall p,
       p ∈ found <->
       is_Some (Unzip.files w !! p) /\
       (exists n, Unzip.child_name data_path p = Some n /\ Unzip.matches_zip n = true) /\
       String.prefix "S1" (Py.basename p) = true /\
       Py.contains ".SAFE" (Py.basename p) = true).
Proof.
  cbv zeta. unfold Unzip.get_S1_zip_files. cbv zeta.
  destruct (Unzip.files w !! Py.path_str data_dir) as [[|c]|] eqn:Hd.
  - unfold mbind, Py.M_bind.
    destruct (keep_S1_spec (Unzip.glob_zip wild (Unzip.files w) (Py.path_str data_dir)) [] w)
      as (w' & Hk & Hf & _).
    rewrite Hk. simpl. split; [exact Hf|]. split; [discriminate|].
    split; [discriminate|]. intros _ Hplain. eexists. split; [reflexivity|].
    split; [apply sorted_sorted|]. intros p.
    rewrite (sorted_perm _), list_elem_of_In, filter_In.
    unfold Unzip.glob_zip. rewrite Hplain.
    rewrite filter_In, <- list_elem_of_In, list_elem_of_fmap.
    unfold Unzip.is_S1_name. rewrite andb_true_iff. split.
    + intros [[([p' n] & -> & Hin) Hm] Hs]. simpl in *.
      apply elem_of_map_to_list in Hin. split; [eauto|].
      split; [|exact Hs].
      destruct (Unzip.child_name (Py.path_str data_dir) p') as [n'|]; [eauto | discriminate].
    + intros ([n Hn] & (n' & Hc & Hm) & Hs). split; [|exact Hs]. split.
      * exists (p, n). split; [reflexivity|]. apply elem_of_map_to_list. exact Hn.
      * rewrite Hc. exact Hm.
  - simpl. split; [reflexivity|]. split; [discriminate|].
    split; [reflexivity | discriminate].
  - simpl. split; [reflexivity|]. split; [reflexivity|].
    split; [discriminate | discriminate].
Qed.

(** Of the entries of the download directory, here given with a trailing
    slash, only the two archives with [.SAFE] in their names are returned;
    the archive named as the hub names it is passed over with a warning.
    With a wildcard character in the directory name the answer is made from
    what [glob] finds for the whole pattern: nothing, when [/data[1]] is read
    as a pattern that the directory of that name does not match. *)
Example get_S1_zip_files_example :
  let r := Unzip.get_S1_zip_files (fun _ => []) "/data/" Scenario.download_dir in
  let r_wild :=
    Unzip.get_S1_zip_files (fun _ => []) "/data[1]"
      (Unzip.World {[ "/data[1]" := Unzip.Dir;
                      "/data[1]/S1A_X.SAFE.zip" := Unzip.File "PK" ]} []) in
  r.2 = Py.Return
          ["/data/S1A_IW_SLC__1SDV_20210209T101010_20210209T101037_036500_0448A1_ABCD.SAFE.zip";
           "/data/S1B_IW_SLC__1SDV_20210215T101010_20210215T101037_025600_030D1A_77AA.SAFE.zip"]
  /\ Unzip.history r.1
     = [Unzip.Print ("Warning: Skipping non-S1 file: " ++ Py.basename Scenario.slc_zip)%string]
  /\ r_wild.2 = Py.Return []
  /\ Unzip.history r_wild.1 = [].
Proof. vm_compute. repeat split; reflexivity. Qed.

(** ** The orbit download as a whole *)

Lemma fetched_snoc (h : list Orbit.event) (ev : Orbit.event) :
  Orbit.fetched (h ++ [ev])
  = Orbit.fetched h ++ match ev with Orbit.Fetch u p => [(u, p)] | _ => [] end.
Proof. unfold Orbit.fetched. rewrite flat_map_app. simpl. rewrite app_nil_r. reflexivity. Qed.

Lemma download_file_history (os : Orbit.OS) (task : string * string) (w : Orbit.world) :
  exists text,
    Orbit.download_file os task w
    = (Orbit.World (Orbit.history w ++ [Orbit.Fetch task.1 task.2; Orbit.Print text]),
       Py.Return tt).
Proof.
  destruct task as [file_url save_path].
  unfold Orbit.download_file, Py.try_except, mbind, Py.M_bind, Orbit.attempt, Orbit.print.
  destruct (Orbit.fault os w (Orbit.Fetch file_url save_path)); simpl;
    rewrite <- app_assoc; eauto.
Qed.

Lemma downloads_history (os : Orbit.OS) (tasks : list (string * string)) (w : Orbit.world) :
  exists w',
    Py.run_tasks (map (Orbit.download_file os) tasks) w
    = (w', Py.Return (repeat tt (length tasks))) /\
    Orbit.fetched (Orbit.history w') = Orbit.fetched (Orbit.history w) ++ tasks.
Proof.
  revert w. induction tasks as [|task rest IH]; intros w; simpl.
  - exists w. rewrite app_nil_r. split; reflexivity.
  - unfold mbind, Py.M_bind.
    destruct (download_file_history os task w) as [text ->].
    match goal with |- context [Py.run_tasks _ ?w0] =>
      destruct (IH w0) as (w' & Hrun & Hf) end.
    rewrite Hrun. exists w'. split; [reflexivity|].
    rewrite Hf. simpl. unfold Orbit.fetched at 1. rewrite flat_map_app. simpl.
    rewrite <- app_assoc. destruct task. reflexivity.
Qed.

(** X8: once the listing is fetched and every local file name is read, the
    orbit script requests every enumerated task exactly once, whatever
    happens to the single requests, and ends without an exception.  The
    requests are the tasks up to their order: the workers of [Parallel]
    take the tasks as they come free, so no order of the requests is
    stated. *)
Theorem X8_every_task_is_requested_once (os : Orbit.OS) (zipped_dir orbits_dir : string)
    (w : Orbit.world) (tasks : list (string * string)) :
  Orbit.fault os w (Orbit.Listing Orbit.ORBIT_URL) = None ->
  Orbit.enumerate orbits_dir (Orbit.parse_listing (Orbit.content os))
    (Orbit.glob_S1A_zip os zipped_dir) [] = Py.Return tasks ->
  let r := Orbit.downloda_S1_SLC_orbit_list os zipped_dir orbits_dir w in
  r.2 = Py.Return tt /\
  Permutation (Orbit.fetched (Orbit.history r.1)) (Orbit.fetched (Orbit.history w) ++ tasks).
Proof.
  intros Hlist Henum. cbv zeta.
  unfold Orbit.downloda_S1_SLC_orbit_list, mbind, Py.M_bind, Orbit.attempt.
  rewrite Hlist. unfold Py.lift. rewrite Henum.
  unfold Orbit.print, Py.Parallel. rewrite njobs_not_zero. simpl.
  match goal with |- context [Py.run_tasks _ ?w0] =>
    destruct (downloads_history os tasks w0) as (w' & Hrun & Hf) end.
  rewrite Hrun. simpl. split; [reflexivity|].
  rewrite fetched_snoc, app_nil_r, Hf. simpl.
  rewrite !fetched_snoc, !app_nil_r. reflexivity.
Qed.

(** Two archives of one day and a server that refuses every file: both
    tasks are requested all the same. *)
Lemma X8_witness_two_failing_requests :
  let os := Scenario.orbit_site [Scenario.eof_S1A_0209]
              [Scenario.slice_1; Scenario.slice_2] (Some Py.HTTPError) in
  let r := Orbit.downloda_S1_SLC_orbit_list os "/data" "/orbits" (Orbit.World []) in
  r.2 = Py.Return tt /\
  Permutation (Orbit.fetched (Orbit.history r.1))
    (Orbit.fetched (Orbit.history (Orbit.World []))
       ++ [Orbit.task_for "/orbits" Scenario.eof_S1A_0209;
           Orbit.task_for "/orbits" Scenario.eof_S1A_0209]).
Proof.
  apply (X8_every_task_is_requested_once
           (Scenario.orbit_site [Scenario.eof_S1A_0209]
              [Scenario.slice_1; Scenario.slice_2] (Some Py.HTTPError))
           "/data" "/orbits" (Orbit.World [])).
  - reflexivity.
  - vm_compute. reflexivity.
Defined.



(** ** What the date test looks at *)

Lemma length_append (a b : string) :
  String.length (a ++ b)%string = (String.length a + String.length b)%nat.
Proof. induction a as [|c a IH]; simpl; [reflexivity | rewrite IH; reflexivity]. Qed.

Lemma append_assoc (a b c : string) : ((a ++ b) ++ c = a ++ b ++ c)%string.
Proof.
  induction a as [|x a IH]; [reflexivity|].
  change (String x ((a ++ b) ++ c) = String x (a ++ b ++ c))%string. rewrite IH. reflexivity.
Qed.

Lemma substring_skip (a s : string) (m : nat) :
  substring (String.length a) m (a ++ s)%string = substring 0 m s.
Proof. induction a as [|c a IH]; simpl; [reflexivity | exact IH]. Qed.

Lemma substring_head (b c : string) :
  substring 0 (String.length b) (b ++ c)%string = b.
Proof.
  induction b as [|x b IH]; simpl.
  - destruct c; reflexivity.
  - rewrite IH. reflexivity.
Qed.

Lemma slice_from_end (a b c : string) :
  (0 < String.length c)%nat ->
  Py.slice (a ++ b ++ c)%string
    (Some (- Z.of_nat (String.length b + String.length c)))
    (Some (- Z.of_nat (String.length c))) = b.
Proof.
  intros Hc. unfold Py.slice, Py.len, Py.clip. rewrite !length_append.
  destruct (Z.ltb_spec (- Z.of_nat (String.length b + String.length c)) 0); [|lia].
  destruct (Z.ltb_spec (- Z.of_nat (String.length c)) 0); [|lia].
  replace (Z.to_nat (Z.max _ 0)) with (String.length a) by lia.
  match goal with |- substring _ ?m _ = _ =>
    replace m with (String.length b) by lia end.
  rewrite substring_skip. apply substring_head.
Qed.

(** X14: for a listing entry that ends in eight characters [start], eight
    more characters, eight characters [stop] and eleven more characters (as
    in [..._V20210208T225942_20210210T005942.EOF]), the test of line 81
    holds exactly when [start] is the previous-day string and [stop] the
    next-day string; what stands in front of these 35 characters, the
    satellite name included, plays no part. *)
Theorem X14_date_test_reads_fixed_columns (front start between stop tail : string)
    (prev_dt_str next_dt_str : string) :
  String.length start = 8%nat -> String.length between = 8%nat ->
  String.length stop = 8%nat -> String.length tail = 11%nat ->
  Orbit.covers prev_dt_str next_dt_str (front ++ start ++ between ++ stop ++ tail)%string
    = true
  <-> start = prev_dt_str /\ stop = next_dt_str.
Proof.
  intros H1 H2 H3 H4. unfold Orbit.covers.
  assert (Hs : Py.slice (front ++ start ++ between ++ stop ++ tail)%string
                 (Some (-35)) (Some (-27)) = start).
  { pose proof (slice_from_end front start (between ++ stop ++ tail)%string) as H.
    rewrite !length_append, H1, H2, H3, H4 in H. apply H. lia. }
  assert (He : Py.slice (front ++ start ++ between ++ stop ++ tail)%string
                 (Some (-19)) (Some (-11)) = stop).
  { pose proof (slice_from_end (front ++ start ++ between)%string stop tail) as H.
    rewrite H3, H4 in H. rewrite !append_assoc in H. apply H. lia. }
  rewrite Hs, He, andb_true_iff, !String.eqb_eq. reflexivity.
Qed.

(** The Sentinel-1B entry of 9 February 2021 passes the test for an archive
    of Sentinel-1A. *)
Lemma X14_witness_other_satellite :
  Orbit.covers "20210208" "20210210"
    ("S1B_OPER_AUX_POEORB_OPOD_20210301T111212_V" ++ "20210208" ++ "T225942_"
       ++ "20210210" ++ "T005942.EOF")%string = true
  <-> "20210208" = "20210208" /\ "20210210" = "20210210".
Proof.
  apply (X14_date_test_reads_fixed_columns
           "S1B_OPER_AUX_POEORB_OPOD_20210301T111212_V" "20210208" "T225942_"
           "20210210" "T005942.EOF" "20210208" "20210210"); reflexivity.
Defined.

(** ** Reading the listing *)

Lemma escape_plain (quote c : ascii) :
  quote = "'"%char \/ quote = Orbit.double_quote ->
  Orbit.plain_char c = true -> Orbit.escape quote c = String c "".
Proof.
  intros [-> | ->];
    destruct c as [[] [] [] [] [] [] [] []]; vm_compute; intros H;
    first [discriminate H | reflexivity].
Qed.

Lemma escape_all_plain (quote : ascii) (s : string) :
  quote = "'"%char \/ quote = Orbit.double_quote ->
  Orbit.plain s = true -> Orbit.escape_all quote s = s.
Proof.
  intros Hq. induction s as [|c s IH]; simpl; [reflexivity|].
  intros H. apply andb_true_iff in H as [Hc Hs].
  rewrite (escape_plain quote c Hq Hc), (IH Hs). reflexivity.
Qed.

Lemma slice_strips_literal (quote : ascii) (s : string) :
  Py.slice (String "b" (String quote (s ++ String quote ""))) (Some 2) (Some (-1)) = s.
Proof.
  unfold Py.slice, Py.len, Py.clip. simpl String.length. rewrite length_append.
  simpl String.length.
  destruct (Z.ltb_spec 2 0); [lia|]. destruct (Z.ltb_spec (-1) 0); [|lia].
  replace (Z.to_nat (Z.min 2 _)) with 2%nat by lia.
  match goal with |- substring _ ?m _ = _ =>
    replace m with (String.length s) by lia end.
  simpl. apply substring_head.
Qed.

Lemma split_go_not_nil (sep : string) (skip : nat) (cur s : string) :
  Py.split_go sep skip cur s <> [].
Proof.
  revert skip cur. induction s as [|c s IH]; intros skip cur;
    cbn [Py.split_go]; [discriminate|].
  destruct skip; [|apply IH].
  destruct (String.prefix sep (String c s)); [discriminate | apply IH].
Qed.

(** X15: the listing parse always yields at least one entry (the text in
    front of the first link), one per piece of the response; for a piece
    whose first 77 characters are printable ASCII without quotes and
    backslashes, the entry is exactly those characters: writing the bytes
    as a literal and cutting the [b'] and the ['] off again changes
    nothing. *)
Theorem X15_parse_listing_keeps_plain_names (resp : string) :
  Orbit.parse_listing resp <> [] /\
  Forall2
    (fun piece entry =>
       Orbit.plain (Py.slice piece None (Some 77)) = true ->
       entry = Py.slice piece None (Some 77))
    (Py.split resp ("href=" ++ String Orbit.double_quote ""))
    (Orbit.parse_listing resp).
Proof.
  unfold Orbit.parse_listing. split.
  - intros H. apply map_eq_nil in H. revert H. apply split_go_not_nil.
  - apply Forall2_fmap_r, Forall_Forall2_diag, Forall_forall. intros piece _ Hplain.
    unfold Orbit.str_of_bytes. rewrite slice_strips_literal.
    apply escape_all_plain; [|exact Hplain].
    destruct (_ && _); auto.
Qed.

(** ** The DEM request *)

Lemma int_of_float_near (x : float) (n : Z) :
  Py.int_of_float x = Py.Return n ->
  exists v,
    Py.float_value x = Some v /\
    (inject_Z n - 1 < v)%Q /\ (v < inject_Z n + 1)%Q.
Proof.
  unfold Py.int_of_float, Py.float_value.
  destruct (Prim2SF x) as [s | s | | s m e]; try discriminate.
  - intros [= <-]. exists 0%Q. split; [reflexivity|]. split; reflexivity.
  - destruct (Z.leb_spec 0 e) as [He | He].
    + intros [= <-]. eexists. split; [reflexivity|].
      destruct s; unfold Qlt; simpl; lia.
    + intros [= <-]. eexists. split; [reflexivity|].
      assert (Hpow : 0 < 2 ^ (- e)) by (apply Z.pow_pos_nonneg; lia).
      pose proof (Z.mul_div_le (Z.pos m) (2 ^ (- e)) Hpow) as Hlow.
      pose proof (Z.mul_succ_div_gt (Z.pos m) (2 ^ (- e)) Hpow) as Hhigh.
      destruct s; unfold Qlt; simpl; rewrite Z2Pos.id by exact Hpow; nia.
Qed.

Lemma commands_snoc (h : list Host.event) (ev : Host.event) :
  Host.commands (h ++ [ev])
  = Host.commands h ++ match ev with Host.Run cmd cwd => [(cmd, cwd)] | _ => [] end.
Proof. unfold Host.commands. rewrite flat_map_app. simpl. rewrite app_nil_r. reflexivity. Qed.

Ltac tidy_commands := simpl; rewrite ?commands_snoc; simpl; rewrite ?app_nil_r.

(** X10: [download_S1_SLC_dem] starts at most one command, and when it
    does, the command is [dem.py -a stitch -b a b c d -r -s 1 -c] run in the
    DEM directory, with whole numbers a < lat_min < a + 2,
    b - 2 < lat_max < b, c < lon_min < c + 2 and d - 2 < lon_max < d: the
    box asked for contains the study area with a margin above 0 and below 2
    degrees on every side. *)
Theorem X10_dem_box_contains_study_area (os : Host.OS)
    (lat_min lat_max lon_min lon_max : float) (dem_dir : string) (w : Host.world) :
  let r := DownloadDem.download_S1_SLC_dem os lat_min lat_max lon_min lon_max dem_dir w in
  Host.commands (Host.history r.1) = Host.commands (Host.history w) \/
  exists (a b c d : Z) (va vb vc vd : Q),
    Host.commands (Host.history r.1)
    = Host.commands (Host.history w)
        ++ [(["dem.py"; "-a"; "stitch"; "-b";
              Py.str_of_int a; Py.str_of_int b; Py.str_of_int c; Py.str_of_int d;
              "-r"; "-s"; "1"; "-c"], dem_dir)] /\
    Py.float_value lat_min = Some va /\ Py.float_value lat_max = Some vb /\
    Py.float_value lon_min = Some vc /\ Py.float_value lon_max = Some vd /\
    (inject_Z a < va)%Q /\ (va < inject_Z a + 2)%Q /\
    (inject_Z b - 2 < vb)%Q /\ (vb < inject_Z b)%Q /\
    (inject_Z c < vc)%Q /\ (vc < inject_Z c + 2)%Q /\
    (inject_Z d - 2 < vd)%Q /\ (vd < inject_Z d)%Q.
Proof.
  cbv zeta. unfold DownloadDem.download_S1_SLC_dem, mbind, Py.M_bind, Host.attempt.
  destruct (Host.fault os w (Host.Mkdir dem_dir)); [left; tidy_commands; reflexivity|].
  match goal with |- context [Host.fault os ?w0 (Host.Chdir dem_dir)] =>
    destruct (Host.fault os w0 (Host.Chdir dem_dir)) end;
    [left; tidy_commands; reflexivity|].
  unfold Py.lift, Py.result_bind, Py.bind.
  destruct (Py.int_of_float lat_min) as [n1|] eqn:H1; [|left; tidy_commands; reflexivity].
  destruct (Py.int_of_float lat_max) as [n2|] eqn:H2; [|left; tidy_commands; reflexivity].
  destruct (Py.int_of_float lon_min) as [n3|] eqn:H3; [|left; tidy_commands; reflexivity].
  destruct (Py.int_of_float lon_max) as [n4|] eqn:H4; [|left; tidy_commands; reflexivity].
  unfold Py.try_except, Host.print.
  match goal with |- context [Host.fault os ?w0 (Host.OpenW ?p)] =>
    destruct (Host.fault os w0 (Host.OpenW p)) as [e|] end.
  { left. destruct e; tidy_commands; reflexivity. }
  right.
  apply int_of_float_near in H1 as (va & Hva & Ha1 & Ha2).
  apply int_of_float_near in H2 as (vb & Hvb & Hb1 & Hb2).
  apply int_of_float_near in H3 as (vc & Hvc & Hc1 & Hc2).
  apply int_of_float_near in H4 as (vd & Hvd & Hd1 & Hd2).
  exists (n1 - 1), (n2 + 1), (n3 - 1), (n4 + 1), va, vb, vc, vd.
  split.
  { match goal with |- context [Host.fault os ?w0 (Host.Run ?cmd ?cwd)] =>
      destruct (Host.fault os w0 (Host.Run cmd cwd)) as [e|] end.
    - destruct e; tidy_commands; reflexivity.
    - tidy_commands. reflexivity. }
  repeat split; try assumption;
    rewrite ?inject_Z_plus, ?inject_Z_opp in *;
    unfold Z.sub; rewrite ?inject_Z_plus, ?inject_Z_opp;
    change (inject_Z 1) with 1%Q; lra.
Qed.

Lemma between_is_finite (lo hi x : float) :
  match Prim2SF lo with S754_finite _ _ _ | S754_zero _ => True | _ => False end ->
  match Prim2SF hi with S754_finite _ _ _ | S754_zero _ => True | _ => False end ->
  Host.between lo hi x = true ->
  exists n, Py.int_of_float x = Py.Return n.
Proof.
  unfold Host.between, Py.int_of_float. rewrite !leb_spec. unfold SFleb.
  intros Hlo Hhi H. apply andb_true_iff in H as [H1 H2].
  destruct (Prim2SF x) as [s | s | | s m e]; eauto.
  - destruct (Prim2SF lo), (Prim2SF hi); try contradiction;
      destruct s; simpl in *; discriminate.
  - destruct (Prim2SF lo); simpl in H1; try discriminate; contradiction.
Qed.

Lemma dem_validate_true (a : DownloadDem.args) (w w1 : Host.world) :
  DownloadDem.validate_coordinates a w = (w1, Py.Return true) ->
  w1 = w /\
  Host.between (-90) 90 (DownloadDem.lat_min a) = true /\
  Host.between (-90) 90 (DownloadDem.lat_max a) = true /\
  Host.between (-180) 180 (DownloadDem.lon_min a) = true /\
  Host.between (-180) 180 (DownloadDem.lon_max a) = true.
Proof.
  unfold DownloadDem.validate_coordinates, mbind, Py.M_bind, Host.print, mret, Py.M_ret.
  destruct (_ <=? _)%float; [discriminate|].
  destruct (_ <=? _)%float; [discriminate|].
  destruct (Host.between (-90) 90 (DownloadDem.lat_min a)); [|discriminate].
  destruct (Host.between (-90) 90 (DownloadDem.lat_max a)); [|discriminate].
  destruct (Host.between (-180) 180 (DownloadDem.lon_min a)); [|discriminate].
  destruct (Host.between (-180) 180 (DownloadDem.lon_max a)); [|discriminate].
  simpl. intros [= <-]. repeat split.
Qed.

(** X11: coordinates that pass [validate_coordinates] are finite, so the
    four [int(float(...))] conversions of [download_S1_SLC_dem] cannot
    raise: when the DEM directory can be made and entered, the script ends
    with exit code 0 or 1 and never with an exception, and exit code 0
    means that exactly one command was started, in the DEM directory. *)
Theorem X11_validated_dem_run_ends_with_exit_code (os : Host.OS) (a : DownloadDem.args)
    (w : Host.world) :
  (DownloadDem.validate_coordinates a w).2 = Py.Return true ->
  (forall w0 d, Host.fault os w0 (Host.Mkdir d) = None) ->
  (forall w0 d, Host.fault os w0 (Host.Chdir d) = None) ->
  let r := DownloadDem.main os a w in
  (r.2 = Py.Return 0 \/ r.2 = Py.Return 1) /\
  (r.2 = Py.Return 0 ->
   exists cmd,
     Host.commands (Host.history r.1)
     = Host.commands (Host.history w) ++ [(cmd, DownloadDem.dem_dir a)]).
Proof.
  intros Hvalid Hmk Hcd. cbv zeta. unfold DownloadDem.main, mbind, Py.M_bind.
  destruct (DownloadDem.validate_coordinates a w) as [w1 r1] eqn:Hv.
  simpl in Hvalid. subst r1.
  apply dem_validate_true in Hv as (-> & Hb1 & Hb2 & Hb3 & Hb4). simpl.
  apply between_is_finite in Hb1 as [n1 Hn1]; [|exact I..].
  apply between_is_finite in Hb2 as [n2 Hn2]; [|exact I..].
  apply between_is_finite in Hb3 as [n3 Hn3]; [|exact I..].
  apply between_is_finite in Hb4 as [n4 Hn4]; [|exact I..].
  unfold DownloadDem.download_S1_SLC_dem, mbind, Py.M_bind, Host.attempt.
  rewrite Hmk, Hcd. unfold Py.lift, Py.result_bind, Py.bind.
  rewrite Hn1, Hn2, Hn3, Hn4. unfold Py.try_except, Host.print.
  match goal with |- context [Host.fault os ?w0 (Host.OpenW ?p)] =>
    destruct (Host.fault os w0 (Host.OpenW p)) as [e|] end.
  { destruct e; simpl; (split; [right; reflexivity | discriminate]). }
  match goal with |- context [Host.fault os ?w0 (Host.Run ?cmd ?cwd)] =>
    destruct (Host.fault os w0 (Host.Run cmd cwd)) as [e|] end.
  - destruct e; simpl; (split; [right; reflexivity | discriminate]).
  - simpl. split; [left; reflexivity|]. intros _. eexists.
    rewrite !commands_snoc. simpl. rewrite !app_nil_r. reflexivity.
Qed.

(** A box in western China on the workstation. *)
Lemma X11_witness_valid_box :
  let r := DownloadDem.main Scenario.workstation
             (DownloadDem.Build_args 30.5 32.25 100 102 "/dem") (Host.World []) in
  (r.2 = Py.Return 0 \/ r.2 = Py.Return 1) /\
  (r.2 = Py.Return 0 ->
   exists cmd,
     Host.commands (Host.history r.1)
     = Host.commands (Host.history (Host.World [])) ++ [(cmd, "/dem")]).
Proof.
  apply (X11_validated_dem_run_ends_with_exit_code Scenario.workstation
           (DownloadDem.Build_args 30.5 32.25 100 102 "/dem") (Host.World [])).
  - vm_compute. reflexivity.
  - intros w0 d. reflexivity.
  - intros w0 d. reflexivity.
Defined.

(** ** The stack generator *)

Lemma work_snoc (h : list Host.event) (ev : Host.event) :
  Host.work (h ++ [ev])
  = Host.work h ++ match ev with Host.Print _ => [] | _ => [ev] end.
Proof.
  unfold Host.work. rewrite List.filter_app. simpl.
  destruct ev; simpl; rewrite ?app_nil_r; reflexivity.
Qed.

Lemma stack_validate_true (a : Stack.args) (w w1 : Host.world) :
  Stack.validate_coordinates a w = (w1, Py.Return true) -> w1 = w.
Proof.
  unfold Stack.validate_coordinates, mbind, Py.M_bind, Host.print, mret, Py.M_ret.
  destruct (_ <=? _)%float; [discriminate|].
  destruct (_ <=? _)%float; [discriminate|].
  destruct (negb _); [discriminate|].
  destruct (negb _); [discriminate|].
  intros [= <-]. reflexivity.
Qed.

(** X12: with coordinates that pass, a number of looks at or below 0 makes
    [Stack.py] print one error line and exit with code 1 before any
    directory is made or command started; two positive numbers of looks
    pass [validate_parameters] without a word. *)
Theorem X12_nonpositive_looks_rejected (os : Host.OS) (a : Stack.args) (w : Host.world) :
  (Stack.validate_coordinates a w).2 = Py.Return true ->
  (Stack.nalks a <= 0 \/ Stack.nrlks a <= 0 ->
   Host.only_printed w (Stack.main os a w) 1) /\
  (0 < Stack.nalks a -> 0 < Stack.nrlks a ->
   Stack.validate_parameters a w = (w, Py.Return true)).
Proof.
  intros Hvalid. split.
  - intros Hbad. unfold Stack.main, mbind, Py.M_bind.
    destruct (Stack.validate_coordinates a w) as [w1 r1] eqn:Hv.
    simpl in Hvalid. subst r1. apply stack_validate_true in Hv as ->. simpl.
    unfold Stack.validate_parameters.
    assert (Hc : (Stack.nalks a <=? 0) || (Stack.nrlks a <=? 0) = true).
    { apply orb_true_iff. destruct Hbad; [left | right]; apply Z.leb_le; assumption. }
    rewrite Hc. unfold Host.print, mret, Py.M_ret. simpl.
    split; [reflexivity|]. split; [|eauto].
    simpl. rewrite work_snoc. apply app_nil_r.
  - intros H1 H2. unfold Stack.validate_parameters.
    assert (Hc : (Stack.nalks a <=? 0) || (Stack.nrlks a <=? 0) = false).
    { apply orb_false_iff. split; apply Z.leb_gt; assumption. }
    rewrite Hc. reflexivity.
Qed.

(** A good box with zero azimuth looks. *)
Lemma X12_witness_zero_looks :
  (Stack.nalks (Stack.Build_args 30.5 32.25 100 102 "/dem" "/aux" "/slc" "/orbits" 0 9 "/work")
     <= 0 \/
   Stack.nrlks (Stack.Build_args 30.5 32.25 100 102 "/dem" "/aux" "/slc" "/orbits" 0 9 "/work")
     <= 0 ->
   Host.only_printed (Host.World [])
     (Stack.main Scenario.workstation
        (Stack.Build_args 30.5 32.25 100 102 "/dem" "/aux" "/slc" "/orbits" 0 9 "/work")
        (Host.World [])) 1) /\
  Py.exit_code
    (Stack.main Scenario.workstation
       (Stack.Build_args 30.5 32.25 100 102 "/dem" "/aux" "/slc" "/orbits" 0 9 "/work")
       (Host.World [])).2 = 1.
Proof.
  pose proof (X12_nonpositive_looks_rejected Scenario.workstation
                (Stack.Build_args 30.5 32.25 100 102 "/dem" "/aux" "/slc" "/orbits" 0 9 "/work")
                (Host.World []) eq_refl) as [Hbad _].
  split; [exact Hbad|]. reflexivity.
Defined.

Lemma find_dem_file_inv (os : Host.OS) (dem_dir : string) (w w' : Host.world)
    (r : Py.result string) :
  Stack.find_dem_file os dem_dir w = (w', r) ->
  Host.work (Host.history w') = Host.work (Host.history w) /\
  Host.commands (Host.history w') = Host.commands (Host.history w) /\
  let wgs84 := List.filter (fun n => String.eqb (Py.slice n (Some (-5)) None) "wgs84")
                 (Host.listdir os dem_dir) in
  match r with
  | Py.Return p =>
      Host.path_exists os dem_dir = true /\ Host.path_is_dir os dem_dir = true /\
      exists n rest, wgs84 = n :: rest /\ p = Py.path_div dem_dir n
  | Py.Raise e =>
      (Host.path_exists os dem_dir = false /\ e = Py.FileNotFoundError) \/
      (Host.path_exists os dem_dir = true /\ Host.path_is_dir os dem_dir = false
       /\ e = Py.NotADirectoryError) \/
      (Host.path_exists os dem_dir = true /\ Host.path_is_dir os dem_dir = true
       /\ wgs84 = [] /\ e = Py.FileNotFoundError)
  end.
Proof.
  unfold Stack.find_dem_file, Py.raise.
  destruct (Host.path_exists os dem_dir); simpl.
  2: { intros [= <- <-]. repeat split; auto. }
  destruct (Host.path_is_dir os dem_dir); simpl.
  2: { intros [= <- <-]. repeat split; auto. }
  destruct (List.filter _ (Host.listdir os dem_dir)) as [|n rest] eqn:Hf; simpl.
  { intros [= <- <-]. split; [reflexivity|]. split; [reflexivity|].
    cbv zeta. right. right. auto. }
  destruct rest as [|n' rest'].
  - unfold mbind, Py.M_bind, mret, Py.M_ret. intros [= <- <-].
    repeat split; eauto.
  - unfold mbind, Py.M_bind, mret, Py.M_ret, Host.print. intros [= <- <-]. simpl.
    rewrite work_snoc, commands_snoc, !app_nil_r. repeat split; eauto.
Qed.

(** X13: when the DEM directory is missing, is no directory, or holds no
    entry ending in [wgs84], [stack_sentinel] does not answer [False]: after
    making the process directory it raises [FileNotFoundError] or
    [NotADirectoryError], and [stackSentinel.py] is never started. *)
Theorem X13_missing_dem_raises_before_any_command (os : Host.OS)
    (lat_min lat_max lon_min lon_max : float)
    (dem_dir aux_dir slc_dir orbits_dir : string) (nalks nrlks : Z)
    (process_dir : string) (w : Host.world) :
  Host.fault os w (Host.Mkdir process_dir) = None ->
  Host.path_exists os dem_dir = false \/ Host.path_is_dir os dem_dir = false \/
  List.filter (fun n => String.eqb (Py.slice n (Some (-5)) None) "wgs84")
    (Host.listdir os dem_dir) = [] ->
  let r := Stack.stack_sentinel os lat_min lat_max lon_min lon_max
             dem_dir aux_dir slc_dir orbits_dir nalks nrlks process_dir w in
  (r.2 = Py.Raise Py.FileNotFoundError \/ r.2 = Py.Raise Py.NotADirectoryError) /\
  Host.work (Host.history r.1) = Host.work (Host.history w) ++ [Host.Mkdir process_dir] /\
  Host.commands (Host.history r.1) = Host.commands (Host.history w).
Proof.
  intros Hmk Hmissing. cbv zeta.
  unfold Stack.stack_sentinel, mbind, Py.M_bind, Host.attempt. rewrite Hmk.
  destruct (Stack.find_dem_file os dem_dir _) as [w1 r1] eqn:Hfind.
  apply find_dem_file_inv in Hfind as (Hwork & Hcmd & Hres). simpl in Hwork, Hcmd.
  rewrite work_snoc in Hwork. rewrite commands_snoc, app_nil_r in Hcmd.
  destruct r1 as [p|e].
  - exfalso. destruct Hres as (He & Hd & n & rest & Hf & _).
    destruct Hmissing as [H | [H | H]]; congruence.
  - simpl. split; [|split; assumption].
    destruct Hres as [(_ & ->) | [(_ & _ & ->) | (_ & _ & _ & ->)]]; auto.
Qed.

(** The workstation with an empty DEM directory. *)
Lemma X13_witness_empty_dem_directory :
  let os := {| Host.path_exists := fun _ => true; Host.path_is_dir := fun _ => true;
               Host.listdir := fun _ => []; Host.repr_float := fun _ => "0.0";
               Host.fault := fun _ _ => None |} in
  let r := Stack.stack_sentinel os 30.5 32.25 100 102 "/dem" "/aux" "/slc" "/orbits" 3 9
             "/work" (Host.World []) in
  (r.2 = Py.Raise Py.FileNotFoundError \/ r.2 = Py.Raise Py.NotADirectoryError) /\
  Host.work (Host.history r.1) = Host.work (Host.history (Host.World [])) ++ [Host.Mkdir "/work"] /\
  Host.commands (Host.history r.1) = Host.commands (Host.history (Host.World [])).
Proof.
  apply (X13_missing_dem_raises_before_any_command
           {| Host.path_exists := fun _ => true; Host.path_is_dir := fun _ => true;
              Host.listdir := fun _ => []; Host.repr_float := fun _ => "0.0";
              Host.fault := fun _ _ => None |}
           30.5 32.25 100 102 "/dem" "/aux" "/slc" "/orbits" 3 9 "/work" (Host.World [])).
  - reflexivity.
  - right. right. reflexivity.
Defined.
